(** * Retrieval fusion and agentic control core: a shallow embedding

    The development follows the Python sources
    - [src/retrieval/retriever.py]   (class [DocumentRetriever])
    - [src/eval/relevance_grader.py] (class [RelevanceGrader])
    - [src/eval/hallucination_grader.py] (class [HallucinationGrader])
    - [src/agent/research.py]        (class [ResearchRefiner])
    - [src/agent/graph.py]           (class [AgentGraph])
    - [src/tools/web_search.py]      (class [WebSearchTool])
    - [src/generation/generator.py]  (class [AnswerGenerator])

    Python [str] is modelled by [string] (ASCII text), Python [int] by [Z],
    Python [float] by a carrier with the operations the code uses
    ([ScoreArith]), insertion-ordered [dict] by an association list, and
    code that may raise or call a collaborator by the monad [Eff], which
    threads the log of collaborator calls and an exception outcome. *)

From Stdlib Require Import List String Ascii Bool Arith ZArith QArith Lia.
From Stdlib Require Import Permutation Sorted.
From Stdlib Require Import Decimal DecimalString.
Import ListNotations.

Local Close Scope Q_scope.
Local Open Scope string_scope.
Local Open Scope list_scope.

(* ================================================================== *)
(** ** Python string operations used by the sources *)
(* ================================================================== *)

Module PyStr.

(** [str.lower] on ASCII text. *)
Definition lower_ascii (c : ascii) : ascii :=
  let n := nat_of_ascii c in
  if (65 <=? n)%nat && (n <=? 90)%nat then ascii_of_nat (n + 32) else c.

Fixpoint lower (s : string) : string :=
  match s with
  | EmptyString => EmptyString
  | String c s' => String (lower_ascii c) (lower s')
  end.

(** ASCII characters for which [str.isspace] holds. *)
Definition is_space (c : ascii) : bool :=
  let n := nat_of_ascii c in
  ((9 <=? n)%nat && (n <=? 13)%nat) || ((28 <=? n)%nat && (n <=? 32)%nat).

Fixpoint mem_char (c : ascii) (chars : string) : bool :=
  match chars with
  | EmptyString => false
  | String d chars' => Ascii.eqb c d || mem_char c chars'
  end.

(** [s.lstrip(chars)] with the set of characters given as a predicate. *)
Fixpoint lstrip_by (p : ascii -> bool) (s : string) : string :=
  match s with
  | EmptyString => EmptyString
  | String c s' => if p c then lstrip_by p s' else s
  end.

Fixpoint rev_string (s : string) : string :=
  match s with
  | EmptyString => EmptyString
  | String c s' => rev_string s' ++ String c EmptyString
  end.

Definition rstrip_by (p : ascii -> bool) (s : string) : string :=
  rev_string (lstrip_by p (rev_string s)).

(** [s.lstrip(chars)] *)
Definition lstrip (chars : string) (s : string) : string :=
  lstrip_by (fun c => mem_char c chars) s.

(** [s.strip()] *)
Definition strip (s : string) : string :=
  rstrip_by is_space (lstrip_by is_space s).

Fixpoint is_prefix (p s : string) : bool :=
  match p, s with
  | EmptyString, _ => true
  | String a p', String b s' => Ascii.eqb a b && is_prefix p' s'
  | String _ _, EmptyString => false
  end.

(** [needle in hay] *)
Fixpoint contains (needle hay : string) : bool :=
  is_prefix needle hay ||
  match hay with
  | EmptyString => false
  | String _ hay' => contains needle hay'
  end.

(** [s.split(sep)] for a one-character separator: always at least one
    field, empty fields kept. *)
Fixpoint split (sep : ascii) (s : string) : list string :=
  match s with
  | EmptyString => [EmptyString]
  | String c s' =>
      if Ascii.eqb c sep then EmptyString :: split sep s'
      else match split sep s' with
           | [] => [String c EmptyString]
           | f :: fs => String c f :: fs
           end
  end.

(** [s[:n]] for [n >= 0] *)
Fixpoint take (n : nat) (s : string) : string :=
  match n, s with
  | O, _ => EmptyString
  | S _, EmptyString => EmptyString
  | S n', String c s' => String c (take n' s')
  end.

(** [sep.join(parts)] *)
Fixpoint join (sep : string) (parts : list string) : string :=
  match parts with
  | [] => EmptyString
  | [p] => p
  | p :: ps => p ++ sep ++ join sep ps
  end.

(** Truthiness of a string: non-empty. *)
Definition truthy (s : string) : bool :=
  match s with EmptyString => false | _ => true end.

Definition newline : ascii := ascii_of_nat 10.
Definition nl : string := String newline EmptyString.

End PyStr.

(** [str(i)] for an int, as f-strings format it. *)
Definition str_int (i : Z) : string := NilZero.string_of_int (Z.to_int i).

(** [enumerate(xs, 1)] *)
Definition enumerate_from_1 {A} (xs : list A) : list (Z * A) :=
  combine (map (fun n => Z.of_nat (S n)) (seq 0 (List.length xs))) xs.

(* ================================================================== *)
(** ** Exceptions, collaborator calls and the effect monad *)
(* ================================================================== *)

(** A raised Python exception, carrying its message. *)
Inductive exn : Type := Exception (msg : string).

(** What a call that may raise produces. *)
Inductive outcome (A : Type) : Type :=
| Ok (a : A)
| Raise (e : exn).
Arguments Ok {A} a.
Arguments Raise {A} e.

(** The external collaborators the core talks to. *)
Inductive Call : Type :=
| KeywordSearch        (* self.bm25_retriever.invoke *)
| VectorSearch         (* self.vectorstore.similarity_search[_with_score] *)
| RelevanceJudge       (* RelevanceGrader.llm.invoke *)
| GroundednessJudge    (* HallucinationGrader.llm.invoke *)
| AnswerGeneration     (* AnswerGenerator.generate_answer *)
| PlannerGeneration    (* ResearchRefiner.llm.invoke *)
| SynthesisGeneration  (* ResearchSynthesizer.llm.invoke *)
| WebSearchCall.       (* WebSearchTool.search *)

Definition Call_eqb (a b : Call) : bool :=
  match a, b with
  | KeywordSearch, KeywordSearch | VectorSearch, VectorSearch
  | RelevanceJudge, RelevanceJudge | GroundednessJudge, GroundednessJudge
  | AnswerGeneration, AnswerGeneration | PlannerGeneration, PlannerGeneration
  | SynthesisGeneration, SynthesisGeneration | WebSearchCall, WebSearchCall => true
  | _, _ => false
  end.

(** Code with effects: it reads and extends the log of collaborator calls
    made so far and either returns or raises. *)
Definition Eff (A : Type) : Type := list Call -> outcome A * list Call.

Module EffMonad.

Definition ret {A} (a : A) : Eff A := fun log => (Ok a, log).

Definition raise {A} (e : exn) : Eff A := fun log => (Raise e, log).

Definition bind {A B} (m : Eff A) (f : A -> Eff B) : Eff B :=
  fun log =>
    match m log with
    | (Ok a, log') => f a log'
    | (Raise e, log') => (Raise e, log')
    end.

(** One call of collaborator [c] whose answer is [r]. *)
Definition call {A} (c : Call) (r : outcome A) : Eff A :=
  fun log => (r, log ++ [c]).

(** [try: body  except Exception as e: handler e] *)
Definition try_except {A} (body : Eff A) (handler : exn -> Eff A) : Eff A :=
  fun log =>
    match body log with
    | (Ok a, log') => (Ok a, log')
    | (Raise e, log') => handler e log'
    end.

(** Lift a computation that can only raise. *)
Definition lift {A} (r : outcome A) : Eff A := fun log => (r, log).

(** Number of calls of collaborator [c] recorded in a log. *)
Definition calls_of (c : Call) (log : list Call) : nat :=
  List.length (filter (Call_eqb c) log).

End EffMonad.
Import EffMonad.

Declare Scope eff_scope.
Delimit Scope eff_scope with eff.
Notation "x <- m ;; k" := (bind m (fun x => k))
  (at level 61, m at next level, right associativity) : eff_scope.
Local Open Scope eff_scope.

(* ================================================================== *)
(** ** Insertion-ordered dictionaries with string keys *)
(* ================================================================== *)

Section OrderedDict.
Context {V : Type}.

(** A Python [dict]: entries in insertion order, at most one per key. *)
Definition odict : Type := list (string * V).

(** [d.get(key)] *)
Fixpoint od_get (key : string) (d : odict) : option V :=
  match d with
  | [] => None
  | (k, v) :: d' => if String.eqb key k then Some v else od_get key d'
  end.

(** [key in d] *)
Definition od_mem (key : string) (d : odict) : bool :=
  match od_get key d with Some _ => true | None => false end.

(** [d[key] = v]: an existing key keeps its position, a new one is
    appended. *)
Fixpoint od_set (key : string) (v : V) (d : odict) : odict :=
  match d with
  | [] => [(key, v)]
  | (k, v') :: d' =>
      if String.eqb key k then (k, v) :: d' else (k, v') :: od_set key v d'
  end.

(** [list(d.keys())] *)
Definition od_keys (d : odict) : list string := map fst d.

(** [list(d.items())] *)
Definition od_items (d : odict) : list (string * V) := d.

End OrderedDict.
Arguments odict V : clear implicits.

(* ================================================================== *)
(** ** Python numbers *)
(* ================================================================== *)

(** The operations on Python [float] that the retriever uses.  The fused
    scores and similarity scores are numbers (never NaN), on which [<] is
    a strict weak order; nothing else about floating-point arithmetic is
    assumed. *)
Class ScoreArith : Type := {
  float : Type;
  fzero : float;                       (* 0.0 *)
  fone : float;                        (* 1.0 *)
  fdec : Z -> positive -> float;       (* the literal n/d, e.g. 0.7 *)
  of_int : Z -> float;                 (* int to float *)
  fadd : float -> float -> float;      (* a + b *)
  fdiv : float -> float -> float;      (* a / b *)
  fltb : float -> float -> bool;       (* a < b *)
  fltb_asym : forall a b, fltb a b = true -> fltb b a = false;
  fltb_negtrans :
    forall a b c, fltb a b = false -> fltb b c = false -> fltb a c = false
}.

(** [a >= b] *)
Definition fgeb `{ScoreArith} (a b : float) : bool := negb (fltb a b).

(** Truthiness of a float: non-zero. *)
Definition float_truthy `{ScoreArith} (a : float) : bool :=
  fltb a fzero || fltb fzero a.

(** Exact rationals as an instance, used to run the model. *)
Definition Qltb (a b : Q) : bool := negb (Qle_bool b a).

#[export] Instance QScore : ScoreArith.
Proof.
  refine {| float := Q; fzero := 0%Q; fone := 1%Q;
            fdec := fun n d => Qmake n d; of_int := inject_Z;
            fadd := Qplus; fdiv := Qdiv; fltb := Qltb;
            fltb_asym := _; fltb_negtrans := _ |}.
  - intros a b L. unfold Qltb in *.
    apply negb_true_iff in L. apply negb_false_iff. apply Qle_bool_iff.
    apply Qlt_le_weak. apply Qnot_le_lt. intro H.
    apply Qle_bool_iff in H. congruence.
  - intros a b c0 L1 L2. unfold Qltb in *.
    apply negb_false_iff in L1, L2. apply negb_false_iff.
    apply Qle_bool_iff in L1, L2. apply Qle_bool_iff.
    eapply Qle_trans; eassumption.
Defined.

(** [x or default] on an optional int: [None] and [0] are falsy. *)
Definition int_or (x : option Z) (default : Z) : Z :=
  match x with
  | Some z => if (z =? 0)%Z then default else z
  | None => default
  end.

(** [xs[:k]] for a Python int [k]: a negative [k] counts from the end. *)
Definition slice_to {A} (k : Z) (xs : list A) : list A :=
  if (k <? 0)%Z then firstn (List.length xs - Z.to_nat (- k)) xs
  else firstn (Z.to_nat k) xs.

(** [list(enumerate(xs))] *)
Definition enumerate {A} (xs : list A) : list (nat * A) :=
  combine (seq 0 (List.length xs)) xs.

(* ================================================================== *)
(** ** src/retrieval/retriever.py *)
(* ================================================================== *)

(** [langchain_core.documents.Document] *)
Record Document : Type := {
  page_content : string;
  metadata : list (string * string)
}.

Module DocumentRetriever.
Section WithScores.
Context `{SA : ScoreArith}.

(** The vector store wrapper ([ChromaVectorStore]); each method raises
    when the store is not initialised or the backend fails. *)
Record VectorStore : Type := {
  get_vectorstore : outcome unit;
  similarity_search : string -> Z -> outcome (list Document);
  similarity_search_with_score :
    string -> Z -> outcome (list (Document * float))
}.

(** A keyword index: [BM25Retriever.invoke]. *)
Definition BM25Retriever : Type := string -> outcome (list Document).

Record t : Type := {
  vectorstore : VectorStore;
  bm25_retriever : option BM25Retriever;
  top_k : Z;
  similarity_threshold : float
}.

(** The process environment, with the two variables the constructor
    reads already parsed. *)
Record Environ : Type := {
  RETRIEVAL_TOP_K : option Z;
  SIMILARITY_THRESHOLD : option float
}.

(** [__init__] *)
Definition init
    (env : Environ)
    (BM25_from_documents : list Document -> outcome BM25Retriever)
    (vs : VectorStore) (documents : option (list Document))
    (top_k_arg : option Z) (similarity_threshold_arg : option float)
  : t :=
  let top_k := int_or top_k_arg
                 (match RETRIEVAL_TOP_K env with Some z => z | None => 5%Z end) in
  let env_threshold :=
    match SIMILARITY_THRESHOLD env with Some t => t | None => fdec 7 10 end in
  let threshold :=
    match similarity_threshold_arg with
    | Some t => if float_truthy t then t else env_threshold
    | None => env_threshold
    end in
  let bm25 :=
    match documents with
    | Some (d :: ds) =>
        match BM25_from_documents (d :: ds) with
        | Ok r =>
            match get_vectorstore vs with
            | Ok _ => Some r
            | Raise _ => None
            end
        | Raise _ => None
        end
    | _ => None
    end in
  {| vectorstore := vs; bm25_retriever := bm25;
     top_k := top_k; similarity_threshold := threshold |}.

(** [_retrieve_semantic] *)
Definition _retrieve_semantic (self : t)
    (query : string) (k : Z) : Eff (list Document) :=
  results <- call VectorSearch
               (similarity_search_with_score (vectorstore self) query k) ;;
  let filtered_results :=
    map fst
      (filter (fun ds => fgeb (snd ds) (similarity_threshold self)) results) in
  ret filtered_results.

(** The RRF constant [c = 60]. *)
Definition c : Z := 60.

(** [1.0 / (c + rank + 1)] for the 0-based [rank] of [enumerate]. *)
Definition rrf_term (rank : nat) : float :=
  fdiv fone (of_int (c + Z.of_nat rank + 1)%Z).

(** [scores[key] += t]; the key is present whenever this runs. *)
Definition od_iadd (key : string) (t : float) (scores : odict float)
  : odict float :=
  match od_get key scores with
  | Some s => od_set key (fadd s t) scores
  | None => scores
  end.

(** The part of both loop bodies that updates [scores]. *)
Definition score_step (scores : odict float) (rank : nat) (key : string)
  : odict float :=
  let scores :=
    if od_mem key scores then scores else od_set key fzero scores in
  od_iadd key (rrf_term rank) scores.

(** Body of the loop "Process BM25". *)
Definition bm25_step (st : odict float * odict Document)
    (it : nat * Document) : odict float * odict Document :=
  let '(scores, doc_map) := st in
  let '(rank, doc) := it in
  let key := page_content doc in
  let doc_map := od_set key doc doc_map in
  (score_step scores rank key, doc_map).

(** Body of the loop "Process Semantic". *)
Definition vector_step (st : odict float * odict Document)
    (it : nat * Document) : odict float * odict Document :=
  let '(scores, doc_map) := st in
  let '(rank, doc) := it in
  let key := page_content doc in
  let doc_map :=
    if od_mem key doc_map then doc_map else od_set key doc doc_map in
  (score_step scores rank key, doc_map).

(** [scores] and [doc_map] after both loops. *)
Definition rrf_tables (bm25_docs vector_results : list Document)
  : odict float * odict Document :=
  fold_left vector_step (enumerate vector_results)
    (fold_left bm25_step (enumerate bm25_docs) ([], [])).

(** Stable insertion into a list that is descending by score: the new
    entry goes before the first entry that is not strictly greater. *)
Fixpoint insert_desc (x : string * float) (l : list (string * float))
  : list (string * float) :=
  match l with
  | [] => [x]
  | y :: l' => if fltb (snd x) (snd y) then y :: insert_desc x l' else x :: l
  end.

(** [sorted(items, key=lambda x: x[1], reverse=True)]: descending by
    score, entries with equal scores in their original order. *)
Definition sorted_desc (items : list (string * float))
  : list (string * float) :=
  fold_right insert_desc [] items.

(** [[doc_map[content] for content, score in entries]] *)
Fixpoint lookup_docs (doc_map : odict Document)
    (entries : list (string * float)) : outcome (list Document) :=
  match entries with
  | [] => Ok []
  | (content, _) :: rest =>
      match od_get content doc_map with
      | None => Raise (Exception "KeyError")
      | Some d =>
          match lookup_docs doc_map rest with
          | Ok ds => Ok (d :: ds)
          | Raise e => Raise e
          end
      end
  end.

(** Steps 3 onwards of [_retrieve_hybrid]: the ranked merge. *)
Definition rrf_merge (bm25_docs vector_results : list Document) (k : Z)
  : outcome (list Document) :=
  let '(scores, doc_map) := rrf_tables bm25_docs vector_results in
  let sorted_docs := sorted_desc (od_items scores) in
  lookup_docs doc_map (slice_to k sorted_docs).

(** [_retrieve_hybrid] *)
Definition _retrieve_hybrid (self : t) (bm25 : BM25Retriever)
    (query : string) (k : Z) : Eff (list Document) :=
  bm25_docs <- call KeywordSearch (bm25 query) ;;
  vector_results <- call VectorSearch
                      (similarity_search (vectorstore self) query k) ;;
  lift (rrf_merge bm25_docs vector_results k).

(** [retrieve] *)
Definition retrieve (self : t) (query : string)
    (k : option Z) : Eff (list Document) :=
  let k := int_or k (top_k self) in
  match bm25_retriever self with
  | Some bm25 => _retrieve_hybrid self bm25 query k
  | None => _retrieve_semantic self query k
  end.

End WithScores.
End DocumentRetriever.

(* ================================================================== *)
(** ** Chat messages and the language-model collaborator *)
(* ================================================================== *)

Inductive Message : Type :=
| SystemMessage (content : string)
| HumanMessage (content : string)
| AIMessage (content : string).

(** [llm.invoke(messages).content]: the text of the reply, or the call
    raises. *)
Definition ChatModel : Type := list Message -> outcome string.

(* ================================================================== *)
(** ** src/eval/relevance_grader.py *)
(* ================================================================== *)

Module RelevanceGrader.

Record t : Type := {
  SYSTEM_PROMPT : string;   (* the class constant; its text plays no role *)
  llm : ChatModel
}.

Definition user_prompt (context_preview question : string) : string :=
  "Retrieved document snippets:" ++ PyStr.nl ++
  "        " ++ context_preview ++ PyStr.nl ++
  "        " ++ PyStr.nl ++
  "        User Question: " ++ question ++ PyStr.nl ++
  "        " ++ PyStr.nl ++
  "        Are these documents relevant to the question? (yes/no)".

(** The two messages sent to the judge. *)
Definition messages_for (self : t) (question : string)
    (documents : list Document) : list Message :=
  let context_preview :=
    PyStr.join (PyStr.nl ++ PyStr.nl)%string
      (map (fun d => PyStr.take 500 (page_content d))
           (firstn 3 documents)) in
  [SystemMessage (SYSTEM_PROMPT self);
   HumanMessage (user_prompt context_preview question)].

(** [grade] *)
Definition grade (self : t) (question : string) (documents : list Document)
  : Eff string :=
  match documents with
  | [] => ret "irrelevant"
  | _ :: _ =>
      let messages := messages_for self question documents in
      try_except
        (response <- call RelevanceJudge (llm self messages) ;;
         let grade := PyStr.lower (PyStr.strip response) in
         if PyStr.contains "yes" grade then ret "relevant"
         else ret "irrelevant")
        (fun e => ret "relevant")
  end.

End RelevanceGrader.

(* ================================================================== *)
(** ** src/eval/hallucination_grader.py *)
(* ================================================================== *)

Module HallucinationGrader.

Record t : Type := {
  SYSTEM_PROMPT : string;
  llm : ChatModel
}.

Definition prompt (context_text answer : string) : string :=
  "Context:" ++ PyStr.nl ++ context_text ++ PyStr.nl ++ PyStr.nl ++
  "Answer:" ++ PyStr.nl ++ answer ++ PyStr.nl ++ PyStr.nl ++
  "Is the answer grounded in the context? (yes/no):".

(** [check_groundedness] *)
Definition check_groundedness (self : t) (answer : string)
    (context_docs : list Document) : Eff bool :=
  let context_text :=
    PyStr.join (PyStr.nl ++ PyStr.nl)%string
      (map page_content context_docs) in
  let messages :=
    [SystemMessage (SYSTEM_PROMPT self);
     HumanMessage (prompt context_text answer)] in
  try_except
    (response <- call GroundednessJudge (llm self messages) ;;
     let grade := PyStr.lower (PyStr.strip response) in
     ret (PyStr.contains "yes" grade))
    (fun e => ret true).

End HallucinationGrader.

(* ================================================================== *)
(** ** src/agent/research.py *)
(* ================================================================== *)

Module ResearchRefiner.

Record t : Type := {
  SYSTEM_PROMPT : string;
  llm : ChatModel
}.

(** [q.strip().lstrip("- ").lstrip("123. ")] *)
Definition clean_line (q : string) : string :=
  PyStr.lstrip "123. " (PyStr.lstrip "- " (PyStr.strip q)).

(** The list comprehension over [content.split("\n")]. *)
Definition parse_queries (content : string) : list string :=
  map clean_line
    (filter (fun q => PyStr.truthy (PyStr.strip q))
            (PyStr.split PyStr.newline content)).

(** The two messages sent to the generation collaborator. *)
Definition messages_for (self : t) (question : string) : list Message :=
  [SystemMessage (SYSTEM_PROMPT self);
   HumanMessage ("User Question: " ++ question ++ PyStr.nl ++ PyStr.nl ++
                 "Generate 3 search queries:")%string].

(** [generate_queries] *)
Definition generate_queries (self : t) (question : string)
  : Eff (list string) :=
  let messages := messages_for self question in
  try_except
    (response <- call PlannerGeneration (llm self messages) ;;
     let content := PyStr.strip response in
     let queries := parse_queries content in
     ret (slice_to 3 queries))
    (fun e => ret [question]).

End ResearchRefiner.

Module ResearchSynthesizer.

Record t : Type := {
  SYSTEM_PROMPT : string;
  llm : ChatModel
}.

(** [synthesize] *)
Definition synthesize (self : t) (question web_context : string)
  : Eff string :=
  let prompt : string :=
    ("User Question: " ++ question ++ PyStr.nl ++ PyStr.nl ++
     "Web Search Context:" ++ PyStr.nl ++ web_context ++ PyStr.nl ++ PyStr.nl ++
     "Please provide a detailed report answering the question.")%string in
  let messages :=
    [SystemMessage (SYSTEM_PROMPT self); HumanMessage prompt] in
  try_except
    (call SynthesisGeneration (llm self messages))
    (fun e => match e with
              | Exception msg => ret ("Error synthesizing research: " ++ msg)%string
              end).

End ResearchSynthesizer.

(* ================================================================== *)
(** ** src/agent/graph.py *)
(* ================================================================== *)

(** A source reference: a Python dict from strings to strings. *)
Definition Source : Type := list (string * string).

(** What [AnswerGenerator.generate_answer] returns. *)
Record GenResult : Type := {
  gen_answer : string;
  gen_sources : option (list Source);
  gen_context_used : option Z
}.

(** One hit of [WebSearchTool.search]. *)
Record WebResult : Type := {
  title : string;
  href : string;
  body : string;
  query : option string
}.

(** [dict.get(key, default)] on a string dictionary. *)
Fixpoint dict_get (key : string) (d : list (string * string)) : option string :=
  match d with
  | [] => None
  | (k, v) :: d' => if String.eqb key k then Some v else dict_get key d'
  end.

(** The nodes of the workflow; [END] is LangGraph's terminal marker. *)
Inductive Node : Type :=
| N_retrieve
| N_grade_documents
| N_generate
| N_transform_query
| N_plan_research
| N_web_search
| N_synthesize_research
| N_check_hallucination
| END.

Definition Node_eqb (a b : Node) : bool :=
  match a, b with
  | N_retrieve, N_retrieve | N_grade_documents, N_grade_documents
  | N_generate, N_generate | N_transform_query, N_transform_query
  | N_plan_research, N_plan_research | N_web_search, N_web_search
  | N_synthesize_research, N_synthesize_research
  | N_check_hallucination, N_check_hallucination | END, END => true
  | _, _ => false
  end.

(** [AgentState]: a [TypedDict], so every key may be absent; [messages]
    is the one channel with a reducer ([operator.add]). *)
Record AgentState : Type := {
  messages : list Message;
  documents : option (list Document);
  question : option string;
  retry_count : option Z;
  context : option string;
  answer : option string;
  sources : option (list Source);
  context_used : option Z;
  research_queries : option (list string);
  is_web : option bool;
  hallucination_grade : option string
}.

(** The state LangGraph builds from the input [{"question": q}]. *)
Definition initial_state (q : string) : AgentState :=
  {| messages := []; documents := None; question := Some q;
     retry_count := None; context := None; answer := None; sources := None;
     context_used := None; research_queries := None; is_web := None;
     hallucination_grade := None |}.

(** [state[key]]: a missing key raises [KeyError]. *)
Definition getitem {A} (key : string) (x : option A) : Eff A :=
  match x with
  | Some a => ret a
  | None => raise (Exception ("KeyError: " ++ key)%string)
  end.

(** [state.get(key, default)] *)
Definition get_default {A} (x : option A) (default : A) : A :=
  match x with Some a => a | None => default end.

(** Writing one key of the state, as LangGraph does with each entry of the
    dictionary a node returns. *)
Definition add_messages (ms : list Message) (s : AgentState) : AgentState :=
  {| messages := messages s ++ ms; documents := documents s;
     question := question s; retry_count := retry_count s;
     context := context s; answer := answer s; sources := sources s;
     context_used := context_used s; research_queries := research_queries s;
     is_web := is_web s; hallucination_grade := hallucination_grade s |}.

Definition set_documents (v : list Document) (s : AgentState) : AgentState :=
  {| messages := messages s; documents := Some v; question := question s;
     retry_count := retry_count s; context := context s; answer := answer s;
     sources := sources s; context_used := context_used s;
     research_queries := research_queries s; is_web := is_web s;
     hallucination_grade := hallucination_grade s |}.

Definition set_question (v : string) (s : AgentState) : AgentState :=
  {| messages := messages s; documents := documents s; question := Some v;
     retry_count := retry_count s; context := context s; answer := answer s;
     sources := sources s; context_used := context_used s;
     research_queries := research_queries s; is_web := is_web s;
     hallucination_grade := hallucination_grade s |}.

Definition set_retry_count (v : Z) (s : AgentState) : AgentState :=
  {| messages := messages s; documents := documents s;
     question := question s; retry_count := Some v; context := context s;
     answer := answer s; sources := sources s;
     context_used := context_used s; research_queries := research_queries s;
     is_web := is_web s; hallucination_grade := hallucination_grade s |}.

Definition set_context (v : string) (s : AgentState) : AgentState :=
  {| messages := messages s; documents := documents s;
     question := question s; retry_count := retry_count s; context := Some v;
     answer := answer s; sources := sources s;
     context_used := context_used s; research_queries := research_queries s;
     is_web := is_web s; hallucination_grade := hallucination_grade s |}.

Definition set_answer (v : string) (s : AgentState) : AgentState :=
  {| messages := messages s; documents := documents s;
     question := question s; retry_count := retry_count s;
     context := context s; answer := Some v; sources := sources s;
     context_used := context_used s; research_queries := research_queries s;
     is_web := is_web s; hallucination_grade := hallucination_grade s |}.

Definition set_sources (v : list Source) (s : AgentState) : AgentState :=
  {| messages := messages s; documents := documents s;
     question := question s; retry_count := retry_count s;
     context := context s; answer := answer s; sources := Some v;
     context_used := context_used s; research_queries := research_queries s;
     is_web := is_web s; hallucination_grade := hallucination_grade s |}.

Definition set_context_used (v : Z) (s : AgentState) : AgentState :=
  {| messages := messages s; documents := documents s;
     question := question s; retry_count := retry_count s;
     context := context s; answer := answer s; sources := sources s;
     context_used := Some v; research_queries := research_queries s;
     is_web := is_web s; hallucination_grade := hallucination_grade s |}.

Definition set_research_queries (v : list string) (s : AgentState) : AgentState :=
  {| messages := messages s; documents := documents s;
     question := question s; retry_count := retry_count s;
     context := context s; answer := answer s; sources := sources s;
     context_used := context_used s; research_queries := Some v;
     is_web := is_web s; hallucination_grade := hallucination_grade s |}.

Definition set_is_web (v : bool) (s : AgentState) : AgentState :=
  {| messages := messages s; documents := documents s;
     question := question s; retry_count := retry_count s;
     context := context s; answer := answer s; sources := sources s;
     context_used := context_used s; research_queries := research_queries s;
     is_web := Some v; hallucination_grade := hallucination_grade s |}.

Definition set_hallucination_grade (v : string) (s : AgentState) : AgentState :=
  {| messages := messages s; documents := documents s;
     question := question s; retry_count := retry_count s;
     context := context s; answer := answer s; sources := sources s;
     context_used := context_used s; research_queries := research_queries s;
     is_web := is_web s; hallucination_grade := Some v |}.

(* ================================================================== *)
(** ** src/retrieval/retriever.py: the remaining methods *)
(* ================================================================== *)

Module RetrieverMore.
Section WithScores.
Context `{SA : ScoreArith}.

(** [retrieve_with_scores] *)
Definition retrieve_with_scores (self : DocumentRetriever.t)
    (query : string) (k : option Z) : Eff (list (Document * float)) :=
  let k := int_or k (DocumentRetriever.top_k self) in
  results <- call VectorSearch
               (DocumentRetriever.similarity_search_with_score
                  (DocumentRetriever.vectorstore self) query k) ;;
  let filtered_results :=
    filter (fun ds => fgeb (snd ds)
                        (DocumentRetriever.similarity_threshold self))
           results in
  ret filtered_results.

End WithScores.

(** One entry of [context_parts] in [format_context]. *)
Definition context_part (i : Z) (doc : Document) : string :=
  let source := get_default (dict_get "source" (metadata doc)) "Unknown" in
  let page := get_default (dict_get "page" (metadata doc)) "N/A" in
  ("[Source " ++ str_int i ++ "] " ++ source ++ " (Page " ++ page ++ "):" ++
   PyStr.nl ++ page_content doc ++ PyStr.nl)%string.

(** [format_context] *)
Definition format_context (documents : list Document) : string :=
  match documents with
  | [] => "No relevant information found."
  | _ :: _ =>
      PyStr.join PyStr.nl
        (map (fun it => context_part (fst it) (snd it))
             (enumerate_from_1 documents))
  end.

End RetrieverMore.

(* ================================================================== *)
(** ** src/tools/web_search.py *)
(* ================================================================== *)

Module WebSearchTool.

(** [DDGS().text(q, max_results=limit)]: the hits as dictionaries, or the
    call raises. *)
Definition DDGSClient : Type :=
  string -> Z -> outcome (list (list (string * string))).

Record t : Type := {
  max_results : Z;
  DDGS : option DDGSClient      (* [None] when the import failed *)
}.

(** The dictionary appended to [all_results] for one hit. *)
Definition hit (q : string) (r : list (string * string)) : WebResult :=
  {| title := get_default (dict_get "title" r) "";
     href := get_default (dict_get "href" r) "";
     body := get_default (dict_get "body" r) "";
     query := Some q |}.

(** The loop over [queries] inside the [try] block. *)
Fixpoint search_loop (self : t) (ddgs : DDGSClient) (queries : list string)
    (rest : list string) (all_results : list WebResult)
  : outcome (list WebResult) :=
  match rest with
  | [] => Ok all_results
  | q :: rest' =>
      let limit :=
        if (1 <? Z.of_nat (List.length queries))%Z then 3%Z
        else max_results self in
      match ddgs q limit with
      | Raise e => Raise e
      | Ok hits =>
          search_loop self ddgs queries rest' (all_results ++ map (hit q) hits)
      end
  end.

(** [search]: the argument is one query or a list of queries. *)
Definition search (self : t) (query : string + list string) : list WebResult :=
  match DDGS self with
  | None => []
  | Some ddgs =>
      let queries := match query with inl q => [q] | inr qs => qs end in
      match search_loop self ddgs queries queries [] with
      | Ok all_results => all_results
      | Raise _ => []
      end
  end.

(** One entry of [formatted] in [format_results]. *)
Definition formatted_result (i : Z) (res : WebResult) : string :=
  let q_info : string :=
    match query res with
    | Some q => (" [Query: " ++ q ++ "]")%string
    | None => ""
    end in
  ("[Web " ++ str_int i ++ "]" ++ q_info ++ " " ++ title res ++ PyStr.nl ++
   "URL: " ++ href res ++ PyStr.nl ++
   "Snippet: " ++ body res ++ PyStr.nl)%string.

(** [format_results] *)
Definition format_results (results : list WebResult) : string :=
  match results with
  | [] => "No web search results found."
  | _ :: _ =>
      PyStr.join PyStr.nl
        (map (fun it => formatted_result (fst it) (snd it))
             (enumerate_from_1 results))
  end.

End WebSearchTool.

(* ================================================================== *)
(** ** src/generation/generator.py *)
(* ================================================================== *)

Module AnswerGenerator.

Record t : Type := {
  SYSTEM_PROMPT : string;
  llm : ChatModel
}.

Definition filename_of (doc : Document) : string :=
  get_default (dict_get "filename" (metadata doc)) "Unknown".

Definition page_of (doc : Document) : string :=
  get_default (dict_get "page" (metadata doc)) "N/A".

(** One entry of [context_parts] in [_format_context]. *)
Definition context_part (i : Z) (doc : Document) : string :=
  ("[" ++ str_int i ++ "] From " ++ filename_of doc ++
   " (Page " ++ page_of doc ++ "):" ++ PyStr.nl ++ page_content doc)%string.

(** [_format_context] *)
Definition _format_context (documents : list Document) : string :=
  match documents with
  | [] => "No relevant information found."
  | _ :: _ =>
      PyStr.join (PyStr.nl ++ PyStr.nl)%string
        (map (fun it => context_part (fst it) (snd it))
             (enumerate_from_1 documents))
  end.

(** [source_key in seen] for the set of pairs [seen]. *)
Definition seen_mem (key : string * string) (seen : list (string * string))
  : bool :=
  existsb (fun k => String.eqb (fst key) (fst k) && String.eqb (snd key) (snd k))
          seen.

(** Body of the loop of [_extract_sources]. *)
Definition extract_step (st : list Source * list (string * string))
    (doc : Document) : list Source * list (string * string) :=
  let '(sources, seen) := st in
  let source_key := (filename_of doc, page_of doc) in
  if seen_mem source_key seen then (sources, seen)
  else (sources ++ [[("filename", filename_of doc); ("page", page_of doc)]],
        source_key :: seen).

(** [_extract_sources] *)
Definition _extract_sources (documents : list Document) : list Source :=
  fst (fold_left extract_step documents ([], [])).

Definition user_prompt (context query : string) : string :=
  "Context from company documents:" ++ PyStr.nl ++ context ++ PyStr.nl ++
  PyStr.nl ++ "Question: " ++ query ++ PyStr.nl ++ PyStr.nl ++
  "Please provide a concise, factual answer based on the context above. " ++
  "If the information is not available in the context, clearly state that.".

Definition messages_for (self : t) (query : string)
    (context_documents : list Document) : list Message :=
  [SystemMessage (SYSTEM_PROMPT self);
   HumanMessage (user_prompt (_format_context context_documents) query)].

(** [generate_answer]: the call of the model is not guarded. *)
Definition generate_answer (self : t) (query : string)
    (context_documents : list Document) : outcome GenResult :=
  match llm self (messages_for self query context_documents) with
  | Raise e => Raise e
  | Ok content =>
      Ok {| gen_answer := content;
            gen_sources := Some (_extract_sources context_documents);
            gen_context_used :=
              Some (Z.of_nat (List.length context_documents)) |}
  end.

End AnswerGenerator.

Module AgentGraph.
Section WithScores.
Context `{SA : ScoreArith}.

Record t : Type := {
  retriever : DocumentRetriever.t;
  format_context : list Document -> string;  (* retriever.format_context *)
  generate_answer : string -> list Document -> outcome GenResult;
  web_search_tool_search : list string -> list WebResult;
  web_search_tool_format_results : list WebResult -> string;
  grader : HallucinationGrader.t;
  relevance_grader : RelevanceGrader.t;
  research_refiner : ResearchRefiner.t;
  research_synthesizer : ResearchSynthesizer.t
}.

(** Node [retrieve] *)
Definition retrieve (self : t) (state : AgentState) : Eff AgentState :=
  q <- getitem "question" (question state) ;;
  docs <- DocumentRetriever.retrieve (retriever self) q None ;;
  ret (set_question q (set_documents docs state)).

(** Node [grade_documents] *)
Definition grade_documents (self : t) (state : AgentState) : Eff AgentState :=
  q <- getitem "question" (question state) ;;
  docs <- getitem "documents" (documents state) ;;
  let retries := get_default (retry_count state) 0%Z in
  grade <- RelevanceGrader.grade (relevance_grader self) q docs ;;
  if String.eqb grade "irrelevant"
  then ret (set_retry_count retries (set_documents [] state))
  else ret (set_retry_count retries (set_documents docs state)).

(** The retry limit written in [decide_to_generate]. *)
Definition max_retries : Z := 1.

(** Router [decide_to_generate] *)
Definition decide_to_generate (state : AgentState) : Eff string :=
  docs <- getitem "documents" (documents state) ;;
  let retries := get_default (retry_count state) 0%Z in
  match docs with
  | [] =>
      if (retries <? max_retries)%Z then ret "transform_query"
      else ret "plan_research"
  | _ :: _ => ret "generate"
  end.

(** Node [transform_query] *)
Definition transform_query (state : AgentState) : Eff AgentState :=
  q <- getitem "question" (question state) ;;
  let retries := get_default (retry_count state) 0%Z in
  let better_question := (q ++ " overview details")%string in
  ret (set_retry_count (retries + 1)%Z (set_question better_question state)).

(** Node [generate] *)
Definition generate (self : t) (state : AgentState) : Eff AgentState :=
  q <- getitem "question" (question state) ;;
  docs <- getitem "documents" (documents state) ;;
  result <- call AnswerGeneration (generate_answer self q docs) ;;
  let ans := gen_answer result in
  ret (set_context_used (get_default (gen_context_used result) 0%Z)
        (set_sources (get_default (gen_sources result) [])
          (set_answer ans
            (set_context (format_context self docs)
              (add_messages [AIMessage ans] state))))).

(** Node [plan_research] *)
Definition plan_research (self : t) (state : AgentState) : Eff AgentState :=
  q <- getitem "question" (question state) ;;
  queries <- ResearchRefiner.generate_queries (research_refiner self) q ;;
  ret (set_research_queries queries state).

(** The pseudo-document built from one web hit. *)
Definition web_document (res : WebResult) : Document :=
  {| page_content := (title res ++ PyStr.nl ++ body res)%string;
     metadata := [("filename", "Web Search"); ("page", href res);
                  ("type", "web");
                  ("query", get_default (query res) "Main")] |}.

(** Node [web_search] *)
Definition web_search (self : t) (state : AgentState) : Eff AgentState :=
  queries <-
    match research_queries state with
    | Some (q :: qs) => ret (q :: qs)
    | _ => (q <- getitem "question" (question state) ;; ret [q])
    end ;;
  results <- call WebSearchCall (Ok (web_search_tool_search self queries)) ;;
  ret (set_is_web true (set_documents (map web_document results) state)).

(** The dictionary rebuilt from a web pseudo-document in
    [synthesize_research]. *)
Definition web_result_of (d : Document) : Eff WebResult :=
  match PyStr.split PyStr.newline (page_content d) with
  | t :: b :: _ =>
      page <- getitem "page" (dict_get "page" (metadata d)) ;;
      ret {| title := t; body := b; href := page;
             query := Some (get_default (dict_get "query" (metadata d)) "") |}
  | _ => raise (Exception "IndexError: list index out of range")
  end.

Fixpoint mapM {A B} (f : A -> Eff B) (l : list A) : Eff (list B) :=
  match l with
  | [] => ret []
  | a :: l' => b <- f a ;; bs <- mapM f l' ;; ret (b :: bs)
  end.

(** Node [synthesize_research] *)
Definition synthesize_research (self : t) (state : AgentState)
  : Eff AgentState :=
  q <- getitem "question" (question state) ;;
  docs <- getitem "documents" (documents state) ;;
  web_results <- mapM web_result_of docs ;;
  let web_context := web_search_tool_format_results self web_results in
  ans <- ResearchSynthesizer.synthesize (research_synthesizer self)
           q web_context ;;
  ret (set_sources
         (map (fun r => [("filename", "Web Search"); ("page", href r)])
              web_results)
        (set_context web_context
          (set_answer ans (add_messages [AIMessage ans] state)))).

Definition refusal_indicators : list string :=
  [ "i don't have enough information";
    "context does not contain";
    "information is not available";
    "cannot provide an answer";
    "cannot answer";
    "answer based on the context provided" ].

(** Node [check_hallucination] *)
Definition check_hallucination (self : t) (state : AgentState)
  : Eff AgentState :=
  ans <- getitem "answer" (answer state) ;;
  docs <- getitem "documents" (documents state) ;;
  match docs with
  | [] => ret (set_hallucination_grade "grounded" state)
  | _ :: _ =>
      if existsb (fun indicator => PyStr.contains indicator (PyStr.lower ans))
                 refusal_indicators
      then ret (set_hallucination_grade "hallucinated" state)
      else
        is_grounded <-
          HallucinationGrader.check_groundedness (grader self) ans docs ;;
        if is_grounded : bool
        then ret (set_hallucination_grade "grounded" state)
        else ret (set_hallucination_grade "hallucinated" state)
  end.

(** Router [decide_after_check] *)
Definition decide_after_check (state : AgentState) : string :=
  let grade := get_default (hallucination_grade state) "grounded" in
  if String.eqb grade "grounded" then "end"
  else if get_default (is_web state) false then "end"
  else "plan_research".

(** The callable registered for each node. *)
Definition run_node (self : t) (n : Node) (state : AgentState)
  : Eff AgentState :=
  match n with
  | N_retrieve => retrieve self state
  | N_grade_documents => grade_documents self state
  | N_generate => generate self state
  | N_transform_query => transform_query state
  | N_plan_research => plan_research self state
  | N_web_search => web_search self state
  | N_synthesize_research => synthesize_research self state
  | N_check_hallucination => check_hallucination self state
  | END => ret state
  end.

(** The path map of the conditional edge out of [grade_documents]. *)
Definition grade_documents_paths (label : string) : Eff Node :=
  if String.eqb label "transform_query" then ret N_transform_query
  else if String.eqb label "generate" then ret N_generate
  else if String.eqb label "plan_research" then ret N_plan_research
  else raise (Exception ("KeyError: " ++ label)%string).

(** The path map of the conditional edge out of [check_hallucination]. *)
Definition check_hallucination_paths (label : string) : Eff Node :=
  if String.eqb label "end" then ret END
  else if String.eqb label "plan_research" then ret N_plan_research
  else raise (Exception ("KeyError: " ++ label)%string).

(** The edges added in [__init__]: the node that follows [n] in the
    state its callable produced. *)
Definition next_node (n : Node) (state : AgentState) : Eff Node :=
  match n with
  | N_retrieve => ret N_grade_documents
  | N_grade_documents =>
      label <- decide_to_generate state ;; grade_documents_paths label
  | N_transform_query => ret N_retrieve
  | N_generate => ret N_check_hallucination
  | N_check_hallucination =>
      check_hallucination_paths (decide_after_check state)
  | N_plan_research => ret N_web_search
  | N_web_search => ret N_synthesize_research
  | N_synthesize_research => ret END
  | END => ret END
  end.

(** LangGraph's default bound on the number of steps of one run. *)
Definition recursion_limit : nat := 25.

(** The compiled graph run from node [n]; the nodes executed so far are
    collected in [trace]. *)
Fixpoint run (self : t) (fuel : nat) (n : Node) (state : AgentState)
    (trace : list Node) : Eff (list Node * AgentState) :=
  match n with
  | END => ret (trace, state)
  | _ =>
      match fuel with
      | O => raise (Exception "GraphRecursionError")
      | S fuel' =>
          state' <- run_node self n state ;;
          n' <- next_node n state' ;;
          run self fuel' n' state' (trace ++ [n])
      end
  end.

(** [self.app.invoke({"question": q})], with the executed nodes. *)
Definition invoke (self : t) (q : string) : Eff (list Node * AgentState) :=
  run self recursion_limit N_retrieve (initial_state q) [].

(** [__init__]: the graph over a retriever and a generator, with the
    tools and graders it creates. *)
Definition init (retriever0 : DocumentRetriever.t)
    (generator0 : AnswerGenerator.t) (tool : WebSearchTool.t)
    (grader0 : HallucinationGrader.t) (relevance : RelevanceGrader.t)
    (refiner : ResearchRefiner.t) (synthesizer : ResearchSynthesizer.t) : t :=
  {| retriever := retriever0;
     format_context := RetrieverMore.format_context;
     generate_answer := AnswerGenerator.generate_answer generator0;
     web_search_tool_search := fun queries => WebSearchTool.search tool (inr queries);
     web_search_tool_format_results := WebSearchTool.format_results;
     grader := grader0;
     relevance_grader := relevance;
     research_refiner := refiner;
     research_synthesizer := synthesizer |}.

End WithScores.
End AgentGraph.

(* ================================================================== *)
(** ** Vocabulary of the specification *)
(* ================================================================== *)

Section FusionSpec.
Context `{SA : ScoreArith}.





(** Contents in first-seen order: each content once, at the place of its
    first occurrence. *)
Definition see (seen : list string) (key : string) : list string :=
  if existsb (String.eqb key) seen then seen else seen ++ [key].

Definition first_seen (keys : list string) : list string :=
  fold_left see keys [].



(** The fused ranking before truncation: [sorted_docs]. *)
Definition sorted_docs (bm25_docs vector_results : list Document)
  : list (string * float) :=
  DocumentRetriever.sorted_desc
    (od_items (fst (DocumentRetriever.rrf_tables bm25_docs vector_results))).

End FusionSpec.

(* ================================================================== *)
(** ** Sample collaborators, over exact rational scores *)
(* ================================================================== *)

Module Sample.

Definition doc (text : string) : Document :=
  {| page_content := text; metadata := [] |}.

Definition alpha : Document := doc "alpha".
Definition beta : Document := doc "beta".
Definition gamma : Document := doc "gamma".

Definition keyword_hits : list Document := [alpha; beta].
Definition vector_hits : list Document := [beta; gamma].

(** A vector store that answers every query with the same hits, scored
    0.9, 0.6 and 0.5. *)
Definition store : DocumentRetriever.VectorStore (SA := QScore) :=
  {| DocumentRetriever.get_vectorstore := Ok tt;
     DocumentRetriever.similarity_search := fun _ _ => Ok vector_hits;
     DocumentRetriever.similarity_search_with_score :=
       fun _ _ => Ok [(alpha, (9 # 10)%Q); (beta, (6 # 10)%Q);
                      (gamma, (5 # 10)%Q)] |}.

Definition down : exn := Exception "index unavailable".

Definition store_down : DocumentRetriever.VectorStore (SA := QScore) :=
  {| DocumentRetriever.get_vectorstore := Ok tt;
     DocumentRetriever.similarity_search := fun _ _ => Raise down;
     DocumentRetriever.similarity_search_with_score := fun _ _ => Raise down |}.

Definition store_empty : DocumentRetriever.VectorStore (SA := QScore) :=
  {| DocumentRetriever.get_vectorstore := Ok tt;
     DocumentRetriever.similarity_search := fun _ _ => Ok [];
     DocumentRetriever.similarity_search_with_score := fun _ _ => Ok [] |}.

Definition keyword_index : DocumentRetriever.BM25Retriever :=
  fun _ => Ok keyword_hits.

Definition keyword_index_down : DocumentRetriever.BM25Retriever :=
  fun _ => Raise (Exception "keyword search failed").

Definition no_env : DocumentRetriever.Environ (SA := QScore) :=
  {| DocumentRetriever.RETRIEVAL_TOP_K := None;
     DocumentRetriever.SIMILARITY_THRESHOLD := None |}.

(** Retrievers built by the constructor. *)
Definition hybrid : DocumentRetriever.t :=
  DocumentRetriever.init no_env (fun _ => Ok keyword_index) store
    (Some keyword_hits) None None.

Definition hybrid_keyword_down : DocumentRetriever.t :=
  DocumentRetriever.init no_env (fun _ => Ok keyword_index_down) store
    (Some keyword_hits) None None.

Definition hybrid_vector_down : DocumentRetriever.t :=
  DocumentRetriever.init no_env (fun _ => Ok keyword_index) store_down
    (Some keyword_hits) None None.




Definition semantic_only : DocumentRetriever.t :=
  DocumentRetriever.init no_env (fun _ => Ok keyword_index) store
    None None None.

Definition nothing_found : DocumentRetriever.t :=
  DocumentRetriever.init no_env (fun _ => Ok keyword_index) store_empty
    None None None.

(** Language models with a fixed reply. *)
Definition says (reply : string) : ChatModel := fun _ => Ok reply.
Definition broken : ChatModel := fun _ => Raise (Exception "model unavailable").

Definition relevance (m : ChatModel) : RelevanceGrader.t :=
  {| RelevanceGrader.SYSTEM_PROMPT := "grade relevance";
     RelevanceGrader.llm := m |}.

Definition groundedness (m : ChatModel) : HallucinationGrader.t :=
  {| HallucinationGrader.SYSTEM_PROMPT := "grade groundedness";
     HallucinationGrader.llm := m |}.

Definition refiner (m : ChatModel) : ResearchRefiner.t :=
  {| ResearchRefiner.SYSTEM_PROMPT := "plan research";
     ResearchRefiner.llm := m |}.

Definition synthesizer (m : ChatModel) : ResearchSynthesizer.t :=
  {| ResearchSynthesizer.SYSTEM_PROMPT := "synthesize";
     ResearchSynthesizer.llm := m |}.

(** An agent whose corpus search finds nothing and whose web search
    finds one page. *)
Definition agent : AgentGraph.t :=
  {| AgentGraph.retriever := nothing_found;
     AgentGraph.format_context := fun _ => "";
     AgentGraph.generate_answer :=
       fun _ _ => Ok {| gen_answer := "42"; gen_sources := None;
                        gen_context_used := None |};
     AgentGraph.web_search_tool_search :=
       fun _ => [{| title := "Revenue"; href := "https://example.org";
                    body := "Q4 revenue was 42."; query := None |}];
     AgentGraph.web_search_tool_format_results := fun _ => "web context";
     AgentGraph.grader := groundedness (says "yes");
     AgentGraph.relevance_grader := relevance (says "yes");
     AgentGraph.research_refiner := refiner (says "q4 revenue");
     AgentGraph.research_synthesizer := synthesizer (says "Revenue was 42.") |}.

Definition refusal : string :=
  "I cannot answer based on the context provided.".

(** A state as it stands before [check_hallucination]. *)
Definition answered (ans : string) (docs : list Document) (web : option bool)
  : AgentState :=
  {| messages := [AIMessage ans]; documents := Some docs;
     question := Some "What was total revenue in Q4?";
     retry_count := Some 0%Z; context := Some ""; answer := Some ans;
     sources := Some []; context_used := Some 0%Z;
     research_queries := None; is_web := web;
     hallucination_grade := None |}.

End Sample.

(* ================================================================== *)
(** ** Sample agents built by the constructors *)
(* ================================================================== *)

Module Demo.

(** A provider that answers every query with one hit and honours the
    limit. *)
Definition provider : WebSearchTool.DDGSClient :=
  fun q limit =>
    Ok (firstn (Z.to_nat limit)
          [[("title", "Revenue"); ("href", "https://example.org");
            ("body", "Q4 revenue was 42.")]]).

Definition provider_down : WebSearchTool.DDGSClient :=
  fun q limit =>
    if String.eqb q "guidance" then Raise (Exception "rate limited")
    else provider q limit.

Definition tool : WebSearchTool.t :=
  {| WebSearchTool.max_results := 5; WebSearchTool.DDGS := Some provider |}.

Definition tool_flaky : WebSearchTool.t :=
  {| WebSearchTool.max_results := 5;
     WebSearchTool.DDGS := Some provider_down |}.

(** The tool when the provider package could not be imported. *)
Definition tool_missing : WebSearchTool.t :=
  {| WebSearchTool.max_results := 5; WebSearchTool.DDGS := None |}.

Definition generator (m : ChatModel) : AnswerGenerator.t :=
  {| AnswerGenerator.SYSTEM_PROMPT := "answer"; AnswerGenerator.llm := m |}.

(** A retriever over a store that finds one chunk above the floor. *)
Definition corpus_retriever : DocumentRetriever.t := Sample.semantic_only.

(** An agent over that corpus whose generator answers and whose judge
    approves. *)
Definition corpus_agent : AgentGraph.t :=
  AgentGraph.init corpus_retriever
    (generator (Sample.says "Revenue was 42.")) tool
    (Sample.groundedness (Sample.says "yes"))
    (Sample.relevance (Sample.says "yes"))
    (Sample.refiner (Sample.says "q4 revenue"))
    (Sample.synthesizer (Sample.says "Revenue was 42 [Web 1].")).

(** The same agent with a generator that refuses. *)
Definition refusing_agent : AgentGraph.t :=
  AgentGraph.init corpus_retriever (generator (Sample.says Sample.refusal))
    tool
    (Sample.groundedness (Sample.says "yes"))
    (Sample.relevance (Sample.says "yes"))
    (Sample.refiner (Sample.says "q4 revenue"))
    (Sample.synthesizer (Sample.says "Revenue was 42 [Web 1].")).

(** The same agent with a generator that fails. *)
Definition failing_agent : AgentGraph.t :=
  AgentGraph.init corpus_retriever (generator Sample.broken) tool
    (Sample.groundedness (Sample.says "yes"))
    (Sample.relevance (Sample.says "yes"))
    (Sample.refiner (Sample.says "q4 revenue"))
    (Sample.synthesizer (Sample.says "Revenue was 42 [Web 1].")).

(** An agent whose vector store is down. *)
Definition offline_agent : AgentGraph.t :=
  AgentGraph.init
    (DocumentRetriever.init Sample.no_env (fun _ => Ok Sample.keyword_index)
       Sample.store_down None None None)
    (generator (Sample.says "Revenue was 42.")) tool
    (Sample.groundedness (Sample.says "yes"))
    (Sample.relevance (Sample.says "yes"))
    (Sample.refiner (Sample.says "q4 revenue"))
    (Sample.synthesizer (Sample.says "Revenue was 42 [Web 1].")).

End Demo.

(* ================================================================== *)
(** ** Vocabulary for runs of the controller *)
(* ================================================================== *)

Section ControllerSpec.
Context `{SA : ScoreArith}.

(** [state.get("retry_count", 0)] *)
Definition retries (s : AgentState) : Z := get_default (retry_count s) 0%Z.

(** The question after [transform_query]. *)
Definition broadened (q : string) : string := (q ++ " overview details")%string.

(** In a run on question [q0] the state holds either [q0] with no retry
    made or the broadened question with one retry made. *)
Definition attempt_state (q0 : string) (s : AgentState) : Prop :=
  (retries s = 0%Z /\ question s = Some q0) \/
  (retries s = 1%Z /\ question s = Some (broadened q0)).

(** The keys node [n] reads are present in [s]. *)
Definition ready (q0 : string) (n : Node) (s : AgentState) : Prop :=
  attempt_state q0 s /\
  match n with
  | N_transform_query => retries s = 0%Z
  | N_grade_documents | N_generate => documents s <> None
  | N_check_hallucination => documents s <> None /\ answer s <> None
  | N_synthesize_research =>
      exists results, documents s = Some (map AgentGraph.web_document results)
  | _ => True
  end.

(** A bound on the number of nodes still to run from [n] in state [s]. *)
Definition steps_left (n : Node) (s : AgentState) : nat :=
  match n with
  | END => 0
  | N_synthesize_research => 1
  | N_web_search => 2
  | N_plan_research => 3
  | N_check_hallucination => 4
  | N_generate => 5
  | N_grade_documents => if (retries s <? 1)%Z then 9 else 6
  | N_transform_query => 8
  | N_retrieve => if (retries s <? 1)%Z then 10 else 7
  end.

(** A bound on the executions of [transform_query] still to come. *)
Definition transforms_left (n : Node) (s : AgentState) : nat :=
  match n with
  | N_transform_query => 1
  | N_retrieve | N_grade_documents => if (retries s <? 1)%Z then 1 else 0
  | _ => 0
  end.

(** A bound on the executions of [web_search] still to come. *)
Definition web_searches_left (n : Node) : nat :=
  match n with
  | N_synthesize_research | END => 0
  | _ => 1
  end.

(** Number of executions of node [n] in a trace. *)
Definition executions (n : Node) (trace : list Node) : nat :=
  List.length (filter (Node_eqb n) trace).

(** Exception [e] is one that the retriever or the answer generator
    raises on some input. *)
Definition collaborator_raised (self : AgentGraph.t) (e : exn) : Prop :=
  (exists q l,
     fst (DocumentRetriever.retrieve (AgentGraph.retriever self) q None l)
     = Raise e) \/
  (exists q docs, AgentGraph.generate_answer self q docs = Raise e).

(** What one node and the edge out of it do from a ready state: the node
    raises an exception of the retriever or of the generator, or the run
    moves to a node that is ready and strictly closer to [END]. *)
Definition step_ok (self : AgentGraph.t) (q0 : string) (n : Node)
    (s : AgentState) (log : list Call) : Prop :=
  match AgentGraph.run_node self n s log with
  | (Raise e, _) => collaborator_raised self e
  | (Ok s', log1) =>
      exists n',
        AgentGraph.next_node n s' log1 = (Ok n', log1) /\
        ready q0 n' s' /\
        (steps_left n' s' < steps_left n s)%nat /\
        ((if Node_eqb N_transform_query n then 1 else 0) +
           transforms_left n' s' <= transforms_left n s)%nat /\
        ((if Node_eqb N_web_search n then 1 else 0) +
           web_searches_left n' <= web_searches_left n)%nat /\
        is_web s' = (if Node_eqb N_web_search n then Some true else is_web s)
  end.

End ControllerSpec.

(* ================================================================== *)
(** * Proofs *)
(* ================================================================== *)

(** ** Ordered dictionaries *)

Section OrderedDictFacts.
Context {V : Type}.
Implicit Types (d : odict V) (k key : string) (v : V).

Lemma od_get_set_same key v d : od_get key (od_set key v d) = Some v.
Proof.
  induction d as [|[k' v'] d IH]; simpl.
  - now rewrite String.eqb_refl.
  - destruct (String.eqb key k') eqn:E; simpl; rewrite E; auto.
Qed.

Lemma od_get_set_other key k v d :
  key <> k -> od_get key (od_set k v d) = od_get key d.
Proof.
  intros Hne. induction d as [|[k' v'] d IH]; simpl.
  - apply String.eqb_neq in Hne. now rewrite Hne.
  - destruct (String.eqb k k') eqn:E; simpl.
    + apply String.eqb_eq in E. subst k'.
      apply String.eqb_neq in Hne. now rewrite Hne.
    + now rewrite IH.
Qed.

Lemma od_mem_keys key d : od_mem key d = existsb (String.eqb key) (od_keys d).
Proof.
  unfold od_mem. induction d as [|[k' v'] d IH]; simpl; auto.
  destruct (String.eqb key k'); simpl; auto.
Qed.

Lemma od_keys_set key v d :
  od_keys (od_set key v d) =
  if od_mem key d then od_keys d else od_keys d ++ [key].
Proof.
  unfold od_mem. induction d as [|[k' v'] d IH]; simpl; auto.
  destruct (String.eqb key k') eqn:E; simpl; auto.
  rewrite IH. destruct (od_get key d); reflexivity.
Qed.

Lemma od_get_In key v d : od_get key d = Some v -> In (key, v) d.
Proof.
  induction d as [|[k' v'] d IH]; simpl; [discriminate|].
  destruct (String.eqb key k') eqn:E.
  - apply String.eqb_eq in E. intros [= ->]. left. now subst.
  - intros H. right. auto.
Qed.


Lemma od_mem_true_iff key d : od_mem key d = true <-> In key (od_keys d).
Proof.
  rewrite od_mem_keys. rewrite existsb_exists. split.
  - intros [x [Hx E]]. apply String.eqb_eq in E. now subst.
  - intros H. exists key. split; auto. apply String.eqb_refl.
Qed.

End OrderedDictFacts.

(** ** Lists, slices and enumeration *)

Lemma map_snd_combine_seq {A} (l : list A) (n : nat) :
  map snd (combine (seq n (List.length l)) l) = l.
Proof.
  revert n. induction l as [|a l IH]; intros n; simpl; auto.
  now rewrite IH.
Qed.

Lemma map_snd_enumerate {A} (l : list A) : map snd (enumerate l) = l.
Proof. apply map_snd_combine_seq. Qed.

Lemma slice_to_pos {A} (k : Z) (xs : list A) :
  (0 <= k)%Z -> slice_to k xs = firstn (Z.to_nat k) xs.
Proof.
  intros Hk. unfold slice_to.
  destruct (k <? 0)%Z eqn:E; auto. apply Z.ltb_lt in E. lia.
Qed.

Lemma slice_to_length {A} (k : Z) (xs : list A) :
  (0 <= k)%Z -> (List.length (slice_to k xs) <= Z.to_nat k)%nat.
Proof.
  intros Hk. rewrite slice_to_pos by assumption. apply firstn_le_length.
Qed.

Lemma In_firstn {A} (n : nat) (l : list A) (x : A) :
  In x (firstn n l) -> In x l.
Proof.
  intros H. rewrite <- (firstn_skipn n l). apply in_or_app. now left.
Qed.

Lemma In_slice_to {A} (k : Z) (l : list A) (x : A) :
  In x (slice_to k l) -> In x l.
Proof.
  unfold slice_to. destruct (k <? 0)%Z; apply In_firstn.
Qed.



Lemma StronglySorted_firstn {A} (R : A -> A -> Prop) (n : nat) (l : list A) :
  StronglySorted R l -> StronglySorted R (firstn n l).
Proof.
  intros Hs. revert n. induction Hs as [|a l Hs IH Hf]; intros [|n]; simpl;
    try constructor; auto.
  apply Forall_forall. intros x Hx. rewrite Forall_forall in Hf.
  apply Hf. rewrite <- (firstn_skipn n l). apply in_or_app. now left.
Qed.

(** ** First-seen order *)








(** ** The ranked merge *)

Section FusionFacts.
Context `{SA : ScoreArith}.
Import DocumentRetriever.

Local Abbreviation key_of := (fun it : nat * Document => page_content (snd it)).
Local Abbreviation sstep :=
  (fun (sc : odict float) (it : nat * Document) =>
     score_step sc (fst it) (page_content (snd it))).


Lemma score_step_keys (d : odict float) (r : nat) (k : string) :
  od_keys (score_step d r k) = see (od_keys d) k.
Proof.
  unfold score_step, od_iadd, see. rewrite <- od_mem_keys.
  destruct (od_mem k d) eqn:M.
  - unfold od_mem in M. destruct (od_get k d) as [s|] eqn:G; [|discriminate].
    rewrite od_keys_set. unfold od_mem. now rewrite G.
  - rewrite od_get_set_same, od_keys_set. unfold od_mem at 1.
    rewrite od_get_set_same. now rewrite od_keys_set, M.
Qed.

Lemma fold_bm25_scores its st :
  fst (fold_left bm25_step its st) = fold_left sstep its (fst st).
Proof.
  revert st. induction its as [|[r doc] its IH]; intros [sc dm]; simpl; auto.
Qed.

Lemma fold_vector_scores its st :
  fst (fold_left vector_step its st) = fold_left sstep its (fst st).
Proof.
  revert st. induction its as [|[r doc] its IH]; intros [sc dm]; simpl; auto.
Qed.

Lemma rrf_tables_scores bm25_docs vector_results :
  fst (rrf_tables bm25_docs vector_results) =
  fold_left sstep (enumerate bm25_docs ++ enumerate vector_results) [].
Proof.
  unfold rrf_tables.
  now rewrite fold_vector_scores, fold_bm25_scores, fold_left_app.
Qed.

Lemma fold_scores_keys its (d : odict float) :
  od_keys (fold_left sstep its d) = fold_left see (map key_of its) (od_keys d).
Proof.
  revert d. induction its as [|it its IH]; intros d; simpl; auto.
  now rewrite IH, score_step_keys.
Qed.



Lemma scores_keys bm25_docs vector_results :
  od_keys (fst (rrf_tables bm25_docs vector_results)) =
  first_seen (map page_content (bm25_docs ++ vector_results)).
Proof.
  rewrite rrf_tables_scores, fold_scores_keys. unfold first_seen. simpl.
  f_equal. rewrite map_app, !map_app.
  rewrite <- !(map_map snd page_content), !map_snd_enumerate. reflexivity.
Qed.


(** The two tables list the same contents, and [doc_map] sends each
    content to an input chunk that has it. *)
Lemma fold_bm25_docs (pool : list Document) its st :
  (forall it, In it its -> In (snd it) pool) ->
  od_keys (fst st) = od_keys (snd st) ->
  (forall key d, od_get key (snd st) = Some d ->
                 page_content d = key /\ In d pool) ->
  let st' := fold_left bm25_step its st in
  od_keys (fst st') = od_keys (snd st') /\
  (forall key d, od_get key (snd st') = Some d ->
                 page_content d = key /\ In d pool).
Proof.
  revert st. induction its as [|[r doc] its IH]; intros [sc dm] Hp Hk Hd;
    simpl in *; auto.
  apply IH; simpl.
  - intros it Hit. apply Hp. now right.
  - rewrite score_step_keys, od_keys_set, Hk. unfold see.
    now rewrite <- od_mem_keys.
  - intros key d. destruct (String.eqb key (page_content doc)) eqn:E.
    + apply String.eqb_eq in E. subst key. rewrite od_get_set_same.
      intros [= <-]. split; auto. apply (Hp (r, doc)). now left.
    + apply String.eqb_neq in E. rewrite od_get_set_other by assumption.
      apply Hd.
Qed.

Lemma fold_vector_docs (pool : list Document) its st :
  (forall it, In it its -> In (snd it) pool) ->
  od_keys (fst st) = od_keys (snd st) ->
  (forall key d, od_get key (snd st) = Some d ->
                 page_content d = key /\ In d pool) ->
  let st' := fold_left vector_step its st in
  od_keys (fst st') = od_keys (snd st') /\
  (forall key d, od_get key (snd st') = Some d ->
                 page_content d = key /\ In d pool).
Proof.
  revert st. induction its as [|[r doc] its IH]; intros [sc dm] Hp Hk Hd;
    simpl in *; auto.
  apply IH; simpl.
  - intros it Hit. apply Hp. now right.
  - rewrite score_step_keys, Hk. unfold see. rewrite <- od_mem_keys.
    destruct (od_mem (page_content doc) dm) eqn:M; auto.
    now rewrite od_keys_set, M.
  - intros key d. destruct (od_mem (page_content doc) dm) eqn:M; [apply Hd|].
    destruct (String.eqb key (page_content doc)) eqn:E.
    + apply String.eqb_eq in E. subst key. rewrite od_get_set_same.
      intros [= <-]. split; auto. apply (Hp (r, doc)). now left.
    + apply String.eqb_neq in E. rewrite od_get_set_other by assumption.
      apply Hd.
Qed.

Lemma In_enumerate {A} (l : list A) (it : nat * A) :
  In it (enumerate l) -> In (snd it) l.
Proof.
  intros H. rewrite <- (map_snd_enumerate l). now apply in_map.
Qed.

Lemma rrf_tables_docs bm25_docs vector_results :
  let st := rrf_tables bm25_docs vector_results in
  od_keys (fst st) = od_keys (snd st) /\
  (forall key d, od_get key (snd st) = Some d ->
                 page_content d = key /\ In d (bm25_docs ++ vector_results)).
Proof.
  unfold rrf_tables.
  apply fold_vector_docs.
  - intros it H. apply in_or_app. right. now apply In_enumerate.
  - apply (fold_bm25_docs (bm25_docs ++ vector_results)); simpl; auto.
    + intros it H. apply in_or_app. left. now apply In_enumerate.
    + discriminate.
  - apply (fold_bm25_docs (bm25_docs ++ vector_results)); simpl; auto.
    + intros it H. apply in_or_app. left. now apply In_enumerate.
    + discriminate.
Qed.

End FusionFacts.

(** ** Sorting by fused score *)

Section SortFacts.
Context `{SA : ScoreArith}.
Import DocumentRetriever.

Lemma insert_desc_perm (x : string * float) (l : list (string * float)) :
  Permutation (insert_desc x l) (x :: l).
Proof.
  induction l as [|y l IH]; simpl; auto.
  destruct (fltb (snd x) (snd y)); auto.
  rewrite IH. apply perm_swap.
Qed.

Lemma sorted_desc_perm (items : list (string * float)) :
  Permutation (sorted_desc items) items.
Proof.
  induction items as [|x items IH]; simpl; auto.
  rewrite insert_desc_perm. now constructor.
Qed.





Lemma lookup_docs_total (pool : list Document) (dm : odict Document)
    (entries : list (string * float)) :
  (forall e, In e entries -> In (fst e) (od_keys dm)) ->
  (forall key d, od_get key dm = Some d -> page_content d = key /\ In d pool) ->
  exists docs,
    lookup_docs dm entries = Ok docs /\
    map page_content docs = map fst entries /\
    (forall d, In d docs -> In d pool).
Proof.
  intros Hk Hd. induction entries as [|[content s] entries IH]; simpl.
  - exists []. repeat split; auto. intros d [].
  - destruct IH as (docs & E & Hm & Hp).
    { intros e He. apply Hk. now right. }
    assert (M : od_mem content dm = true).
    { apply od_mem_true_iff. apply (Hk (content, s)). now left. }
    unfold od_mem in M. destruct (od_get content dm) as [d|] eqn:G;
      [|discriminate].
    rewrite E. exists (d :: docs). destruct (Hd _ _ G) as [Hc Hin].
    repeat split; simpl; [congruence|].
    intros d' [<-|H]; auto.
Qed.

End SortFacts.

(** ** Hybrid retrieval *)

Section HybridFacts.
Context `{SA : ScoreArith}.
Import DocumentRetriever.

Lemma sorted_docs_keys bm25_docs vector_results :
  Permutation (map fst (sorted_docs bm25_docs vector_results))
              (first_seen (map page_content (bm25_docs ++ vector_results))).
Proof.
  rewrite <- scores_keys. unfold sorted_docs, od_items, od_keys.
  apply Permutation_map. apply sorted_desc_perm.
Qed.



(** The merge never raises: every content of the truncated ranking is a
    key of [doc_map]. *)
Lemma rrf_merge_total bm25_docs vector_results (k : Z) :
  exists docs,
    rrf_merge bm25_docs vector_results k = Ok docs /\
    map page_content docs =
      map fst (slice_to k (sorted_docs bm25_docs vector_results)) /\
    (forall d, In d docs -> In d (bm25_docs ++ vector_results)).
Proof.
  unfold rrf_merge, sorted_docs.
  pose proof (rrf_tables_docs bm25_docs vector_results) as [Hk Hd].
  destruct (rrf_tables bm25_docs vector_results) as [scores doc_map].
  simpl in *.
  apply lookup_docs_total; auto.
  intros e He. rewrite <- Hk. unfold od_keys. apply in_map.
  apply (Permutation_in _ (sorted_desc_perm _)).
  eapply In_slice_to. exact He.
Qed.


End HybridFacts.


Example sample_hybrid_ranking :
  DocumentRetriever.retrieve Sample.hybrid "q" (Some 2%Z) [] =
  (Ok [Sample.beta; Sample.alpha], [KeywordSearch; VectorSearch]).
Proof. vm_compute. reflexivity. Qed.

Example sample_hybrid_scores :
  sorted_docs Sample.keyword_hits Sample.vector_hits =
  [("beta", (1 / 62 + 1 / 61)%Q); ("alpha", (1 / 61)%Q); ("gamma", (1 / 62)%Q)].
Proof. vm_compute. reflexivity. Qed.



(** ** Failing collaborators in hybrid retrieval *)

(** C2, as the code behaves: with a keyword index configured, an exception
    raised by keyword search leaves [retrieve] with that exception before
    vector search is called, and an exception raised by vector search
    leaves [retrieve] with that exception; in neither case is a list
    returned. *)
Theorem C2_hybrid_failure_propagates `{SA : ScoreArith}
    (self : DocumentRetriever.t) (bm25 : DocumentRetriever.BM25Retriever)
    (query : string) (k : option Z) (e : exn) (log : list Call) :
  DocumentRetriever.bm25_retriever self = Some bm25 ->
  (bm25 query = Raise e ->
   DocumentRetriever.retrieve self query k log =
     (Raise e, log ++ [KeywordSearch])) /\
  (forall bm25_docs,
     bm25 query = Ok bm25_docs ->
     DocumentRetriever.similarity_search (DocumentRetriever.vectorstore self)
       query (int_or k (DocumentRetriever.top_k self)) = Raise e ->
     DocumentRetriever.retrieve self query k log =
       (Raise e, log ++ [KeywordSearch; VectorSearch])).
Proof.
  intros Hb. unfold DocumentRetriever.retrieve. rewrite Hb.
  unfold DocumentRetriever._retrieve_hybrid, bind, call, lift. split.
  - intros ->. reflexivity.
  - intros bm25_docs -> ->. now rewrite <- app_assoc.
Qed.

Lemma C2_witness :
  DocumentRetriever.retrieve Sample.hybrid_keyword_down "q" None [] =
    (Raise (Exception "keyword search failed"), [KeywordSearch]) /\
  DocumentRetriever.retrieve Sample.hybrid_vector_down "q" None [] =
    (Raise Sample.down, [KeywordSearch; VectorSearch]).
Proof.
  split.
  - apply (proj1 (C2_hybrid_failure_propagates
                    Sample.hybrid_keyword_down Sample.keyword_index_down
                    "q" None (Exception "keyword search failed") [] eq_refl)).
    reflexivity.
  - apply (proj2 (C2_hybrid_failure_propagates
                    Sample.hybrid_vector_down Sample.keyword_index
                    "q" None Sample.down [] eq_refl) Sample.keyword_hits);
      reflexivity.
Defined.

(** C2 fails as stated: keyword search raises while vector search answers
    with two chunks, and [retrieve] raises instead of returning them. *)
Lemma C2_counterexample :
  Sample.keyword_index_down "q" = Raise (Exception "keyword search failed") /\
  DocumentRetriever.similarity_search
    (DocumentRetriever.vectorstore Sample.hybrid_keyword_down) "q" 5%Z =
    Ok Sample.vector_hits /\
  fst (DocumentRetriever.retrieve Sample.hybrid_keyword_down "q" None []) =
    Raise (Exception "keyword search failed") /\
  ~ (exists docs,
       fst (DocumentRetriever.retrieve Sample.hybrid_keyword_down "q" None [])
       = Ok docs).
Proof.
  repeat split. intros [docs H]. vm_compute in H. discriminate.
Qed.

(** ** Vector-only retrieval *)

(** C7. Without a keyword index [retrieve] makes one vector search and
    returns exactly the results whose score is not below the floor, in
    order; when no result reaches the floor it returns the empty list.
    The constructor's floor is 0.7 when none is given, and it configures
    no keyword index when no documents are given. *)
Theorem C7_semantic_floor `{SA : ScoreArith}
    (self : DocumentRetriever.t) (query : string) (k : option Z)
    (results : list (Document * float)) (log : list Call) :
  DocumentRetriever.bm25_retriever self = None ->
  DocumentRetriever.similarity_search_with_score
    (DocumentRetriever.vectorstore self) query
    (int_or k (DocumentRetriever.top_k self)) = Ok results ->
  let floor := DocumentRetriever.similarity_threshold self in
  exists docs,
    DocumentRetriever.retrieve self query k log =
      (Ok docs, log ++ [VectorSearch]) /\
    docs = map fst (filter (fun ds => negb (fltb (snd ds) floor)) results) /\
    (forall d, In d docs <->
               exists s, In (d, s) results /\ fltb s floor = false) /\
    ((forall d s, In (d, s) results -> fltb s floor = true) -> docs = []) /\
    (forall env from_documents vs top_k_arg,
       DocumentRetriever.SIMILARITY_THRESHOLD env = None ->
       let r := DocumentRetriever.init env from_documents vs None top_k_arg None in
       DocumentRetriever.similarity_threshold r = fdec 7 10 /\
       DocumentRetriever.bm25_retriever r = None).
Proof.
  intros Hb Hs floor.
  exists (map fst (filter (fun ds => negb (fltb (snd ds) floor)) results)).
  split; [|split; [reflexivity|split; [|split]]].
  - unfold DocumentRetriever.retrieve. rewrite Hb.
    unfold DocumentRetriever._retrieve_semantic, bind, call, ret.
    rewrite Hs. reflexivity.
  - intros d. rewrite in_map_iff. split.
    + intros ([d' s] & <- & H). apply filter_In in H. destruct H as [H1 H2].
      exists s. split; auto. simpl in H2. now apply negb_true_iff.
    + intros (s & H1 & H2). exists (d, s). split; auto.
      apply filter_In. split; auto. simpl. now rewrite H2.
  - intros Hall. clear Hs.
    induction results as [|[d s] results IH]; simpl; auto.
    rewrite (Hall d s) by now left. simpl. apply IH.
    intros d' s' H. apply (Hall d' s'). now right.
  - intros env from_documents vs top_k_arg He r. subst r.
    unfold DocumentRetriever.init. simpl. now rewrite He.
Qed.

Lemma C7_witness :
  exists docs,
    DocumentRetriever.retrieve Sample.semantic_only "q" None [] =
      (Ok docs, [VectorSearch]) /\
    docs = [Sample.alpha] /\ List.length docs = 1%nat /\
    DocumentRetriever.similarity_threshold Sample.semantic_only = (7 # 10)%Q.
Proof.
  destruct (C7_semantic_floor Sample.semantic_only "q" None
              [(Sample.alpha, (9 # 10)%Q); (Sample.beta, (6 # 10)%Q);
               (Sample.gamma, (5 # 10)%Q)] [] eq_refl eq_refl)
    as (docs & E & Hd & _).
  exists docs. split; [exact E|]. subst docs.
  split; [reflexivity|]. split; reflexivity.
Defined.

(** ** The limit of the ranked merge *)

(** C8, as the code behaves: the merge never raises; with limit [0] it
    returns the empty list; with a negative limit [-m] it returns the fused
    ranking without its last [m] entries, which is empty exactly when the
    ranking has at most [m] entries; and [retrieve] treats a limit of [0]
    like an absent limit, using the configured [top_k]. *)
Theorem C8_merge_limit `{SA : ScoreArith}
    (bm25_docs vector_results : list Document) (k : Z) :
  let ranking := sorted_docs bm25_docs vector_results in
  exists docs,
    DocumentRetriever.rrf_merge bm25_docs vector_results k = Ok docs /\
    (k = 0%Z -> docs = []) /\
    ((k < 0)%Z ->
       map page_content docs =
         firstn (List.length ranking - Z.to_nat (- k)) (map fst ranking) /\
       (docs = [] <-> (List.length ranking <= Z.to_nat (- k))%nat)) /\
    (forall (self : DocumentRetriever.t) query log,
       DocumentRetriever.retrieve self query (Some 0%Z) log =
       DocumentRetriever.retrieve self query None log).
Proof.
  intros ranking.
  destruct (rrf_merge_total bm25_docs vector_results k) as (docs & E & Hm & _).
  fold ranking in Hm.
  exists docs. split; [exact E|]. split; [|split].
  - intros ->. simpl in Hm. now destruct docs.
  - intros Hk. unfold slice_to in Hm.
    destruct (k <? 0)%Z eqn:L; [|apply Z.ltb_ge in L; lia].
    rewrite <- firstn_map in Hm. split; [exact Hm|].
    assert (Hl : List.length docs =
                 Nat.min (List.length ranking - Z.to_nat (- k))
                         (List.length ranking)).
    { rewrite <- (length_map page_content docs), Hm, length_firstn.
      now rewrite length_map. }
    split.
    + intros ->. simpl in Hl. lia.
    + intros Hle. destruct docs; [reflexivity|]. simpl in Hl. lia.
  - reflexivity.
Qed.

Lemma C8_witness :
  exists docs,
    DocumentRetriever.rrf_merge (SA := QScore)
      Sample.keyword_hits Sample.vector_hits (-3)%Z = Ok docs /\
    docs = [].
Proof.
  destruct (C8_merge_limit (SA := QScore)
              Sample.keyword_hits Sample.vector_hits (-3)%Z)
    as (docs & E & _ & H & _).
  exists docs. split; [exact E|].
  apply (proj2 (H ltac:(lia))). vm_compute. lia.
Defined.

(** C8 fails as stated: with limit [-1] the merge of three distinct
    contents returns two chunks, and [retrieve] with limit [0] returns all
    three. *)
Lemma C8_counterexample :
  DocumentRetriever.rrf_merge (SA := QScore)
    Sample.keyword_hits Sample.vector_hits (-1)%Z =
    Ok [Sample.beta; Sample.alpha] /\
  DocumentRetriever.retrieve Sample.hybrid "q" (Some 0%Z) [] =
    (Ok [Sample.beta; Sample.alpha; Sample.gamma],
     [KeywordSearch; VectorSearch]).
Proof. split; vm_compute; reflexivity. Qed.

(** ** The evidence grader *)

(** C3, as the code behaves: on non-empty evidence the grader asks the
    judge once; it returns [relevant] when the judge raises and when the
    reply, stripped and lowercased, contains [yes]; every other reply,
    explicit negative or ambiguous alike, gives [irrelevant]. *)
Theorem C3_grader_verdict
    (self : RelevanceGrader.t) (question : string)
    (d : Document) (ds : list Document) (log : list Call) :
  let reply :=
    RelevanceGrader.llm self (RelevanceGrader.messages_for self question (d :: ds)) in
  exists verdict,
    RelevanceGrader.grade self question (d :: ds) log =
      (Ok verdict, log ++ [RelevanceJudge]) /\
    (forall e, reply = Raise e -> verdict = "relevant") /\
    (forall r, reply = Ok r ->
       PyStr.contains "yes" (PyStr.lower (PyStr.strip r)) = true ->
       verdict = "relevant") /\
    (forall r, reply = Ok r ->
       PyStr.contains "yes" (PyStr.lower (PyStr.strip r)) = false ->
       verdict = "irrelevant") /\
    (verdict = "irrelevant" <->
     exists r, reply = Ok r /\
               PyStr.contains "yes" (PyStr.lower (PyStr.strip r)) = false).
Proof.
  intros reply. unfold RelevanceGrader.grade, try_except, bind, call, ret.
  fold reply. destruct reply as [r|e] eqn:R.
  - destruct (PyStr.contains "yes" (PyStr.lower (PyStr.strip r))) eqn:Y.
    + exists "relevant". repeat split; try discriminate; auto.
      * intros r' [= <-] H. congruence.
      * intros (r' & [= <-] & H). congruence.
    + exists "irrelevant". repeat split; try discriminate; auto.
      * intros r' [= <-] H. congruence.
      * exists r. auto.
  - exists "relevant". repeat split; try discriminate; auto.
    intros (r' & H & _). discriminate.
Qed.

Lemma C3_witness :
  RelevanceGrader.grade (Sample.relevance (Sample.says " No. ")) "q"
    [Sample.alpha] [] = (Ok "irrelevant", [RelevanceJudge]) /\
  RelevanceGrader.grade (Sample.relevance Sample.broken) "q"
    [Sample.alpha] [] = (Ok "relevant", [RelevanceJudge]).
Proof.
  split.
  - destruct (C3_grader_verdict (Sample.relevance (Sample.says " No. ")) "q"
                Sample.alpha [] [])
      as (v & E & _ & _ & H & _).
    rewrite E. rewrite (H " No. " eq_refl eq_refl). reflexivity.
  - destruct (C3_grader_verdict (Sample.relevance Sample.broken) "q"
                Sample.alpha [] [])
      as (v & E & H & _).
    rewrite E. rewrite (H _ eq_refl). reflexivity.
Defined.

(** C3 fails as stated: the ambiguous reply [maybe] is graded
    [irrelevant], not [relevant]. *)
Lemma C3_counterexample :
  RelevanceGrader.grade (Sample.relevance (Sample.says "maybe")) "q"
    [Sample.alpha] [] = (Ok "irrelevant", [RelevanceJudge]).
Proof. reflexivity. Qed.

(** ** The research planner *)




(** ** The groundedness check *)

(** C5. After a [hallucinated] verdict the controller goes to [END] when
    the web flag is set and to [plan_research] when it is false or
    absent. *)
Theorem C5_fallback_bound (state : AgentState) (log : list Call) :
  hallucination_grade state = Some "hallucinated" ->
  (is_web state = Some true ->
     AgentGraph.decide_after_check state = "end" /\
     AgentGraph.next_node N_check_hallucination state log = (Ok END, log)) /\
  (is_web state = Some false \/ is_web state = None ->
     AgentGraph.decide_after_check state = "plan_research" /\
     AgentGraph.next_node N_check_hallucination state log =
       (Ok N_plan_research, log)).
Proof.
  intros Hg. unfold AgentGraph.next_node, AgentGraph.decide_after_check.
  rewrite Hg. simpl. split.
  - intros ->. simpl. split; reflexivity.
  - intros [-> | ->]; simpl; split; reflexivity.
Qed.

Lemma C5_witness :
  AgentGraph.next_node N_check_hallucination
    (set_hallucination_grade "hallucinated"
       (Sample.answered "42" [Sample.alpha] (Some true))) [] = (Ok END, []) /\
  AgentGraph.next_node N_check_hallucination
    (set_hallucination_grade "hallucinated"
       (Sample.answered "42" [Sample.alpha] None)) [] =
    (Ok N_plan_research, []).
Proof.
  split.
  - apply (proj1 (C5_fallback_bound
                    (set_hallucination_grade "hallucinated"
                       (Sample.answered "42" [Sample.alpha] (Some true)))
                    [] eq_refl) eq_refl).
  - apply (proj2 (C5_fallback_bound
                    (set_hallucination_grade "hallucinated"
                       (Sample.answered "42" [Sample.alpha] None))
                    [] eq_refl) (or_intror eq_refl)).
Defined.

(** C6, as the code behaves: when the evidence list is non-empty, an
    answer whose lowercase text contains one of the refusal phrases is
    classified [hallucinated] without any call to a collaborator; the
    answer "I cannot answer based on the context provided." is such an
    answer. *)
Theorem C6_refusal_fast_path `{SA : ScoreArith}
    (self : AgentGraph.t) (state : AgentState) (ans : string)
    (d : Document) (ds : list Document) (log : list Call) :
  answer state = Some ans ->
  documents state = Some (d :: ds) ->
  existsb (fun indicator => PyStr.contains indicator (PyStr.lower ans))
          AgentGraph.refusal_indicators = true ->
  AgentGraph.check_hallucination self state log =
    (Ok (set_hallucination_grade "hallucinated" state), log) /\
  calls_of GroundednessJudge (snd (AgentGraph.check_hallucination self state log))
    = calls_of GroundednessJudge log /\
  existsb (fun indicator =>
             PyStr.contains indicator
               (PyStr.lower "I cannot answer based on the context provided."))
          AgentGraph.refusal_indicators = true.
Proof.
  intros Ha Hd Hr.
  assert (E : AgentGraph.check_hallucination self state log =
              (Ok (set_hallucination_grade "hallucinated" state), log)).
  { unfold AgentGraph.check_hallucination, bind, getitem.
    rewrite Ha, Hd. unfold ret at 1 2. rewrite Hr. reflexivity. }
  split; [exact E|]. split; [now rewrite E|]. reflexivity.
Qed.

Lemma C6_witness :
  AgentGraph.check_hallucination Sample.agent
    (Sample.answered Sample.refusal [Sample.alpha] None) [] =
  (Ok (set_hallucination_grade "hallucinated"
         (Sample.answered Sample.refusal [Sample.alpha] None)), []).
Proof.
  apply (C6_refusal_fast_path Sample.agent
           (Sample.answered Sample.refusal [Sample.alpha] None)
           Sample.refusal Sample.alpha [] [] eq_refl eq_refl eq_refl).
Defined.

(** C6 fails as stated: with an empty evidence list the refusal answer is
    classified [grounded]. *)
Lemma C6_counterexample :
  existsb (fun indicator =>
             PyStr.contains indicator (PyStr.lower Sample.refusal))
          AgentGraph.refusal_indicators = true /\
  AgentGraph.check_hallucination Sample.agent
    (Sample.answered Sample.refusal [] None) [] =
  (Ok (set_hallucination_grade "grounded"
         (Sample.answered Sample.refusal [] None)), []).
Proof. split; reflexivity. Qed.

(** C10. With an empty evidence list the check returns [grounded] for
    every answer, refusals included, without any call to a collaborator;
    the refusal scan runs only on non-empty evidence. *)
Theorem C10_empty_evidence_grounded `{SA : ScoreArith}
    (self : AgentGraph.t) (state : AgentState) (ans : string)
    (log : list Call) :
  answer state = Some ans ->
  documents state = Some [] ->
  AgentGraph.check_hallucination self state log =
    (Ok (set_hallucination_grade "grounded" state), log) /\
  (forall state',
     fst (AgentGraph.check_hallucination self state log) = Ok state' ->
     hallucination_grade state' <> Some "hallucinated").
Proof.
  intros Ha Hd.
  assert (E : AgentGraph.check_hallucination self state log =
              (Ok (set_hallucination_grade "grounded" state), log)).
  { unfold AgentGraph.check_hallucination, bind, getitem.
    rewrite Ha, Hd. reflexivity. }
  split; [exact E|]. rewrite E. simpl. intros state' [= <-]. simpl.
  discriminate.
Qed.

Lemma C10_witness :
  AgentGraph.check_hallucination Sample.agent
    (Sample.answered Sample.refusal [] None) [] =
  (Ok (set_hallucination_grade "grounded"
         (Sample.answered Sample.refusal [] None)), []).
Proof.
  apply (proj1 (C10_empty_evidence_grounded Sample.agent
                  (Sample.answered Sample.refusal [] None)
                  Sample.refusal [] eq_refl eq_refl)).
Defined.

(** ** The controller *)

Lemma split_nonempty (sep : ascii) (s : string) : PyStr.split sep s <> [].
Proof.
  destruct s as [|ch s]; simpl; [discriminate|].
  destruct (Ascii.eqb ch sep); [discriminate|].
  destruct (PyStr.split sep s); discriminate.
Qed.

Lemma split_two_fields (sep : ascii) (a b : string) :
  exists t b' rest,
    PyStr.split sep (a ++ String sep b)%string = t :: b' :: rest.
Proof.
  induction a as [|ch a IH]; simpl.
  - rewrite Ascii.eqb_refl.
    destruct (PyStr.split sep b) as [|f fs] eqn:E;
      [now apply split_nonempty in E|].
    now exists EmptyString, f, fs.
  - destruct IH as (t & b' & rest & ->).
    destruct (Ascii.eqb ch sep).
    + now exists EmptyString, t, (b' :: rest).
    + now exists (String ch t), b', rest.
Qed.

Section ControllerFacts.
Context `{SA : ScoreArith}.
Import AgentGraph.

Lemma run_step (self : t) (fuel : nat) (n : Node) (state : AgentState)
    (trace : list Node) (log : list Call) :
  n <> END ->
  run self (S fuel) n state trace log =
  match run_node self n state log with
  | (Ok state', log') =>
      match next_node n state' log' with
      | (Ok n', log'') => run self fuel n' state' (trace ++ [n]) log''
      | (Raise e, log'') => (Raise e, log'')
      end
  | (Raise e, log') => (Raise e, log')
  end.
Proof.
  intros Hn. destruct n; try contradiction; reflexivity.
Qed.

Lemma run_END (self : t) (fuel : nat) (state : AgentState)
    (trace : list Node) (log : list Call) :
  run self fuel END state trace log = (Ok (trace, state), log).
Proof. destruct fuel; reflexivity. Qed.

Lemma retrieve_node (self : t) (state : AgentState) (q : string)
    (docs : list Document) (log log1 : list Call) :
  question state = Some q ->
  DocumentRetriever.retrieve (retriever self) q None log = (Ok docs, log1) ->
  retrieve self state log =
    (Ok (set_question q (set_documents docs state)), log1).
Proof.
  intros Hq Hr. unfold retrieve, bind, getitem. rewrite Hq.
  unfold ret at 1. now rewrite Hr.
Qed.

Lemma grade_node_cleared (self : t) (state : AgentState) (q : string)
    (docs : list Document) (log log1 : list Call) :
  question state = Some q ->
  documents state = Some docs ->
  RelevanceGrader.grade (relevance_grader self) q docs log =
    (Ok "irrelevant", log1) ->
  grade_documents self state log =
    (Ok (set_retry_count (get_default (retry_count state) 0%Z)
           (set_documents [] state)), log1).
Proof.
  intros Hq Hd Hg. unfold grade_documents, bind, getitem. rewrite Hq, Hd.
  unfold ret at 1 2. now rewrite Hg.
Qed.

Lemma generate_queries_total (r : ResearchRefiner.t) (q : string)
    (log : list Call) :
  exists queries,
    ResearchRefiner.generate_queries r q log =
      (Ok queries, log ++ [PlannerGeneration]).
Proof.
  unfold ResearchRefiner.generate_queries, try_except, bind, call, ret.
  destruct (ResearchRefiner.llm r _); eexists; reflexivity.
Qed.

Lemma synthesize_total (r : ResearchSynthesizer.t) (q ctx : string)
    (log : list Call) :
  exists ans,
    ResearchSynthesizer.synthesize r q ctx log =
      (Ok ans, log ++ [SynthesisGeneration]).
Proof.
  unfold ResearchSynthesizer.synthesize, try_except, call, ret.
  destruct (ResearchSynthesizer.llm r _) as [a|[msg]]; eexists; reflexivity.
Qed.

Lemma web_result_of_web_document (res : WebResult) (log : list Call) :
  exists w, web_result_of (web_document res) log = (Ok w, log).
Proof.
  unfold web_result_of, web_document. simpl.
  destruct (split_two_fields PyStr.newline (title res) (body res))
    as (t0 & b0 & rest & E).
  change (title res ++ PyStr.nl ++ body res)%string
    with (title res ++ String PyStr.newline (body res))%string.
  rewrite E. eexists. reflexivity.
Qed.

Lemma mapM_web_results (results : list WebResult) (log : list Call) :
  exists ws, mapM web_result_of (map web_document results) log = (Ok ws, log).
Proof.
  induction results as [|res results IH]; simpl.
  - eexists. reflexivity.
  - destruct (web_result_of_web_document res log) as (w & Ew).
    destruct IH as (ws & Ews). unfold bind. rewrite Ew, Ews.
    eexists. reflexivity.
Qed.

Lemma plan_node (self : t) (state : AgentState) (q : string)
    (log : list Call) :
  question state = Some q ->
  exists queries,
    plan_research self state log =
      (Ok (set_research_queries queries state), log ++ [PlannerGeneration]).
Proof.
  intros Hq.
  destruct (generate_queries_total (research_refiner self) q log)
    as (queries & Eq).
  exists queries. unfold plan_research, bind, getitem. rewrite Hq.
  unfold ret at 1. now rewrite Eq.
Qed.

Lemma web_search_node (self : t) (state : AgentState) (q : string)
    (log : list Call) :
  question state = Some q ->
  exists results,
    web_search self state log =
      (Ok (set_is_web true (set_documents (map web_document results) state)),
       log ++ [WebSearchCall]).
Proof.
  intros Hq. unfold web_search, bind, call, getitem. rewrite Hq.
  destruct (research_queries state) as [[|q0 qs]|]; eexists; reflexivity.
Qed.

Lemma synthesize_node (self : t) (state : AgentState) (q : string)
    (results : list WebResult) (log : list Call) :
  question state = Some q ->
  documents state = Some (map web_document results) ->
  exists final,
    synthesize_research self state log =
      (Ok final, log ++ [SynthesisGeneration]) /\
    question final = question state /\
    retry_count final = retry_count state /\
    is_web final = is_web state.
Proof.
  intros Hq Hd.
  destruct (mapM_web_results results log) as (ws & Em).
  destruct (synthesize_total (research_synthesizer self) q
              (web_search_tool_format_results self ws) log) as (ans & Es).
  eexists. split.
  - unfold synthesize_research, bind, getitem. rewrite Hq, Hd.
    unfold ret at 1 2. rewrite Em, Es. reflexivity.
  - simpl. auto.
Qed.

(** From [plan_research] the run always reaches [END] through
    [web_search] and [synthesize_research]. *)
Lemma research_tail (self : t) (fuel : nat) (state : AgentState)
    (q : string) (trace : list Node) (log : list Call) :
  question state = Some q ->
  exists final log',
    run self (S (S (S fuel))) N_plan_research state trace log =
      (Ok (trace ++ [N_plan_research; N_web_search; N_synthesize_research],
           final), log') /\
    question final = question state /\
    retry_count final = retry_count state /\
    is_web final = Some true.
Proof.
  intros Hq.
  destruct (plan_node self state q log Hq) as (queries & E1).
  set (s1 := set_research_queries queries state) in *.
  destruct (web_search_node self s1 q (log ++ [PlannerGeneration]) Hq)
    as (results & E2).
  set (s2 := set_is_web true (set_documents (map web_document results) s1))
    in *.
  destruct (synthesize_node self s2 q results
              ((log ++ [PlannerGeneration]) ++ [WebSearchCall]) Hq eq_refl)
    as (final & E3 & Fq & Fr & Fw).
  exists final. eexists. split; [|auto].
  rewrite run_step by discriminate. simpl run_node. rewrite E1.
  simpl next_node. unfold ret at 1.
  rewrite run_step by discriminate. simpl run_node. rewrite E2.
  simpl next_node. unfold ret at 1.
  rewrite run_step by discriminate. simpl run_node. rewrite E3.
  simpl next_node. unfold ret at 1. rewrite run_END.
  rewrite <- !app_assoc. reflexivity.
Qed.

End ControllerFacts.

Section RetryFacts.
Context `{SA : ScoreArith}.
Import AgentGraph.

Lemma next_after_cleared_grade (state : AgentState) (log : list Call) :
  documents state = Some [] ->
  next_node N_grade_documents state log =
    (Ok (if (get_default (retry_count state) 0 <? max_retries)%Z
         then N_transform_query else N_plan_research), log).
Proof.
  intros Hd. unfold next_node, decide_to_generate, bind, getitem.
  rewrite Hd. unfold ret at 1.
  destruct (get_default (retry_count state) 0 <? max_retries)%Z; reflexivity.
Qed.

Lemma transform_query_node (state : AgentState) (q : string)
    (log : list Call) :
  question state = Some q ->
  transform_query state log =
    (Ok (set_retry_count (get_default (retry_count state) 0 + 1)%Z
           (set_question (q ++ " overview details")%string state)), log).
Proof.
  intros Hq. unfold transform_query, bind, getitem. now rewrite Hq.
Qed.

(** One attempt that ends with cleared evidence: [retrieve] and
    [grade_documents] run, and the router is consulted in a state with
    no documents. *)
Lemma cleared_attempt (self : t) (fuel : nat) (state : AgentState)
    (q : string) (docs : list Document) (trace : list Node)
    (log : list Call) :
  question state = Some q ->
  (forall l, fst (DocumentRetriever.retrieve (retriever self) q None l)
             = Ok docs) ->
  (forall l, fst (RelevanceGrader.grade (relevance_grader self) q docs l)
             = Ok "irrelevant") ->
  exists log',
    run self (S (S fuel)) N_retrieve state trace log =
    run self fuel
      (if (get_default (retry_count state) 0 <? max_retries)%Z
       then N_transform_query else N_plan_research)
      (set_retry_count (get_default (retry_count state) 0%Z)
         (set_documents [] (set_question q (set_documents docs state))))
      (trace ++ [N_retrieve; N_grade_documents]) log'.
Proof.
  intros Hq Hr Hg.
  destruct (DocumentRetriever.retrieve (retriever self) q None log)
    as [o1 l1] eqn:E1.
  pose proof (Hr log) as Hr1. rewrite E1 in Hr1. simpl in Hr1. subst o1.
  pose (s1 := set_question q (set_documents docs state)).
  destruct (RelevanceGrader.grade (relevance_grader self) q docs l1)
    as [o2 l2] eqn:E2.
  pose proof (Hg l1) as Hg1. rewrite E2 in Hg1. simpl in Hg1. subst o2.
  exists l2.
  rewrite run_step by discriminate. simpl run_node.
  rewrite (retrieve_node self state q docs log l1 Hq E1).
  simpl next_node. unfold ret at 1.
  rewrite run_step by discriminate. simpl run_node.
  fold s1.
  rewrite (grade_node_cleared self s1 q docs l1 l2 eq_refl eq_refl E2).
  rewrite next_after_cleared_grade by reflexivity.
  rewrite <- app_assoc. reflexivity.
Qed.

End RetryFacts.

(** C4. When retrieval followed by grading leaves no evidence both for the
    question and for the broadened question, a run executes [retrieve],
    [grade_documents], [transform_query], [retrieve], [grade_documents],
    [plan_research] in this order and then only the two research nodes
    that follow [plan_research]; [transform_query] is executed once.
    Every execution of [transform_query] appends " overview details" to
    the question and adds one to [retry_count]. *)
Theorem C4_retry_bound `{SA : ScoreArith}
    (self : AgentGraph.t) (q : string) (docs1 docs2 : list Document)
    (log : list Call) :
  let q2 := (q ++ " overview details")%string in
  let attempt (question : string) (docs : list Document) :=
    (forall l,
       fst (DocumentRetriever.retrieve (AgentGraph.retriever self)
              question None l) = Ok docs) /\
    (forall l,
       fst (RelevanceGrader.grade (AgentGraph.relevance_grader self)
              question docs l) = Ok "irrelevant") in
  attempt q docs1 ->
  attempt q2 docs2 ->
  (exists trace final log',
     AgentGraph.invoke self q log = (Ok (trace, final), log') /\
     firstn 6 trace =
       [N_retrieve; N_grade_documents; N_transform_query;
        N_retrieve; N_grade_documents; N_plan_research] /\
     skipn 6 trace = [N_web_search; N_synthesize_research] /\
     List.length (filter (Node_eqb N_transform_query) trace) = 1%nat /\
     question final = Some q2 /\
     retry_count final = Some 1%Z) /\
  (forall state q0 l,
     question state = Some q0 ->
     exists state',
       AgentGraph.transform_query state l = (Ok state', l) /\
       question state' = Some (q0 ++ " overview details")%string /\
       retry_count state' =
         Some (get_default (retry_count state) 0 + 1)%Z).
Proof.
  intros q2 attempt [Hr1 Hg1] [Hr2 Hg2]. split.
  - unfold AgentGraph.invoke, AgentGraph.recursion_limit.
    pose (s2 := set_retry_count 0%Z
                  (set_documents []
                     (set_question q
                        (set_documents docs1 (initial_state q))))).
    pose (s3 := set_retry_count 1%Z (set_question q2 s2)).
    pose (s5 := set_retry_count 1%Z
                  (set_documents []
                     (set_question q2 (set_documents docs2 s3)))).
    destruct (cleared_attempt self 23 (initial_state q) q docs1 [] log
                eq_refl Hr1 Hg1) as (l2 & E1).
    change (AgentGraph.run self 25 N_retrieve (initial_state q) [] log =
            AgentGraph.run self 23 N_transform_query s2
              [N_retrieve; N_grade_documents] l2) in E1.
    destruct (cleared_attempt self 20 s3 q2 docs2
                [N_retrieve; N_grade_documents; N_transform_query] l2
                eq_refl Hr2 Hg2) as (l4 & E2).
    change (AgentGraph.run self 22 N_retrieve s3
              [N_retrieve; N_grade_documents; N_transform_query] l2 =
            AgentGraph.run self 20 N_plan_research s5
              [N_retrieve; N_grade_documents; N_transform_query;
               N_retrieve; N_grade_documents] l4) in E2.
    destruct (research_tail self 17 s5 q2
                [N_retrieve; N_grade_documents; N_transform_query;
                 N_retrieve; N_grade_documents] l4 eq_refl)
      as (final & l' & E3 & Fq & Fr & Fw).
    exists [N_retrieve; N_grade_documents; N_transform_query;
            N_retrieve; N_grade_documents; N_plan_research;
            N_web_search; N_synthesize_research], final, l'.
    split; [|repeat split; auto].
    rewrite E1. rewrite run_step by discriminate.
    change (AgentGraph.run_node self N_transform_query s2 l2)
      with (AgentGraph.transform_query s2 l2).
    rewrite (transform_query_node s2 q l2 eq_refl).
    change (AgentGraph.run self 22 N_retrieve s3
              [N_retrieve; N_grade_documents; N_transform_query] l2 =
            (Ok ([N_retrieve; N_grade_documents; N_transform_query;
                  N_retrieve; N_grade_documents; N_plan_research;
                  N_web_search; N_synthesize_research], final), l')).
    rewrite E2. exact E3.
  - intros state q0 l Hq. eexists. split.
    + apply (transform_query_node state q0 l Hq).
    + split; reflexivity.
Qed.

Lemma C4_witness :
  exists final log',
    AgentGraph.invoke Sample.agent "What was total revenue in Q4?" [] =
      (Ok ([N_retrieve; N_grade_documents; N_transform_query;
            N_retrieve; N_grade_documents; N_plan_research;
            N_web_search; N_synthesize_research], final), log') /\
    question final = Some "What was total revenue in Q4? overview details" /\
    retry_count final = Some 1%Z.
Proof.
  destruct (C4_retry_bound Sample.agent "What was total revenue in Q4?" [] [] [])
    as [(trace & final & log' & E & H1 & H2 & _ & Hq & Hr) _].
  - split; intros l; reflexivity.
  - split; intros l; reflexivity.
  - exists final, log'. split; [|split; assumption].
    rewrite E. rewrite <- (firstn_skipn 6 trace), H1, H2. reflexivity.
Defined.

(* ================================================================== *)
(** * Further properties of the sources *)
(* ================================================================== *)

(** ** The graders never raise *)

Lemma grade_returns (self : RelevanceGrader.t) (question : string)
    (documents : list Document) (log : list Call) :
  exists verdict log',
    RelevanceGrader.grade self question documents log = (Ok verdict, log') /\
    (verdict = "relevant" \/ verdict = "irrelevant").
Proof.
  destruct documents as [|d ds].
  - exists "irrelevant", log. split; auto.
  - unfold RelevanceGrader.grade, try_except, bind, call, ret.
    destruct (RelevanceGrader.llm self _) as [r|e].
    + destruct (PyStr.contains "yes" (PyStr.lower (PyStr.strip r)));
        do 2 eexists; (split; [reflexivity|auto]).
    + do 2 eexists. split; [reflexivity|auto].
Qed.

Lemma check_groundedness_returns (self : HallucinationGrader.t)
    (answer : string) (context_docs : list Document) (log : list Call) :
  exists grounded,
    HallucinationGrader.check_groundedness self answer context_docs log =
      (Ok grounded, log ++ [GroundednessJudge]).
Proof.
  unfold HallucinationGrader.check_groundedness, try_except, bind, call, ret.
  destruct (HallucinationGrader.llm self _); eexists; reflexivity.
Qed.

(** X1. The evidence grader never raises: it returns [relevant] or
    [irrelevant], asks the judge at most once, and not at all when the
    evidence list is empty. *)
Theorem grade_total (self : RelevanceGrader.t) (question : string)
    (documents : list Document) (log : list Call) :
  exists verdict,
    RelevanceGrader.grade self question documents log =
      (Ok verdict,
       match documents with [] => log | _ :: _ => log ++ [RelevanceJudge] end) /\
    (verdict = "relevant" \/ verdict = "irrelevant") /\
    (documents = [] -> verdict = "irrelevant").
Proof.
  destruct documents as [|d ds].
  - exists "irrelevant". repeat split; auto.
  - unfold RelevanceGrader.grade, try_except, bind, call, ret.
    destruct (RelevanceGrader.llm self _) as [r|e].
    + destruct (PyStr.contains "yes" (PyStr.lower (PyStr.strip r)));
        eexists; (split; [reflexivity|split; [auto|discriminate]]).
    + eexists. split; [reflexivity|split; [auto|discriminate]].
Qed.

Lemma grade_total_witness :
  exists verdict,
    RelevanceGrader.grade (Sample.relevance Sample.broken) "q" [] [] =
      (Ok verdict, []) /\ verdict = "irrelevant".
Proof.
  destruct (grade_total (Sample.relevance Sample.broken) "q" [] [])
    as (v & E & _ & H).
  exists v. split; [exact E|]. apply H. reflexivity.
Defined.

(** X2. The groundedness judge wrapper never raises and asks the judge
    exactly once: it answers [true] when the judge raises and otherwise
    whether the stripped, lowercased reply contains [yes]. *)
Theorem check_groundedness_total (self : HallucinationGrader.t)
    (answer : string) (context_docs : list Document) (log : list Call) :
  exists grounded,
    HallucinationGrader.check_groundedness self answer context_docs log =
      (Ok grounded, log ++ [GroundednessJudge]) /\
    (forall e,
       HallucinationGrader.llm self
         [SystemMessage (HallucinationGrader.SYSTEM_PROMPT self);
          HumanMessage
            (HallucinationGrader.prompt
               (PyStr.join (PyStr.nl ++ PyStr.nl)%string
                  (map page_content context_docs)) answer)] = Raise e ->
       grounded = true) /\
    (forall r,
       HallucinationGrader.llm self
         [SystemMessage (HallucinationGrader.SYSTEM_PROMPT self);
          HumanMessage
            (HallucinationGrader.prompt
               (PyStr.join (PyStr.nl ++ PyStr.nl)%string
                  (map page_content context_docs)) answer)] = Ok r ->
       grounded = PyStr.contains "yes" (PyStr.lower (PyStr.strip r))).
Proof.
  unfold HallucinationGrader.check_groundedness, try_except, bind, call, ret.
  destruct (HallucinationGrader.llm self _) as [r|e].
  - eexists. split; [reflexivity|]. split; [discriminate|].
    now intros r' [= <-].
  - eexists. split; [reflexivity|]. split; [reflexivity|discriminate].
Qed.

Lemma check_groundedness_total_witness :
  HallucinationGrader.check_groundedness
    (Sample.groundedness Sample.broken) "42" [Sample.alpha] [] =
    (Ok true, [GroundednessJudge]) /\
  HallucinationGrader.check_groundedness
    (Sample.groundedness (Sample.says "No")) "42" [Sample.alpha] [] =
    (Ok false, [GroundednessJudge]).
Proof.
  split.
  - destruct (check_groundedness_total (Sample.groundedness Sample.broken)
                "42" [Sample.alpha] []) as (g & E & H & _).
    rewrite E, (H _ eq_refl). reflexivity.
  - destruct (check_groundedness_total
                (Sample.groundedness (Sample.says "No"))
                "42" [Sample.alpha] []) as (g & E & _ & H).
    rewrite E, (H _ eq_refl). reflexivity.
Defined.

(** ** Every run of the controller is bounded *)

Section ControllerBound.
Context `{SA : ScoreArith}.
Import AgentGraph.

Lemma attempt_state_question (q0 : string) (s : AgentState) :
  attempt_state q0 s -> exists q, question s = Some q.
Proof. intros [[_ H]|[_ H]]; eauto. Qed.

Lemma attempt_state_retries (q0 : string) (s : AgentState) :
  attempt_state q0 s -> retries s = 0%Z \/ retries s = 1%Z.
Proof. intros [[H _]|[H _]]; auto. Qed.

Lemma attempt_state_same (q0 : string) (s s' : AgentState) :
  retries s' = retries s -> question s' = question s ->
  attempt_state q0 s -> attempt_state q0 s'.
Proof. unfold attempt_state. intros -> ->. auto. Qed.

Lemma check_hallucination_total (self : t) (state : AgentState)
    (ans : string) (docs : list Document) (log : list Call) :
  answer state = Some ans ->
  documents state = Some docs ->
  exists g log',
    check_hallucination self state log =
      (Ok (set_hallucination_grade g state), log') /\
    (g = "grounded" \/ g = "hallucinated").
Proof.
  intros Ha Hd. unfold check_hallucination, bind, getitem. rewrite Ha, Hd.
  unfold ret at 1 2. destruct docs as [|d ds].
  - do 2 eexists. split; [reflexivity|auto].
  - destruct (existsb _ refusal_indicators).
    + do 2 eexists. split; [reflexivity|auto].
    + destruct (check_groundedness_returns (grader self) ans (d :: ds) log)
        as (b & E). rewrite E. destruct b;
        do 2 eexists; (split; [reflexivity|auto]).
Qed.

Lemma step_retrieve (self : t) (q0 : string) (s : AgentState) (log : list Call) :
  ready q0 N_retrieve s -> step_ok self q0 N_retrieve s log.
Proof.
  unfold step_ok.
  intros [Ha _]. destruct (attempt_state_question q0 s Ha) as (q & Hq).
  simpl run_node.
  destruct (DocumentRetriever.retrieve (retriever self) q None log)
    as [[docs|e] l1] eqn:E.
  - rewrite (retrieve_node self s q docs log l1 Hq E).
    exists N_grade_documents. split; [reflexivity|].
    split; [split; [apply (attempt_state_same q0 s); auto|discriminate]|].
    unfold steps_left, transforms_left.
    change (retries (set_question q (set_documents docs s))) with (retries s).
    destruct (retries s <? 1)%Z; simpl; repeat split; auto; lia.
  - unfold retrieve, bind, getitem. rewrite Hq. unfold ret at 1. rewrite E.
    left. exists q, log. now rewrite E.
Qed.

Lemma cleared_grade_edge (q0 : string) (s : AgentState) (log : list Call) :
  attempt_state q0 s ->
  let s' := set_retry_count (get_default (retry_count s) 0%Z)
              (set_documents [] s) in
  exists n',
    next_node N_grade_documents s' log = (Ok n', log) /\
    ready q0 n' s' /\
    (steps_left n' s' < steps_left N_grade_documents s)%nat /\
    (transforms_left n' s' <= transforms_left N_grade_documents s)%nat /\
    (web_searches_left n' <= 1)%nat.
Proof.
  intros Ha s'.
  assert (Rs : retries s' = retries s) by reflexivity.
  assert (Ha' : attempt_state q0 s')
    by (apply (attempt_state_same q0 s); auto).
  rewrite next_after_cleared_grade by reflexivity.
  fold (retries s'). rewrite Rs. unfold max_retries.
  destruct (attempt_state_retries q0 s Ha) as [R|R]; rewrite R; simpl.
  - exists N_transform_query. split; [reflexivity|].
    split; [split; [exact Ha'|now rewrite Rs]|].
    unfold steps_left, transforms_left. rewrite R. simpl. lia.
  - exists N_plan_research. split; [reflexivity|].
    split; [split; [exact Ha'|exact I]|].
    unfold steps_left, transforms_left. rewrite R. simpl. lia.
Qed.

Lemma step_grade (self : t) (q0 : string) (s : AgentState) (log : list Call) :
  ready q0 N_grade_documents s -> step_ok self q0 N_grade_documents s log.
Proof.
  unfold step_ok.
  intros [Ha Hd]. destruct (attempt_state_question q0 s Ha) as (q & Hq).
  destruct (documents s) as [docs|] eqn:Ed; [|contradiction].
  destruct (grade_returns (relevance_grader self) q docs log)
    as (v & l1 & E & Hv).
  simpl run_node. unfold grade_documents, bind, getitem. rewrite Hq, Ed.
  unfold ret at 1 2. rewrite E.
  destruct Hv as [-> | ->];
    [ change (String.eqb "relevant" "irrelevant") with false
    | change (String.eqb "irrelevant" "irrelevant") with true ];
    cbv iota; unfold ret; cbv beta iota.
  - destruct docs as [|d ds].
    + destruct (cleared_grade_edge q0 s l1 Ha)
        as (n' & H1 & H2 & H3 & H4 & H5).
      exists n'. repeat split; auto; apply H2.
    + exists N_generate. split; [reflexivity|].
      split; [split; [apply (attempt_state_same q0 s); auto|discriminate]|].
      unfold steps_left, transforms_left.
      destruct (retries s <? 1)%Z; simpl; repeat split; auto; lia.
  - destruct (cleared_grade_edge q0 s l1 Ha)
      as (n' & H1 & H2 & H3 & H4 & H5).
    exists n'. repeat split; auto; apply H2.
Qed.

Lemma step_transform (self : t) (q0 : string) (s : AgentState)
    (log : list Call) :
  ready q0 N_transform_query s -> step_ok self q0 N_transform_query s log.
Proof.
  unfold step_ok.
  intros [Ha R]. destruct (attempt_state_question q0 s Ha) as (q & Hq).
  simpl run_node. rewrite (transform_query_node s q log Hq).
  exists N_retrieve. split; [reflexivity|].
  assert (R' : retries (set_retry_count (get_default (retry_count s) 0 + 1)%Z
                          (set_question (q ++ " overview details")%string s))
               = 1%Z).
  { unfold retries in *. simpl. lia. }
  split; [split; auto|].
  - right. split; [exact R'|]. destruct Ha as [[_ Q]|[R1 _]]; [|lia].
    simpl. rewrite Hq in Q. now injection Q as ->.
  - unfold steps_left, transforms_left. rewrite R'. simpl.
    repeat split; auto.
Qed.

Lemma step_generate (self : t) (q0 : string) (s : AgentState)
    (log : list Call) :
  ready q0 N_generate s -> step_ok self q0 N_generate s log.
Proof.
  unfold step_ok.
  intros [Ha Hd]. destruct (attempt_state_question q0 s Ha) as (q & Hq).
  destruct (documents s) as [docs|] eqn:Ed; [|contradiction].
  simpl run_node. unfold generate, bind, getitem, call. rewrite Hq, Ed.
  unfold ret at 1 2.
  destruct (generate_answer self q docs) as [r|e] eqn:E.
  - exists N_check_hallucination. split; [reflexivity|].
    split; [split; [apply (attempt_state_same q0 s); auto|]|].
    + simpl. rewrite Ed. split; discriminate.
    + simpl. repeat split; auto.
  - right. now exists q, docs.
Qed.

Lemma step_check (self : t) (q0 : string) (s : AgentState) (log : list Call) :
  ready q0 N_check_hallucination s ->
  step_ok self q0 N_check_hallucination s log.
Proof.
  unfold step_ok.
  intros [Ha [Hd Hans]].
  destruct (documents s) as [docs|] eqn:Ed; [|contradiction].
  destruct (answer s) as [ans|] eqn:Ea; [|contradiction].
  destruct (check_hallucination_total self s ans docs log Ea Ed)
    as (g & l1 & E & Hg).
  simpl run_node. rewrite E.
  unfold next_node, decide_after_check. simpl hallucination_grade.
  simpl get_default at 1.
  assert (Hr : forall n', ready q0 n' s ->
                          ready q0 n' (set_hallucination_grade g s)).
  { intros n' [H1 H2]. split; [apply (attempt_state_same q0 s); auto|].
    destruct n'; auto. }
  destruct Hg as [-> | ->]; simpl String.eqb; cbv iota.
  - exists END. split; [reflexivity|]. split; [apply Hr; split; auto|].
    simpl. repeat split; auto.
  - simpl is_web. destruct (is_web s) as [[|]|]; simpl get_default; cbv iota.
    + exists END. split; [reflexivity|]. split; [apply Hr; split; auto|].
      simpl. repeat split; auto.
    + exists N_plan_research. split; [reflexivity|].
      split; [apply Hr; split; auto|]. simpl. repeat split; auto.
    + exists N_plan_research. split; [reflexivity|].
      split; [apply Hr; split; auto|]. simpl. repeat split; auto.
Qed.

Lemma step_plan (self : t) (q0 : string) (s : AgentState) (log : list Call) :
  ready q0 N_plan_research s -> step_ok self q0 N_plan_research s log.
Proof.
  unfold step_ok.
  intros [Ha _]. destruct (attempt_state_question q0 s Ha) as (q & Hq).
  destruct (plan_node self s q log Hq) as (queries & E).
  simpl run_node. rewrite E. exists N_web_search.
  split; [reflexivity|].
  split; [split; [apply (attempt_state_same q0 s); auto|exact I]|].
  simpl. repeat split; auto.
Qed.

Lemma step_web_search (self : t) (q0 : string) (s : AgentState)
    (log : list Call) :
  ready q0 N_web_search s -> step_ok self q0 N_web_search s log.
Proof.
  unfold step_ok.
  intros [Ha _]. destruct (attempt_state_question q0 s Ha) as (q & Hq).
  destruct (web_search_node self s q log Hq) as (results & E).
  simpl run_node. rewrite E. exists N_synthesize_research.
  split; [reflexivity|].
  split; [split; [apply (attempt_state_same q0 s); auto|]|].
  - simpl. now exists results.
  - simpl. repeat split; auto.
Qed.

Lemma step_synthesize (self : t) (q0 : string) (s : AgentState)
    (log : list Call) :
  ready q0 N_synthesize_research s ->
  step_ok self q0 N_synthesize_research s log.
Proof.
  unfold step_ok.
  intros [Ha (results & Hd)].
  destruct (attempt_state_question q0 s Ha) as (q & Hq).
  destruct (synthesize_node self s q results log Hq Hd)
    as (final & E & Fq & Fr & Fw).
  simpl run_node. rewrite E. exists END. split; [reflexivity|].
  split; [split; [|exact I]|].
  - apply (attempt_state_same q0 s); auto. unfold retries. now rewrite Fr.
  - simpl. repeat split; auto.
Qed.

(** One node and the edge out of it: the node either raises an exception
    of the retriever or of the generator, or it leads to a node that is
    ready to run and strictly closer to [END]. *)
Lemma node_step (self : t) (q0 : string) (n : Node) (s : AgentState)
    (log : list Call) :
  n <> END -> ready q0 n s -> step_ok self q0 n s log.
Proof.
  intros Hn Hr. destruct n; try contradiction.
  - now apply step_retrieve.
  - now apply step_grade.
  - now apply step_generate.
  - now apply step_transform.
  - now apply step_plan.
  - now apply step_web_search.
  - now apply step_synthesize.
  - now apply step_check.
Qed.

End ControllerBound.

Section RunBound.
Context `{SA : ScoreArith}.
Import AgentGraph.

Lemma steps_left_pos (n : Node) (s : AgentState) :
  n <> END -> (1 <= steps_left n s)%nat.
Proof.
  intros Hn. destruct n; try contradiction; simpl; try lia;
    destruct (retries s <? 1)%Z; lia.
Qed.

Lemma executions_cons (x n : Node) (tail : list Node) :
  executions x (n :: tail) =
  ((if Node_eqb x n then 1 else 0) + executions x tail)%nat.
Proof. unfold executions. simpl. destruct (Node_eqb x n); reflexivity. Qed.

(** A run from a ready state needs no more fuel than [steps_left]: it
    returns, or it raises an exception of the retriever or of the
    generator. *)
Lemma run_bounded (self : t) (q0 : string) (fuel : nat) :
  forall (n : Node) (s : AgentState) (tr : list Node) (log : list Call),
    ready q0 n s -> (steps_left n s <= fuel)%nat ->
    match run self fuel n s tr log with
    | (Ok (trace, final), _) =>
        exists tail,
          trace = tr ++ tail /\
          (List.length tail <= steps_left n s)%nat /\
          (executions N_transform_query tail <= transforms_left n s)%nat /\
          (executions N_web_search tail <= web_searches_left n)%nat /\
          attempt_state q0 final /\
          is_web final =
            (if existsb (Node_eqb N_web_search) tail then Some true
             else is_web s)
    | (Raise e, _) => collaborator_raised self e
    end.
Proof.
  induction fuel as [|fuel IH]; intros n s tr log Hr Hs;
    (assert (D : n = END \/ n <> END)
       by (destruct n; auto; right; discriminate));
    (destruct D as [-> | Hn];
     [ rewrite run_END; exists []; rewrite app_nil_r; simpl;
       repeat split; auto; apply Hr | ]).
  - pose proof (steps_left_pos n s Hn). lia.
  - rewrite run_step by assumption.
    pose proof (node_step self q0 n s log Hn Hr) as St. unfold step_ok in St.
    destruct (run_node self n s log) as [[s'|e] l1]; [|exact St].
    destruct St as (n' & En & Hr' & Hs' & Ht & Hw & Hi).
    rewrite En.
    specialize (IH n' s' (tr ++ [n]) l1 Hr' ltac:(lia)).
    destruct (run self fuel n' s' (tr ++ [n]) l1) as [[[trace final]|e] l'];
      [|exact IH].
    destruct IH as (tail & -> & Hl & Ht' & Hw' & Ha & Hf).
    exists (n :: tail). rewrite <- app_assoc. simpl app.
    split; [reflexivity|]. rewrite !executions_cons.
    split; [simpl; lia|]. split; [lia|]. split; [lia|]. split; [exact Ha|].
    rewrite Hf, Hi.
    change (existsb (Node_eqb N_web_search) (n :: tail))
      with (Node_eqb N_web_search n || existsb (Node_eqb N_web_search) tail).
    destruct (Node_eqb N_web_search n);
      destruct (existsb (Node_eqb N_web_search) tail); reflexivity.
Qed.

Lemma initial_ready (q : string) : ready q N_retrieve (initial_state q).
Proof. split; [left; split; reflexivity|exact I]. Qed.

End RunBound.

(** X3. Every run of the workflow ends within ten node executions: [invoke]
    returns, or it raises an exception that the retriever or the answer
    generator raised; the step limit is never reached and no key of the
    state is ever missing. *)
Theorem invoke_terminates `{SA : ScoreArith}
    (self : AgentGraph.t) (q : string) (log : list Call) :
  match AgentGraph.invoke self q log with
  | (Ok (trace, final), _) => (List.length trace <= 10)%nat
  | (Raise e, _) => collaborator_raised self e
  end.
Proof.
  unfold AgentGraph.invoke.
  pose proof (run_bounded self q AgentGraph.recursion_limit N_retrieve
                (initial_state q) [] log (initial_ready q)) as H.
  simpl steps_left in H. specialize (H ltac:(unfold AgentGraph.recursion_limit; lia)).
  destruct (AgentGraph.run self AgentGraph.recursion_limit N_retrieve
              (initial_state q) [] log) as [[[trace final]|e] l']; auto.
  destruct H as (tail & -> & Hl & _). simpl. exact Hl.
Qed.

(** X4. In every run that returns, [transform_query] and [web_search] are
    each executed at most once; the final state holds the question with
    no retry counted or the broadened question with one retry counted; and
    the web flag is set exactly when [web_search] was executed. *)
Theorem invoke_retry_and_fallback_bounds `{SA : ScoreArith}
    (self : AgentGraph.t) (q : string) (log : list Call) :
  match AgentGraph.invoke self q log with
  | (Ok (trace, final), _) =>
      (executions N_transform_query trace <= 1)%nat /\
      (executions N_web_search trace <= 1)%nat /\
      ((retries final = 0%Z /\ question final = Some q) \/
       (retries final = 1%Z /\
        question final = Some (q ++ " overview details")%string)) /\
      (retries final <= AgentGraph.max_retries)%Z /\
      is_web final =
        (if existsb (Node_eqb N_web_search) trace then Some true else None)
  | (Raise e, _) => True
  end.
Proof.
  unfold AgentGraph.invoke.
  pose proof (run_bounded self q AgentGraph.recursion_limit N_retrieve
                (initial_state q) [] log (initial_ready q)) as H.
  simpl steps_left in H. specialize (H ltac:(unfold AgentGraph.recursion_limit; lia)).
  destruct (AgentGraph.run self AgentGraph.recursion_limit N_retrieve
              (initial_state q) [] log) as [[[trace final]|e] l']; auto.
  destruct H as (tail & -> & _ & Ht & Hw & Ha & Hf). simpl app.
  split; [exact Ht|]. split; [exact Hw|]. split; [exact Ha|].
  split; [|exact Hf].
  unfold AgentGraph.max_retries. destruct Ha as [[R _]|[R _]]; rewrite R; lia.
Qed.

(** ** Web research *)

Lemma split_no_sep (sep : ascii) (s : string) :
  PyStr.mem_char sep s = false -> PyStr.split sep s = [s].
Proof.
  induction s as [|ch s IH]; simpl; auto.
  rewrite (Ascii.eqb_sym ch sep).
  destruct (Ascii.eqb sep ch); simpl; [discriminate|].
  intros H. now rewrite (IH H).
Qed.

Lemma split_app_sep (sep : ascii) (a b : string) :
  PyStr.mem_char sep a = false ->
  PyStr.split sep (a ++ String sep b)%string = a :: PyStr.split sep b.
Proof.
  induction a as [|ch a IH]; simpl.
  - intros _. now rewrite Ascii.eqb_refl.
  - rewrite (Ascii.eqb_sym ch sep).
    destruct (Ascii.eqb sep ch); simpl; [discriminate|].
    intros H. now rewrite (IH H).
Qed.

Section WebResearch.
Context `{SA : ScoreArith}.
Import AgentGraph.

(** X5. A web hit turned into a pseudo-document and read back in
    [synthesize_research]: when the title has no line break, the title,
    the link and the query label come back, and the snippet comes back cut
    at its first line break; a hit whose snippet has no line break and
    which carries a query comes back unchanged. *)
Theorem web_document_round_trip (res : WebResult) (log : list Call) :
  PyStr.mem_char PyStr.newline (title res) = false ->
  web_result_of (web_document res) log =
    (Ok {| title := title res; href := href res;
           body := hd EmptyString (PyStr.split PyStr.newline (body res));
           query := Some (get_default (query res) "Main") |}, log) /\
  (PyStr.mem_char PyStr.newline (body res) = false ->
   query res <> None ->
   web_result_of (web_document res) log = (Ok res, log)).
Proof.
  intros Ht.
  assert (E : web_result_of (web_document res) log =
    (Ok {| title := title res; href := href res;
           body := hd EmptyString (PyStr.split PyStr.newline (body res));
           query := Some (get_default (query res) "Main") |}, log)).
  { unfold web_result_of, web_document. cbn [page_content metadata].
    change (title res ++ PyStr.nl ++ body res)%string
      with (title res ++ String PyStr.newline (body res))%string.
    rewrite (split_app_sep _ _ _ Ht).
    destruct (PyStr.split PyStr.newline (body res)) as [|f fs] eqn:Eb;
      [now apply split_nonempty in Eb|]. reflexivity. }
  split; [exact E|]. intros Hb Hq. rewrite E.
  rewrite (split_no_sep _ _ Hb). destruct res as [t h b [q|]];
    [reflexivity|contradiction].
Qed.

Lemma web_document_round_trip_witness :
  web_result_of
    (web_document {| title := "Revenue"; href := "https://example.org";
                     body := "Q4 revenue was 42."; query := Some "q4" |}) [] =
  (Ok {| title := "Revenue"; href := "https://example.org";
         body := "Q4 revenue was 42."; query := Some "q4" |}, []).
Proof.
  apply (proj2 (web_document_round_trip
                  {| title := "Revenue"; href := "https://example.org";
                     body := "Q4 revenue was 42."; query := Some "q4" |}
                  [] eq_refl) eq_refl).
  discriminate.
Defined.

Lemma web_result_href (res : WebResult) :
  exists w,
    (forall log, web_result_of (web_document res) log = (Ok w, log)) /\
    href w = href res.
Proof.
  unfold web_result_of, web_document. cbn [page_content metadata].
  destruct (split_two_fields PyStr.newline (title res) (body res))
    as (t0 & b0 & rest & E).
  change (title res ++ PyStr.nl ++ body res)%string
    with (title res ++ String PyStr.newline (body res))%string.
  rewrite E. eexists. split; [intros log|]; reflexivity.
Qed.

Lemma mapM_web_results_href (results : list WebResult) :
  exists ws,
    (forall log,
       mapM web_result_of (map web_document results) log = (Ok ws, log)) /\
    map href ws = map href results.
Proof.
  induction results as [|res results IH]; simpl.
  - exists []. split; [intros log|]; reflexivity.
  - destruct (web_result_href res) as (w & Ew & Hw).
    destruct IH as (ws & Ews & Hws).
    exists (w :: ws). split.
    + intros log. unfold bind. now rewrite Ew, Ews.
    + simpl. now rewrite Hw, Hws.
Qed.

Lemma generate_queries_returns (r : ResearchRefiner.t) (q : string) :
  exists planned,
    (forall log,
       ResearchRefiner.generate_queries r q log =
         (Ok planned, log ++ [PlannerGeneration])) /\
    (List.length planned <= 3)%nat.
Proof.
  unfold ResearchRefiner.generate_queries, try_except, bind, call, ret.
  destruct (ResearchRefiner.llm r _).
  - eexists. split; [intros log; reflexivity|]. apply (slice_to_length 3). lia.
  - eexists. split; [intros log; reflexivity|]. simpl. lia.
Qed.

Lemma synthesize_returns (r : ResearchSynthesizer.t) (q ctx : string) :
  exists ans,
    forall log,
      ResearchSynthesizer.synthesize r q ctx log =
        (Ok ans, log ++ [SynthesisGeneration]).
Proof.
  unfold ResearchSynthesizer.synthesize, try_except, call, ret.
  destruct (ResearchSynthesizer.llm r _) as [a|[msg]]; eexists; intros log;
    reflexivity.
Qed.

Lemma generate_queries_bounded (r : ResearchRefiner.t) (q : string)
    (log : list Call) :
  exists queries,
    ResearchRefiner.generate_queries r q log =
      (Ok queries, log ++ [PlannerGeneration]) /\
    (List.length queries <= 3)%nat.
Proof.
  unfold ResearchRefiner.generate_queries, try_except, bind, call, ret.
  destruct (ResearchRefiner.llm r _).
  - eexists. split; [reflexivity|]. apply (slice_to_length 3). lia.
  - eexists. split; [reflexivity|]. simpl. lia.
Qed.

Lemma synthesize_node_full (self : t) (s : AgentState) (q : string)
    (results : list WebResult) (log : list Call) :
  question s = Some q ->
  documents s = Some (map web_document results) ->
  exists ws ans,
    (forall l,
       mapM web_result_of (map web_document results) l = (Ok ws, l)) /\
    (forall l,
       ResearchSynthesizer.synthesize (research_synthesizer self) q
         (web_search_tool_format_results self ws) l =
         (Ok ans, l ++ [SynthesisGeneration])) /\
    synthesize_research self s log =
      (Ok (set_sources
             (map (fun r => [("filename", "Web Search"); ("page", href r)])
                  results)
             (set_context (web_search_tool_format_results self ws)
                (set_answer ans (add_messages [AIMessage ans] s)))),
       log ++ [SynthesisGeneration]).
Proof.
  intros Hq Hd.
  destruct (mapM_web_results_href results) as (ws & Em & Hh).
  destruct (synthesize_returns (research_synthesizer self) q
              (web_search_tool_format_results self ws)) as (ans & Es).
  exists ws, ans. split; [exact Em|]. split; [exact Es|].
  unfold synthesize_research, bind, getitem. rewrite Hq, Hd.
  unfold ret at 1 2. rewrite Em, Es. unfold ret. do 3 f_equal.
  rewrite <- (map_map href
                (fun h => [("filename", "Web Search"); ("page", h)]) ws).
  rewrite Hh. now rewrite map_map.
Qed.

Lemma web_search_node_full (self : t) (s : AgentState) (q : string)
    (planned : list string) (log : list Call) :
  question s = Some q ->
  research_queries s = Some planned ->
  web_search self s log =
    (Ok (set_is_web true
           (set_documents
              (map web_document
                 (web_search_tool_search self
                    (match planned with [] => [q] | _ :: _ => planned end)))
              s)),
     log ++ [WebSearchCall]).
Proof.
  intros Hq Hp. unfold web_search, bind, call, getitem. rewrite Hq, Hp.
  destruct planned; reflexivity.
Qed.

Lemma research_tail_full (self : t) (fuel : nat) (s : AgentState)
    (q : string) (tr : list Node) (log : list Call) :
  question s = Some q ->
  exists planned ws ans final,
    let queries := match planned with [] => [q] | _ :: _ => planned end in
    let results := web_search_tool_search self queries in
    let ctx := web_search_tool_format_results self ws in
    run self (S (S (S fuel))) N_plan_research s tr log =
      (Ok (tr ++ [N_plan_research; N_web_search; N_synthesize_research],
           final),
       log ++ [PlannerGeneration; WebSearchCall; SynthesisGeneration]) /\
    (forall l,
       ResearchRefiner.generate_queries (research_refiner self) q l =
         (Ok planned, l ++ [PlannerGeneration])) /\
    (forall l,
       mapM web_result_of (map web_document results) l = (Ok ws, l)) /\
    (forall l,
       ResearchSynthesizer.synthesize (research_synthesizer self) q ctx l =
         (Ok ans, l ++ [SynthesisGeneration])) /\
    context final = Some ctx /\
    (List.length planned <= 3)%nat /\
    research_queries final = Some planned /\
    documents final = Some (map web_document results) /\
    sources final =
      Some (map (fun r => [("filename", "Web Search"); ("page", href r)])
                results) /\
    answer final = Some ans /\
    is_web final = Some true /\
    context_used final = context_used s /\
    question final = Some q /\
    retry_count final = retry_count s /\
    hallucination_grade final = hallucination_grade s.
Proof.
  intros Hq.
  destruct (generate_queries_returns (research_refiner self) q)
    as (planned & Eq & Hlen).
  assert (E1 : plan_research self s log =
               (Ok (set_research_queries planned s),
                log ++ [PlannerGeneration])).
  { unfold plan_research, bind, getitem. rewrite Hq. unfold ret at 1.
    now rewrite Eq. }
  pose proof (web_search_node_full self (set_research_queries planned s) q
                planned (log ++ [PlannerGeneration]) Hq eq_refl) as E2.
  destruct (synthesize_node_full self
              (set_is_web true
                 (set_documents
                    (map web_document
                       (web_search_tool_search self
                          (match planned with [] => [q] | _ :: _ => planned end)))
                    (set_research_queries planned s)))
              q
              (web_search_tool_search self
                 (match planned with [] => [q] | _ :: _ => planned end))
              ((log ++ [PlannerGeneration]) ++ [WebSearchCall]) Hq eq_refl)
    as (ws & ans & Em & Es & E3).
  exists planned, ws, ans. eexists. cbv zeta. split.
  - rewrite run_step by discriminate. simpl run_node. rewrite E1.
    simpl next_node. unfold ret at 1.
    rewrite run_step by discriminate. simpl run_node. rewrite E2.
    simpl next_node. unfold ret at 1.
    rewrite run_step by discriminate. simpl run_node. rewrite E3.
    simpl next_node. unfold ret at 1.
    rewrite run_END. rewrite <- !app_assoc. reflexivity.
  - split; [exact Eq|]. split; [exact Em|]. split; [exact Es|].
    simpl. repeat split; auto.
Qed.

End WebResearch.

(** X6. From [plan_research] on, a run always reaches [END] through
    [web_search] and [synthesize_research], with one call each of the
    planner, the web search and the synthesizer.  The queries searched are
    the ones the planner returned for the question, which the final state
    keeps as [research_queries], or the question alone when the planner
    returned none; there are between one and three of them.  The final
    state holds one web pseudo-document and one "Web Search" source per
    hit; its context is the formatted text of the hits read back from the
    pseudo-documents, and its answer is what the synthesizer returns for
    the question and that context; the web flag is set; the question,
    [retry_count] and [context_used] are what they were before. *)
Theorem research_end_state `{SA : ScoreArith}
    (self : AgentGraph.t) (fuel : nat) (s : AgentState) (q : string)
    (tr : list Node) (log : list Call) :
  question s = Some q ->
  exists planned queries hits ans final,
    AgentGraph.run self (S (S (S fuel))) N_plan_research s tr log =
      (Ok (tr ++ [N_plan_research; N_web_search; N_synthesize_research],
           final),
       log ++ [PlannerGeneration; WebSearchCall; SynthesisGeneration]) /\
    (forall l,
       ResearchRefiner.generate_queries (AgentGraph.research_refiner self)
         q l = (Ok planned, l ++ [PlannerGeneration])) /\
    research_queries final = Some planned /\
    queries = match planned with [] => [q] | _ :: _ => planned end /\
    (1 <= List.length queries <= 3)%nat /\
    documents final =
      Some (map AgentGraph.web_document
                (AgentGraph.web_search_tool_search self queries)) /\
    (forall docs d, documents final = Some docs -> In d docs ->
       dict_get "type" (metadata d) = Some "web" /\
       dict_get "filename" (metadata d) = Some "Web Search") /\
    sources final =
      Some (map (fun r => [("filename", "Web Search"); ("page", href r)])
                (AgentGraph.web_search_tool_search self queries)) /\
    (forall l,
       AgentGraph.mapM AgentGraph.web_result_of
         (map AgentGraph.web_document
              (AgentGraph.web_search_tool_search self queries)) l =
         (Ok hits, l)) /\
    context final =
      Some (AgentGraph.web_search_tool_format_results self hits) /\
    (forall l,
       ResearchSynthesizer.synthesize (AgentGraph.research_synthesizer self)
         q (AgentGraph.web_search_tool_format_results self hits) l =
         (Ok ans, l ++ [SynthesisGeneration])) /\
    answer final = Some ans /\
    is_web final = Some true /\
    question final = Some q /\
    retry_count final = retry_count s /\
    context_used final = context_used s.
Proof.
  intros Hq.
  destruct (research_tail_full self fuel s q tr log Hq)
    as (planned & ws & ans & final & E & Hpl & Hm & Hsy & Hctx & Hl & Hp &
        Hd & Hs & Ha & Hw & Hc & Hq' & Hr & _).
  exists planned, (match planned with [] => [q] | _ :: _ => planned end),
    ws, ans, final.
  split; [exact E|]. split; [exact Hpl|]. split; [exact Hp|].
  split; [reflexivity|]. split.
  { destruct planned; simpl in *; lia. }
  split; [exact Hd|]. split.
  { intros docs d Hdocs Hin. rewrite Hd in Hdocs. injection Hdocs as <-.
    apply in_map_iff in Hin. destruct Hin as (r & <- & _).
    split; reflexivity. }
  split; [exact Hs|]. split; [exact Hm|]. split; [exact Hctx|].
  split; [exact Hsy|]. repeat split; auto.
Qed.

Lemma research_end_state_witness :
  exists final,
    AgentGraph.run Sample.agent 3 N_plan_research
      (initial_state "What was total revenue in Q4?") [] [] =
      (Ok ([N_plan_research; N_web_search; N_synthesize_research], final),
       [PlannerGeneration; WebSearchCall; SynthesisGeneration]) /\
    research_queries final = Some ["q4 revenue"] /\
    answer final = Some "Revenue was 42." /\
    is_web final = Some true.
Proof.
  destruct (research_end_state Sample.agent 0
              (initial_state "What was total revenue in Q4?")
              "What was total revenue in Q4?" [] [] eq_refl)
    as (planned & queries & hits & ans & final & E & Hpl & Hp & _ & _ & _ &
        _ & _ & _ & _ & Hsy & Ha & Hw & _).
  exists final. split; [exact E|].
  pose proof (Hpl []) as P. vm_compute in P. injection P as <-.
  pose proof (Hsy []) as Q. vm_compute in Q. injection Q as <-.
  split; [exact Hp|]. split; [exact Ha|exact Hw].
Defined.

(** ** Runs that generate an answer *)

Section AnswerRuns.
Context `{SA : ScoreArith}.
Import AgentGraph.

Lemma grade_node_kept (self : t) (state : AgentState) (q : string)
    (docs : list Document) (log log1 : list Call) :
  question state = Some q ->
  documents state = Some docs ->
  RelevanceGrader.grade (relevance_grader self) q docs log =
    (Ok "relevant", log1) ->
  grade_documents self state log =
    (Ok (set_retry_count (get_default (retry_count state) 0%Z)
           (set_documents docs state)), log1).
Proof.
  intros Hq Hd Hg. unfold grade_documents, bind, getitem. rewrite Hq, Hd.
  unfold ret at 1 2. now rewrite Hg.
Qed.

Lemma generate_node (self : t) (state : AgentState) (q : string)
    (docs : list Document) (r : GenResult) (log : list Call) :
  question state = Some q ->
  documents state = Some docs ->
  generate_answer self q docs = Ok r ->
  generate self state log =
    (Ok (set_context_used (get_default (gen_context_used r) 0%Z)
           (set_sources (get_default (gen_sources r) [])
              (set_answer (gen_answer r)
                 (set_context (format_context self docs)
                    (add_messages [AIMessage (gen_answer r)] state))))),
     log ++ [AnswerGeneration]).
Proof.
  intros Hq Hd Hg. unfold generate, bind, getitem, call. rewrite Hq, Hd.
  unfold ret at 1 2. now rewrite Hg.
Qed.

(** The state in which [check_hallucination] runs after evidence [docs]
    was retrieved for [q], kept by the grader and answered with [r]. *)
Lemma run_to_check (self : t) (fuel : nat) (q : string) (d : Document)
    (ds : list Document) (r : GenResult) (log : list Call) :
  (forall l,
     fst (DocumentRetriever.retrieve (retriever self) q None l)
     = Ok (d :: ds)) ->
  (forall l,
     fst (RelevanceGrader.grade (relevance_grader self) q (d :: ds) l)
     = Ok "relevant") ->
  generate_answer self q (d :: ds) = Ok r ->
  exists s3 log3,
    run self (S (S (S fuel))) N_retrieve (initial_state q) [] log =
    run self fuel N_check_hallucination s3
      [N_retrieve; N_grade_documents; N_generate] log3 /\
    question s3 = Some q /\ documents s3 = Some (d :: ds) /\
    answer s3 = Some (gen_answer r) /\
    sources s3 = Some (get_default (gen_sources r) []) /\
    context_used s3 = Some (get_default (gen_context_used r) 0%Z) /\
    retry_count s3 = Some 0%Z /\ is_web s3 = None.
Proof.
  intros Hr Hg Ha.
  destruct (DocumentRetriever.retrieve (retriever self) q None log)
    as [o1 l1] eqn:E1.
  pose proof (Hr log) as Hr1. rewrite E1 in Hr1. simpl in Hr1. subst o1.
  destruct (RelevanceGrader.grade (relevance_grader self) q (d :: ds) l1)
    as [o2 l2] eqn:E2.
  pose proof (Hg l1) as Hg1. rewrite E2 in Hg1. simpl in Hg1. subst o2.
  pose (s1 := set_question q (set_documents (d :: ds) (initial_state q))).
  pose (s2 := set_retry_count 0%Z (set_documents (d :: ds) s1)).
  eexists. exists (l2 ++ [AnswerGeneration]). split.
  - rewrite run_step by discriminate. simpl run_node.
    rewrite (retrieve_node self (initial_state q) q (d :: ds) log l1
               eq_refl E1).
    simpl next_node. unfold ret at 1.
    rewrite run_step by discriminate. simpl run_node. fold s1.
    rewrite (grade_node_kept self s1 q (d :: ds) l1 l2 eq_refl eq_refl E2).
    change (next_node N_grade_documents
              (set_retry_count (get_default (retry_count s1) 0%Z)
                 (set_documents (d :: ds) s1)) l2)
      with (@Ok Node N_generate, l2).
    cbv iota beta.
    rewrite run_step by discriminate. simpl run_node.
    fold s2.
    rewrite (generate_node self s2 q (d :: ds) r l2 eq_refl eq_refl Ha).
    simpl next_node. unfold ret at 1. reflexivity.
  - simpl. repeat split; auto.
Qed.

End AnswerRuns.

Section AnswerVerdicts.
Context `{SA : ScoreArith}.
Import AgentGraph.

Lemma check_node_refusal (self : t) (s : AgentState) (ans : string)
    (d : Document) (ds : list Document) (log : list Call) :
  answer s = Some ans -> documents s = Some (d :: ds) ->
  existsb (fun indicator => PyStr.contains indicator (PyStr.lower ans))
          refusal_indicators = true ->
  check_hallucination self s log =
    (Ok (set_hallucination_grade "hallucinated" s), log).
Proof.
  intros Ha Hd Hr. unfold check_hallucination, bind, getitem.
  rewrite Ha, Hd. unfold ret at 1 2. now rewrite Hr.
Qed.

Lemma check_node_judged (self : t) (s : AgentState) (ans : string)
    (d : Document) (ds : list Document) (b : bool) (log log' : list Call) :
  answer s = Some ans -> documents s = Some (d :: ds) ->
  existsb (fun indicator => PyStr.contains indicator (PyStr.lower ans))
          refusal_indicators = false ->
  HallucinationGrader.check_groundedness (grader self) ans (d :: ds) log =
    (Ok b, log') ->
  check_hallucination self s log =
    (Ok (set_hallucination_grade
           (if b then "grounded" else "hallucinated") s), log').
Proof.
  intros Ha Hd Hr Hj. unfold check_hallucination, bind, getitem.
  rewrite Ha, Hd. unfold ret at 1 2. rewrite Hr, Hj. now destruct b.
Qed.

(** The answer is found hallucinated: it is a refusal, or the judge does
    not find it grounded. *)
Lemma check_node_hallucinated (self : t) (s : AgentState) (ans : string)
    (d : Document) (ds : list Document) (log : list Call) :
  answer s = Some ans -> documents s = Some (d :: ds) ->
  existsb (fun indicator => PyStr.contains indicator (PyStr.lower ans))
          refusal_indicators = true \/
  (forall l,
     fst (HallucinationGrader.check_groundedness (grader self) ans (d :: ds) l)
     = Ok false) ->
  exists log',
    check_hallucination self s log =
      (Ok (set_hallucination_grade "hallucinated" s), log').
Proof.
  intros Ha Hd [Hr|Hj].
  - exists log. now apply (check_node_refusal self s ans d ds).
  - destruct (existsb (fun indicator =>
                         PyStr.contains indicator (PyStr.lower ans))
                      refusal_indicators) eqn:Hr.
    + exists log. now apply (check_node_refusal self s ans d ds).
    + destruct (HallucinationGrader.check_groundedness (grader self) ans
                  (d :: ds) log) as [o l'] eqn:E.
      pose proof (Hj log) as H. rewrite E in H. simpl in H. subst o.
      exists l'. apply (check_node_judged self s ans d ds false log l'); auto.
Qed.

End AnswerVerdicts.

(** X7. A question answered from the corpus: when retrieval returns evidence,
    the grader keeps it, the generator answers without a refusal phrase
    and the judge finds the answer grounded, the run executes [retrieve],
    [grade_documents], [generate], [check_hallucination] and ends; the
    final state holds the retrieved evidence, the generator's answer,
    sources and evidence count, no retry and no web flag. *)
Theorem invoke_grounded_answer `{SA : ScoreArith}
    (self : AgentGraph.t) (q : string) (d : Document) (ds : list Document)
    (r : GenResult) (log : list Call) :
  (forall l,
     fst (DocumentRetriever.retrieve (AgentGraph.retriever self) q None l)
     = Ok (d :: ds)) ->
  (forall l,
     fst (RelevanceGrader.grade (AgentGraph.relevance_grader self) q
            (d :: ds) l) = Ok "relevant") ->
  AgentGraph.generate_answer self q (d :: ds) = Ok r ->
  existsb (fun indicator =>
             PyStr.contains indicator (PyStr.lower (gen_answer r)))
          AgentGraph.refusal_indicators = false ->
  (forall l,
     fst (HallucinationGrader.check_groundedness (AgentGraph.grader self)
            (gen_answer r) (d :: ds) l) = Ok true) ->
  exists final log',
    AgentGraph.invoke self q log =
      (Ok ([N_retrieve; N_grade_documents; N_generate;
            N_check_hallucination], final), log') /\
    documents final = Some (d :: ds) /\
    answer final = Some (gen_answer r) /\
    sources final = Some (get_default (gen_sources r) []) /\
    context_used final = Some (get_default (gen_context_used r) 0%Z) /\
    hallucination_grade final = Some "grounded" /\
    question final = Some q /\
    retry_count final = Some 0%Z /\
    is_web final = None.
Proof.
  intros Hr Hg Ha Hn Hj.
  destruct (run_to_check self 22 q d ds r log Hr Hg Ha)
    as (s3 & l3 & E & Hq & Hd & Hans & Hs & Hc & Hrc & Hw).
  destruct (HallucinationGrader.check_groundedness (AgentGraph.grader self)
              (gen_answer r) (d :: ds) l3) as [o l4] eqn:Ej.
  pose proof (Hj l3) as H. rewrite Ej in H. simpl in H. subst o.
  pose proof (check_node_judged self s3 (gen_answer r) d ds true l3 l4
                Hans Hd Hn Ej) as Ec.
  exists (set_hallucination_grade "grounded" s3), l4. split.
  - unfold AgentGraph.invoke, AgentGraph.recursion_limit. rewrite E.
    rewrite run_step by discriminate. simpl AgentGraph.run_node. rewrite Ec.
    change (AgentGraph.next_node N_check_hallucination
              (set_hallucination_grade "grounded" s3) l4)
      with (@Ok Node END, l4).
    cbv iota beta. now rewrite run_END.
  - simpl. repeat split; auto.
Qed.

Lemma invoke_grounded_answer_witness :
  exists final log',
    AgentGraph.invoke Demo.corpus_agent "What was total revenue in Q4?" [] =
      (Ok ([N_retrieve; N_grade_documents; N_generate;
            N_check_hallucination], final), log') /\
    answer final = Some "Revenue was 42." /\
    context_used final = Some 1%Z.
Proof.
  destruct (invoke_grounded_answer Demo.corpus_agent
              "What was total revenue in Q4?" Sample.alpha []
              {| gen_answer := "Revenue was 42.";
                 gen_sources := Some [[("filename", "Unknown"); ("page", "N/A")]];
                 gen_context_used := Some 1%Z |} [])
    as (final & log' & E & _ & Ha & _ & Hc & _).
  - intros l. reflexivity.
  - intros l. reflexivity.
  - reflexivity.
  - reflexivity.
  - intros l. reflexivity.
  - exists final, log'. split; [exact E|]. split; [exact Ha|exact Hc].
Defined.

(** X8. An answer found hallucinated, by the refusal scan or by the judge,
    sends the run to web research: the nodes executed are [retrieve],
    [grade_documents], [generate], [check_hallucination], [plan_research],
    [web_search], [synthesize_research].  The queries searched are the
    planner's for the question, or the question alone when it returned
    none; documents and sources are the web hits; the final answer is what
    the synthesizer returns for the question and the formatted hits, which
    the final state keeps as its context, and so replaces the generator's
    answer; the web flag is set, and [context_used] still holds the count
    reported by the generator for the corpus evidence. *)
Theorem invoke_hallucinated_escalates `{SA : ScoreArith}
    (self : AgentGraph.t) (q : string) (d : Document) (ds : list Document)
    (r : GenResult) (log : list Call) :
  (forall l,
     fst (DocumentRetriever.retrieve (AgentGraph.retriever self) q None l)
     = Ok (d :: ds)) ->
  (forall l,
     fst (RelevanceGrader.grade (AgentGraph.relevance_grader self) q
            (d :: ds) l) = Ok "relevant") ->
  AgentGraph.generate_answer self q (d :: ds) = Ok r ->
  existsb (fun indicator =>
             PyStr.contains indicator (PyStr.lower (gen_answer r)))
          AgentGraph.refusal_indicators = true \/
  (forall l,
     fst (HallucinationGrader.check_groundedness (AgentGraph.grader self)
            (gen_answer r) (d :: ds) l) = Ok false) ->
  exists planned queries hits ans final log',
    AgentGraph.invoke self q log =
      (Ok ([N_retrieve; N_grade_documents; N_generate; N_check_hallucination;
            N_plan_research; N_web_search; N_synthesize_research], final),
       log') /\
    hallucination_grade final = Some "hallucinated" /\
    is_web final = Some true /\
    (forall l,
       ResearchRefiner.generate_queries (AgentGraph.research_refiner self)
         q l = (Ok planned, l ++ [PlannerGeneration])) /\
    queries = match planned with [] => [q] | _ :: _ => planned end /\
    (forall l,
       AgentGraph.mapM AgentGraph.web_result_of
         (map AgentGraph.web_document
              (AgentGraph.web_search_tool_search self queries)) l =
         (Ok hits, l)) /\
    context final =
      Some (AgentGraph.web_search_tool_format_results self hits) /\
    (forall l,
       ResearchSynthesizer.synthesize (AgentGraph.research_synthesizer self)
         q (AgentGraph.web_search_tool_format_results self hits) l =
         (Ok ans, l ++ [SynthesisGeneration])) /\
    answer final = Some ans /\
    documents final =
      Some (map AgentGraph.web_document
                (AgentGraph.web_search_tool_search self queries)) /\
    sources final =
      Some (map (fun w => [("filename", "Web Search"); ("page", href w)])
                (AgentGraph.web_search_tool_search self queries)) /\
    context_used final = Some (get_default (gen_context_used r) 0%Z) /\
    question final = Some q.
Proof.
  intros Hr Hg Ha Hh.
  destruct (run_to_check self 22 q d ds r log Hr Hg Ha)
    as (s3 & l3 & E & Hq & Hd & Hans & Hs & Hc & Hrc & Hw).
  destruct (check_node_hallucinated self s3 (gen_answer r) d ds l3 Hans Hd Hh)
    as (l4 & Ec).
  destruct (research_tail_full self 18 (set_hallucination_grade "hallucinated" s3)
              q [N_retrieve; N_grade_documents; N_generate;
                 N_check_hallucination] l4 Hq)
    as (planned & ws & ans & final & Et & Fpl & Fm & Fsy & Fctx & _ & _ &
        Fd & Fs & Fa & Fw & Fc & Fq & _ & Fh).
  exists planned, (match planned with [] => [q] | _ :: _ => planned end),
    ws, ans, final.
  eexists. split.
  - unfold AgentGraph.invoke, AgentGraph.recursion_limit. rewrite E.
    rewrite run_step by discriminate. simpl AgentGraph.run_node. rewrite Ec.
    assert (En : AgentGraph.next_node N_check_hallucination
                   (set_hallucination_grade "hallucinated" s3) l4 =
                 (Ok N_plan_research, l4)).
    { unfold AgentGraph.next_node, AgentGraph.decide_after_check.
      simpl hallucination_grade. simpl is_web. rewrite Hw. reflexivity. }
    rewrite En. exact Et.
  - split; [exact Fh|]. split; [exact Fw|]. split; [exact Fpl|].
    split; [reflexivity|]. split; [exact Fm|]. split; [exact Fctx|].
    split; [exact Fsy|]. split; [exact Fa|].
    split; [exact Fd|]. split; [exact Fs|]. split; [|exact Fq].
    now rewrite Fc.
Qed.

Lemma invoke_hallucinated_escalates_witness :
  exists final log',
    AgentGraph.invoke Demo.refusing_agent "What was total revenue in Q4?" [] =
      (Ok ([N_retrieve; N_grade_documents; N_generate; N_check_hallucination;
            N_plan_research; N_web_search; N_synthesize_research], final),
       log') /\
    answer final = Some "Revenue was 42 [Web 1]." /\ is_web final = Some true /\
    context_used final = Some 1%Z.
Proof.
  destruct (invoke_hallucinated_escalates Demo.refusing_agent
              "What was total revenue in Q4?" Sample.alpha []
              {| gen_answer := Sample.refusal;
                 gen_sources := Some [[("filename", "Unknown"); ("page", "N/A")]];
                 gen_context_used := Some 1%Z |} [])
    as (planned & queries & hits & ans & final & log' & E & _ & Hw & _ & _ &
        _ & _ & Hsy & Ha & _ & _ & Hc & _).
  - intros l. reflexivity.
  - intros l. reflexivity.
  - reflexivity.
  - left. reflexivity.
  - pose proof (Hsy []) as Q. vm_compute in Q. injection Q as <-.
    exists final, log'. repeat split; assumption.
Defined.

(** X9. The controller handles no exception: when retrieval raises on the
    question, [invoke] raises the same exception at its first node; and
    when retrieval returns evidence that the grader keeps and the
    generator raises, [invoke] raises the generator's exception. *)
Theorem invoke_propagates_failure `{SA : ScoreArith}
    (self : AgentGraph.t) (q : string) (e : exn) (log : list Call) :
  (fst (DocumentRetriever.retrieve (AgentGraph.retriever self) q None log)
   = Raise e ->
   fst (AgentGraph.invoke self q log) = Raise e) /\
  (forall d ds,
     (forall l,
        fst (DocumentRetriever.retrieve (AgentGraph.retriever self) q None l)
        = Ok (d :: ds)) ->
     (forall l,
        fst (RelevanceGrader.grade (AgentGraph.relevance_grader self) q
               (d :: ds) l) = Ok "relevant") ->
     AgentGraph.generate_answer self q (d :: ds) = Raise e ->
     fst (AgentGraph.invoke self q log) = Raise e).
Proof.
  split.
  - intros Hr.
    destruct (DocumentRetriever.retrieve (AgentGraph.retriever self) q None log)
      as [o l1] eqn:E1. simpl in Hr. subst o.
    unfold AgentGraph.invoke, AgentGraph.recursion_limit.
    rewrite run_step by discriminate. simpl AgentGraph.run_node.
    assert (En : AgentGraph.retrieve self (initial_state q) log =
                 (Raise e, l1)).
    { unfold AgentGraph.retrieve, bind, getitem.
      change (question (initial_state q)) with (Some q).
      unfold ret at 1. now rewrite E1. }
    rewrite En. reflexivity.
  - intros d ds Hr Hg Ha.
    destruct (DocumentRetriever.retrieve (AgentGraph.retriever self) q None log)
      as [o1 l1] eqn:E1.
    pose proof (Hr log) as Hr1. rewrite E1 in Hr1. simpl in Hr1. subst o1.
    destruct (RelevanceGrader.grade (AgentGraph.relevance_grader self) q
                (d :: ds) l1) as [o2 l2] eqn:E2.
    pose proof (Hg l1) as Hg1. rewrite E2 in Hg1. simpl in Hg1. subst o2.
    pose (s1 := set_question q (set_documents (d :: ds) (initial_state q))).
    unfold AgentGraph.invoke, AgentGraph.recursion_limit.
    rewrite run_step by discriminate. simpl AgentGraph.run_node.
    rewrite (retrieve_node self (initial_state q) q (d :: ds) log l1
               eq_refl E1).
    simpl AgentGraph.next_node. unfold ret at 1.
    rewrite run_step by discriminate. simpl AgentGraph.run_node. fold s1.
    rewrite (grade_node_kept self s1 q (d :: ds) l1 l2 eq_refl eq_refl E2).
    change (AgentGraph.next_node N_grade_documents
              (set_retry_count (get_default (retry_count s1) 0%Z)
                 (set_documents (d :: ds) s1)) l2)
      with (@Ok Node N_generate, l2).
    cbv iota beta.
    rewrite run_step by discriminate. simpl AgentGraph.run_node.
    assert (En : AgentGraph.generate self
                   (set_retry_count 0%Z
                      (set_documents (d :: ds) s1)) l2 =
                 (Raise e, l2 ++ [AnswerGeneration])).
    { unfold AgentGraph.generate, bind, getitem, call.
      change (question (set_retry_count 0%Z
                          (set_documents (d :: ds) s1))) with (Some q).
      change (documents (set_retry_count 0%Z
                           (set_documents (d :: ds) s1)))
        with (Some (d :: ds)).
      unfold ret at 1 2. now rewrite Ha. }
    rewrite En. reflexivity.
Qed.

Lemma invoke_propagates_failure_witness :
  fst (AgentGraph.invoke Demo.offline_agent "What was total revenue in Q4?" [])
    = Raise Sample.down /\
  fst (AgentGraph.invoke Demo.failing_agent "What was total revenue in Q4?" [])
    = Raise (Exception "model unavailable").
Proof.
  split.
  - apply (proj1 (invoke_propagates_failure Demo.offline_agent
                    "What was total revenue in Q4?" Sample.down [])).
    reflexivity.
  - apply (proj2 (invoke_propagates_failure Demo.failing_agent
                    "What was total revenue in Q4?"
                    (Exception "model unavailable") []) Sample.alpha []).
    + intros l. reflexivity.
    + intros l. reflexivity.
    + reflexivity.
Defined.

(** ** More of the retriever *)

(** X10. [retrieve_with_scores] never uses the keyword index: with or without
    one it makes a single vector search, passes its exception on, and
    returns the pairs whose score is not below the floor; without a keyword
    index these are the documents [retrieve] returns, in the same order. *)
Theorem retrieve_with_scores_vector_only `{SA : ScoreArith}
    (self : DocumentRetriever.t) (query : string) (k : option Z)
    (log : list Call) :
  let floor := DocumentRetriever.similarity_threshold self in
  let found :=
    DocumentRetriever.similarity_search_with_score
      (DocumentRetriever.vectorstore self) query
      (int_or k (DocumentRetriever.top_k self)) in
  exists result,
    RetrieverMore.retrieve_with_scores self query k log =
      (result, log ++ [VectorSearch]) /\
    (forall e, found = Raise e -> result = Raise e) /\
    (forall results, found = Ok results ->
       exists pairs,
         result = Ok pairs /\
         (forall d s, In (d, s) pairs <->
                      In (d, s) results /\ fltb s floor = false) /\
         (DocumentRetriever.bm25_retriever self = None ->
          DocumentRetriever.retrieve self query k log =
            (Ok (map fst pairs), log ++ [VectorSearch]))).
Proof.
  intros floor found.
  unfold RetrieverMore.retrieve_with_scores, bind, call, ret. fold found.
  destruct found as [results|e] eqn:F.
  - eexists. split; [reflexivity|]. split; [discriminate|].
    intros results' [= <-]. eexists. split; [reflexivity|]. split.
    + intros d s. rewrite filter_In. unfold fgeb. simpl.
      rewrite negb_true_iff. reflexivity.
    + intros Hb. unfold DocumentRetriever.retrieve. rewrite Hb.
      unfold DocumentRetriever._retrieve_semantic, bind, call, ret.
      fold found. rewrite F. reflexivity.
  - eexists. split; [reflexivity|]. split; [now intros e' [= <-]|discriminate].
Qed.

Lemma retrieve_with_scores_vector_only_witness :
  exists pairs,
    RetrieverMore.retrieve_with_scores Sample.hybrid "q" None [] =
      (Ok pairs, [VectorSearch]) /\
    In (Sample.alpha, (9 # 10)%Q) pairs /\
    ~ In (Sample.beta, (6 # 10)%Q) pairs.
Proof.
  destruct (retrieve_with_scores_vector_only Sample.hybrid "q" None [])
    as (result & E & _ & H).
  destruct (H _ eq_refl) as (pairs & -> & Hin & _).
  exists pairs. split; [exact E|]. split.
  - apply Hin. split; [now left|reflexivity].
  - intros Hb. apply Hin in Hb. destruct Hb as [_ Hb]. discriminate.
Defined.

Lemma fltb_irrefl `{SA : ScoreArith} (a : float) : fltb a a = false.
Proof.
  destruct (fltb a a) eqn:E; auto. now rewrite (fltb_asym a a E) in E.
Qed.

(** X11. The constructor cannot be given a floor of zero or a limit of zero:
    both are replaced by the environment's value or the default (0.7 and
    5).  A keyword index is configured exactly when documents are given,
    the index can be built from them and the vector store is
    initialised. *)
Theorem init_falsy_arguments `{SA : ScoreArith}
    (env : DocumentRetriever.Environ)
    (from_documents : list Document -> outcome DocumentRetriever.BM25Retriever)
    (vs : DocumentRetriever.VectorStore) (documents : option (list Document))
    (top_k_arg : option Z) (threshold_arg : option float) :
  let init := DocumentRetriever.init env from_documents vs documents in
  DocumentRetriever.similarity_threshold (init top_k_arg (Some fzero)) =
    get_default (DocumentRetriever.SIMILARITY_THRESHOLD env) (fdec 7 10) /\
  DocumentRetriever.similarity_threshold (init top_k_arg None) =
    get_default (DocumentRetriever.SIMILARITY_THRESHOLD env) (fdec 7 10) /\
  DocumentRetriever.top_k (init (Some 0%Z) threshold_arg) =
    get_default (DocumentRetriever.RETRIEVAL_TOP_K env) 5%Z /\
  DocumentRetriever.top_k (init None threshold_arg) =
    get_default (DocumentRetriever.RETRIEVAL_TOP_K env) 5%Z /\
  (forall index,
     DocumentRetriever.bm25_retriever (init top_k_arg threshold_arg)
       = Some index <->
     exists d ds u,
       documents = Some (d :: ds) /\
       from_documents (d :: ds) = Ok index /\
       DocumentRetriever.get_vectorstore vs = Ok u).
Proof.
  intros init. unfold init, DocumentRetriever.init. simpl.
  unfold float_truthy. rewrite fltb_irrefl. simpl.
  repeat split; try (destruct (DocumentRetriever.SIMILARITY_THRESHOLD env);
                     reflexivity);
    try (destruct (DocumentRetriever.RETRIEVAL_TOP_K env); reflexivity).
  - destruct documents as [[|d ds]|]; try discriminate.
    destruct (from_documents (d :: ds)) as [idx|] eqn:F; try discriminate.
    destruct (DocumentRetriever.get_vectorstore vs) as [u|] eqn:G;
      try discriminate.
    intros [= <-]. now exists d, ds, u.
  - intros (d & ds & u & -> & F & G). now rewrite F, G.
Qed.

Lemma init_falsy_arguments_witness :
  DocumentRetriever.similarity_threshold
    (DocumentRetriever.init Sample.no_env (fun _ => Ok Sample.keyword_index)
       Sample.store None None (Some 0%Q)) = (7 # 10)%Q /\
  DocumentRetriever.top_k
    (DocumentRetriever.init Sample.no_env (fun _ => Ok Sample.keyword_index)
       Sample.store None (Some 0%Z) None) = 5%Z.
Proof.
  destruct (init_falsy_arguments Sample.no_env
              (fun _ => Ok Sample.keyword_index) Sample.store None
              (Some 0%Z) (Some 0%Q)) as (H1 & _ & H2 & _).
  split; [exact H1|exact H2].
Defined.

Section ChunkChoice.
Context `{SA : ScoreArith}.
Import DocumentRetriever.

Local Abbreviation has key := (fun d : Document => String.eqb (page_content d) key).

Lemma find_app {A} (f : A -> bool) (l1 l2 : list A) :
  find f (l1 ++ l2) =
  match find f l1 with Some a => Some a | None => find f l2 end.
Proof.
  induction l1 as [|a l1 IH]; simpl; auto. destruct (f a); auto.
Qed.

Lemma fold_bm25_choice (key : string) its st :
  od_get key (snd (fold_left bm25_step its st)) =
  match find (has key) (List.rev (map snd its)) with
  | Some d => Some d
  | None => od_get key (snd st)
  end.
Proof.
  revert st. induction its as [|[r doc] its IH]; intros [sc dm]; simpl; auto.
  rewrite IH. simpl. rewrite find_app. simpl.
  destruct (find (has key) (List.rev (map snd its))); auto.
  rewrite (String.eqb_sym (page_content doc) key).
  destruct (String.eqb key (page_content doc)) eqn:E.
  - apply String.eqb_eq in E. subst key. apply od_get_set_same.
  - apply String.eqb_neq in E. now apply od_get_set_other.
Qed.

Lemma fold_vector_choice (key : string) its st :
  od_get key (snd (fold_left vector_step its st)) =
  match od_get key (snd st) with
  | Some d => Some d
  | None => find (has key) (map snd its)
  end.
Proof.
  revert st. induction its as [|[r doc] its IH]; intros [sc dm]; simpl.
  - destruct (od_get key dm); reflexivity.
  - rewrite IH. simpl.
    rewrite (String.eqb_sym (page_content doc) key).
    destruct (od_mem (page_content doc) dm) eqn:M.
    + destruct (od_get key dm) eqn:G; auto.
      destruct (String.eqb key (page_content doc)) eqn:E; auto.
      apply String.eqb_eq in E. subst key. unfold od_mem in M.
      now rewrite G in M.
    + destruct (String.eqb key (page_content doc)) eqn:E.
      * apply String.eqb_eq in E. subst key. rewrite od_get_set_same.
        unfold od_mem in M. destruct (od_get (page_content doc) dm);
          [discriminate|reflexivity].
      * apply String.eqb_neq in E. rewrite od_get_set_other by assumption.
        reflexivity.
Qed.

Lemma doc_map_choice (key : string) bm25_docs vector_results :
  od_get key (snd (rrf_tables bm25_docs vector_results)) =
  match find (has key) (List.rev bm25_docs) with
  | Some d => Some d
  | None => find (has key) vector_results
  end.
Proof.
  unfold rrf_tables. rewrite fold_vector_choice, fold_bm25_choice. simpl.
  rewrite !map_snd_enumerate.
  destruct (find (has key) (List.rev bm25_docs)); reflexivity.
Qed.

Lemma lookup_docs_get (dm : odict Document) (entries : list (string * float))
    (docs : list Document) :
  lookup_docs dm entries = Ok docs ->
  (forall key d, od_get key dm = Some d -> page_content d = key) ->
  forall d, In d docs -> od_get (page_content d) dm = Some d.
Proof.
  revert docs. induction entries as [|[content s] entries IH]; simpl.
  - intros docs [= <-] _ d [].
  - intros docs H Hk d Hd.
    destruct (od_get content dm) as [d0|] eqn:G; [|discriminate].
    destruct (lookup_docs dm entries) as [ds|]; [|discriminate].
    injection H as <-. destruct Hd as [<-|Hd].
    + now rewrite (Hk _ _ G).
    + now apply (IH ds).
Qed.

End ChunkChoice.

(** X12. Which chunk stands for a content in the merged result: the merge
    returns, and every chunk it returns is, among the input chunks with
    the same content, the last one of the keyword list when the keyword
    list has one, and otherwise the first one of the vector list. *)
Theorem rrf_merge_prefers_keyword_chunk `{SA : ScoreArith}
    (bm25_docs vector_results : list Document) (k : Z) :
  exists docs,
    DocumentRetriever.rrf_merge bm25_docs vector_results k = Ok docs /\
    forall d, In d docs ->
      let same := fun d' : Document =>
                    String.eqb (page_content d') (page_content d) in
      match find same (List.rev bm25_docs) with
      | Some d' => d = d'
      | None => find same vector_results = Some d
      end.
Proof.
  destruct (rrf_merge_total bm25_docs vector_results k) as (docs & E & _).
  exists docs. split; [exact E|]. intros d Hd same.
  unfold DocumentRetriever.rrf_merge in E.
  pose proof (rrf_tables_docs bm25_docs vector_results) as [_ Hk].
  pose proof (doc_map_choice (page_content d) bm25_docs vector_results) as Hc.
  destruct (DocumentRetriever.rrf_tables bm25_docs vector_results)
    as [scores doc_map]. simpl in *.
  assert (G : od_get (page_content d) doc_map = Some d).
  { apply (lookup_docs_get doc_map _ docs E); auto.
    intros key d0 H0. now apply (Hk key d0). }
  rewrite G in Hc. fold same in Hc.
  destruct (find same (List.rev bm25_docs)); [now injection Hc|now symmetry].
Qed.

Lemma rrf_merge_prefers_keyword_chunk_witness :
  DocumentRetriever.rrf_merge (SA := QScore)
    [{| page_content := "beta"; metadata := [("source", "keyword")] |}]
    [{| page_content := "beta"; metadata := [("source", "vector")] |}] 5%Z =
  Ok [{| page_content := "beta"; metadata := [("source", "keyword")] |}].
Proof.
  destruct (rrf_merge_prefers_keyword_chunk (SA := QScore)
    [{| page_content := "beta"; metadata := [("source", "keyword")] |}]
    [{| page_content := "beta"; metadata := [("source", "vector")] |}] 5%Z)
    as (docs & E & _).
  rewrite E. vm_compute in E. injection E as <-. reflexivity.
Defined.

(** X13. In hybrid mode the number of chunks returned never exceeds a
    non-negative limit, nor the number of distinct contents found. *)
Theorem hybrid_result_within_limit `{SA : ScoreArith}
    (self : DocumentRetriever.t) (bm25 : DocumentRetriever.BM25Retriever)
    (query : string) (k : option Z) (docs : list Document)
    (log log' : list Call) :
  DocumentRetriever.bm25_retriever self = Some bm25 ->
  (0 <= int_or k (DocumentRetriever.top_k self))%Z ->
  DocumentRetriever.retrieve self query k log = (Ok docs, log') ->
  (List.length docs <= Z.to_nat (int_or k (DocumentRetriever.top_k self)))%nat /\
  (forall bm25_docs vector_results,
     bm25 query = Ok bm25_docs ->
     DocumentRetriever.similarity_search (DocumentRetriever.vectorstore self)
       query (int_or k (DocumentRetriever.top_k self)) = Ok vector_results ->
     (List.length docs <=
      List.length (first_seen (map page_content (bm25_docs ++ vector_results))))%nat).
Proof.
  intros Hb Hk. unfold DocumentRetriever.retrieve. rewrite Hb.
  set (k' := int_or k (DocumentRetriever.top_k self)) in *.
  unfold DocumentRetriever._retrieve_hybrid, bind, call, lift.
  destruct (bm25 query) as [bm25_docs|e1]; [|discriminate].
  destruct (DocumentRetriever.similarity_search _ query k')
    as [vector_results|e2]; [|discriminate].
  destruct (rrf_merge_total bm25_docs vector_results k') as (docs' & E & Hm & _).
  rewrite E. intros [= <- _].
  assert (L : List.length docs' =
              List.length (slice_to k' (sorted_docs bm25_docs vector_results))).
  { now rewrite <- (length_map page_content docs'), Hm, length_map. }
  split.
  - rewrite L. now apply slice_to_length.
  - intros b v [= <-] [= <-]. rewrite L, slice_to_pos by assumption.
    rewrite length_firstn.
    rewrite <- (Permutation_length (sorted_docs_keys bm25_docs vector_results)).
    rewrite length_map. lia.
Qed.

Lemma hybrid_result_within_limit_witness :
  (List.length [Sample.beta; Sample.alpha] <= 2)%nat.
Proof.
  apply (proj1 (hybrid_result_within_limit Sample.hybrid Sample.keyword_index
                  "q" (Some 2%Z) [Sample.beta; Sample.alpha] []
                  [KeywordSearch; VectorSearch] eq_refl ltac:(simpl; lia)
                  ltac:(vm_compute; reflexivity))).
Defined.

(** ** The answer generator *)

Section Sources.
Import AnswerGenerator.

Local Abbreviation key_of := (fun d : Document => (filename_of d, page_of d)).
Local Abbreviation dict_of :=
  (fun key : string * string => [("filename", fst key); ("page", snd key)]).

Lemma seen_mem_In (key : string * string) (seen : list (string * string)) :
  seen_mem key seen = true <-> In key seen.
Proof.
  unfold seen_mem. rewrite existsb_exists. split.
  - intros ([a b] & Hin & E). apply andb_true_iff in E. destruct E as [E1 E2].
    apply String.eqb_eq in E1, E2. simpl in *. destruct key as [f p].
    simpl in *. now subst.
  - intros Hin. exists key. split; auto. now rewrite !String.eqb_refl.
Qed.

Lemma fold_extract (docs : list Document) :
  forall st,
    fst st = map dict_of (List.rev (snd st)) ->
    NoDup (snd st) ->
    let st' := fold_left extract_step docs st in
    fst st' = map dict_of (List.rev (snd st')) /\
    NoDup (snd st') /\
    (forall key, In key (snd st') <->
                 In key (snd st) \/ exists d, In d docs /\ key = key_of d).
Proof.
  induction docs as [|doc docs IH]; intros [sources seen] Hs Hn; simpl in *.
  - repeat split; auto. intros [H|(d & [] & _)]; auto.
  - unfold extract_step at 2.
    destruct (seen_mem (key_of doc) seen) eqn:M.
    + destruct (IH (sources, seen) Hs Hn) as (H1 & H2 & H3).
      repeat split; auto.
      * intros H. apply H3 in H. destruct H as [H|(d & Hd & ->)]; auto.
        right. exists d. auto.
      * intros [H|(d & [<-|Hd] & ->)]; apply H3; auto.
        -- left. now apply seen_mem_In.
        -- right. now exists d.
    + assert (Hnot : ~ In (key_of doc) seen).
      { intros H. apply seen_mem_In in H. congruence. }
      destruct (IH (sources ++ [dict_of (key_of doc)], key_of doc :: seen))
        as (H1 & H2 & H3).
      { simpl. rewrite map_app. simpl. now rewrite Hs. }
      { simpl. now constructor. }
      repeat split; auto.
      * intros H. apply H3 in H. simpl in H.
        destruct H as [[<-|H]|(d & Hd & ->)]; auto.
        -- right. exists doc. auto.
        -- right. exists d. auto.
      * intros [H|(d & [<-|Hd] & ->)]; apply H3; simpl; auto.
        right. now exists d.
Qed.

Lemma extract_sources_spec (docs : list Document) :
  NoDup (_extract_sources docs) /\
  (forall src, In src (_extract_sources docs) <->
               exists d, In d docs /\ src = dict_of (key_of d)).
Proof.
  unfold _extract_sources.
  destruct (fold_extract docs (@nil Source, @nil (string * string)) eq_refl
              (NoDup_nil _)) as (H1 & H2 & H3).
  rewrite H1. split.
  - apply NoDup_map_NoDup_ForallPairs.
    + intros [a b] [a' b'] _ _ E. simpl in E. now injection E as -> ->.
    + apply NoDup_rev. exact H2.
  - intros src. rewrite in_map_iff. split.
    + intros (key & <- & Hin). apply in_rev in Hin. apply H3 in Hin.
      destruct Hin as [[]|(d & Hd & ->)]. now exists d.
    + intros (d & Hd & ->). exists (key_of d). split; auto.
      apply in_rev. rewrite rev_involutive. apply H3. right. now exists d.
Qed.

End Sources.

(** X14. [generate_answer] raises exactly when the model raises.  Otherwise
    its answer is the model's reply, its evidence count is the number of
    documents it was given, and its sources list each (filename, page) pair
    of the documents exactly once, with "Unknown" and "N/A" for missing
    metadata. *)
Theorem generate_answer_result
    (self : AnswerGenerator.t) (query : string) (docs : list Document) :
  let reply :=
    AnswerGenerator.llm self (AnswerGenerator.messages_for self query docs) in
  (forall e, reply = Raise e ->
     AnswerGenerator.generate_answer self query docs = Raise e) /\
  (forall content, reply = Ok content ->
     exists srcs,
       AnswerGenerator.generate_answer self query docs =
         Ok {| gen_answer := content; gen_sources := Some srcs;
               gen_context_used := Some (Z.of_nat (List.length docs)) |} /\
       NoDup srcs /\
       (List.length srcs <= List.length docs)%nat /\
       (forall src, In src srcs <->
          exists d, In d docs /\
            src = [("filename", AnswerGenerator.filename_of d);
                   ("page", AnswerGenerator.page_of d)])).
Proof.
  intros reply. unfold AnswerGenerator.generate_answer. fold reply. split.
  - intros e ->. reflexivity.
  - intros content ->. exists (AnswerGenerator._extract_sources docs).
    destruct (extract_sources_spec docs) as [ND Hin].
    split; [reflexivity|]. split; [exact ND|]. split; [|exact Hin].
    rewrite <- (length_map (fun d =>
                  [("filename", AnswerGenerator.filename_of d);
                   ("page", AnswerGenerator.page_of d)]) docs).
    apply (NoDup_incl_length ND).
    intros src Hs. apply Hin in Hs. destruct Hs as (d & Hd & ->).
    apply in_map_iff. now exists d.
Qed.

Lemma generate_answer_result_witness :
  AnswerGenerator.generate_answer
    (Demo.generator (Sample.says "Revenue was 42.")) "q"
    [Sample.alpha; Sample.beta] =
  Ok {| gen_answer := "Revenue was 42.";
        gen_sources := Some [[("filename", "Unknown"); ("page", "N/A")]];
        gen_context_used := Some 2%Z |}.
Proof.
  destruct (generate_answer_result
              (Demo.generator (Sample.says "Revenue was 42.")) "q"
              [Sample.alpha; Sample.beta]) as [_ H].
  destruct (H "Revenue was 42." eq_refl) as (srcs & E & _).
  rewrite E. vm_compute in E. injection E as <-. reflexivity.
Defined.

(** ** The web search tool *)

Section WebSearch.
Import WebSearchTool.

Local Abbreviation limit_for self queries :=
  (if (1 <? Z.of_nat (List.length queries))%Z then 3%Z else max_results self).

Local Abbreviation hits_of self ddgs queries :=
  (fun q : string =>
     match (ddgs : DDGSClient) q (limit_for self queries) with
     | Ok hits => map (hit q) hits
     | Raise _ => []
     end).

Lemma search_loop_ok (self : t) (ddgs : DDGSClient) (queries rest : list string) :
  forall acc,
    (forall q, In q rest ->
       exists hits, ddgs q (limit_for self queries) = Ok hits) ->
    search_loop self ddgs queries rest acc =
      Ok (acc ++ flat_map (hits_of self ddgs queries) rest).
Proof.
  induction rest as [|q rest IH]; intros acc H; simpl.
  - now rewrite app_nil_r.
  - destruct (H q (or_introl eq_refl)) as (hits & E). rewrite E.
    rewrite IH by (intros q' Hq'; apply H; now right).
    now rewrite app_assoc.
Qed.

Lemma search_loop_raise (self : t) (ddgs : DDGSClient)
    (queries rest : list string) :
  forall acc,
    (exists q e, In q rest /\ ddgs q (limit_for self queries) = Raise e) ->
    exists e', search_loop self ddgs queries rest acc = Raise e'.
Proof.
  induction rest as [|q rest IH]; intros acc (q0 & e & Hin & E); simpl.
  - destruct Hin.
  - destruct (ddgs q (limit_for self queries)) as [hits|e1] eqn:E1.
    + apply IH. destruct Hin as [<-|Hin]; [congruence|]. now exists q0, e.
    + now exists e1.
Qed.

Lemma flat_map_length_bound {A B} (f : A -> list B) (l : list A) (n : nat) :
  (forall a, In a l -> (List.length (f a) <= n)%nat) ->
  (List.length (flat_map f l) <= List.length l * n)%nat.
Proof.
  induction l as [|a l IH]; intros H; simpl; [lia|].
  rewrite length_app. specialize (H a (or_introl eq_refl)) as Ha.
  specialize (IH (fun a' Ha' => H a' (or_intror Ha'))). lia.
Qed.

End WebSearch.

(** X15. [search] never raises.  It returns no hit when the provider is not
    installed and when the provider fails on any one of the queries, hits
    of earlier queries included.  Otherwise it returns the hits of all
    queries in order, each labelled with its query; every query is sent
    with limit 3 when there are several and with [max_results] when there
    is one, so a provider that honours the limit yields at most that many
    hits per query. *)
Theorem web_search_all_or_nothing
    (self : WebSearchTool.t) (asked : string + list string) :
  let queries := match asked with inl q => [q] | inr qs => qs end in
  let limit :=
    if (1 <? Z.of_nat (List.length queries))%Z then 3%Z
    else WebSearchTool.max_results self in
  (WebSearchTool.DDGS self = None -> WebSearchTool.search self asked = []) /\
  (forall ddgs, WebSearchTool.DDGS self = Some ddgs ->
     ((exists q e, In q queries /\ ddgs q limit = Raise e) ->
      WebSearchTool.search self asked = []) /\
     ((forall q, In q queries -> exists hits, ddgs q limit = Ok hits) ->
      WebSearchTool.search self asked =
        flat_map (fun q => match ddgs q limit with
                           | Ok hits => map (WebSearchTool.hit q) hits
                           | Raise _ => []
                           end) queries /\
      (forall w, In w (WebSearchTool.search self asked) ->
         exists q, In q queries /\ query w = Some q) /\
      ((forall q hits, ddgs q limit = Ok hits ->
          (List.length hits <= Z.to_nat limit)%nat) ->
       (List.length (WebSearchTool.search self asked)
        <= List.length queries * Z.to_nat limit)%nat))).
Proof.
  intros queries limit. unfold WebSearchTool.search. fold queries. split.
  - intros ->. reflexivity.
  - intros ddgs ->. split.
    + intros H.
      destruct (search_loop_raise self ddgs queries queries [] H) as (e' & E).
      fold limit in E. now rewrite E.
    + intros H.
      pose proof (search_loop_ok self ddgs queries queries [] H) as E.
      fold limit in E. simpl in E. rewrite E. split; [reflexivity|]. split.
      * intros w Hw. apply in_flat_map in Hw. destruct Hw as (q & Hq & Hw).
        exists q. split; auto.
        destruct (ddgs q limit); [|destruct Hw].
        apply in_map_iff in Hw. now destruct Hw as (r & <- & _).
      * intros Hl. apply flat_map_length_bound. intros q Hq.
        destruct (ddgs q limit) as [hits|] eqn:Eq; simpl; [|lia].
        rewrite length_map. now apply (Hl q).
Qed.

Lemma web_search_all_or_nothing_witness :
  WebSearchTool.search Demo.tool_flaky (inr ["q4 revenue"; "guidance"]) = [] /\
  WebSearchTool.search Demo.tool (inr ["q4 revenue"; "guidance"]) =
    [{| title := "Revenue"; href := "https://example.org";
        body := "Q4 revenue was 42."; query := Some "q4 revenue" |};
     {| title := "Revenue"; href := "https://example.org";
        body := "Q4 revenue was 42."; query := Some "guidance" |}].
Proof.
  split.
  - apply (proj1 (proj2 (web_search_all_or_nothing Demo.tool_flaky
                           (inr ["q4 revenue"; "guidance"]))
                    Demo.provider_down eq_refl)).
    exists "guidance", (Exception "rate limited").
    split; [right; now left|reflexivity].
  - destruct (proj2 (proj2 (web_search_all_or_nothing Demo.tool
                              (inr ["q4 revenue"; "guidance"]))
                       Demo.provider eq_refl)) as [E _].
    + intros q _. eexists. reflexivity.
    + rewrite E. reflexivity.
Defined.

(** ** What the judge sees of the evidence *)

(** X16. The relevance grade depends only on the first 500 characters of the
    first three chunks: two non-empty evidence lists that agree on these
    previews get the same grade from the same call. *)
Theorem grade_sees_preview_only (self : RelevanceGrader.t) (question : string)
    (docs docs' : list Document) (log : list Call) :
  docs <> [] -> docs' <> [] ->
  map (fun d => PyStr.take 500 (page_content d)) (firstn 3 docs) =
  map (fun d => PyStr.take 500 (page_content d)) (firstn 3 docs') ->
  RelevanceGrader.grade self question docs log =
  RelevanceGrader.grade self question docs' log.
Proof.
  intros Hd Hd' Hp. destruct docs as [|d ds]; [contradiction|].
  destruct docs' as [|d' ds']; [contradiction|].
  unfold RelevanceGrader.grade, RelevanceGrader.messages_for.
  now rewrite Hp.
Qed.

Lemma grade_sees_preview_only_witness :
  RelevanceGrader.grade (Sample.relevance (Sample.says "yes")) "q"
    [Sample.alpha; Sample.beta; Sample.gamma; Sample.doc "delta"] [] =
  RelevanceGrader.grade (Sample.relevance (Sample.says "yes")) "q"
    [Sample.alpha; Sample.beta; Sample.gamma] [].
Proof.
  apply grade_sees_preview_only; [discriminate|discriminate|reflexivity].
Defined.

(** ** Formatted contexts *)

Lemma is_prefix_app (p t b : string) :
  PyStr.is_prefix p t = true -> PyStr.is_prefix p (t ++ b)%string = true.
Proof.
  revert t. induction p as [|c p IH]; intros t; simpl; auto.
  destruct t as [|c' t]; simpl; [discriminate|].
  destruct (Ascii.eqb c c'); simpl; auto.
Qed.

Lemma is_prefix_self_app (p b : string) :
  PyStr.is_prefix p (p ++ b)%string = true.
Proof.
  induction p as [|c p IH]; simpl; auto. now rewrite Ascii.eqb_refl.
Qed.

Lemma contains_unfold (p t : string) :
  PyStr.contains p t =
  PyStr.is_prefix p t ||
  match t with EmptyString => false | String _ t' => PyStr.contains p t' end.
Proof. destruct t; reflexivity. Qed.

Lemma contains_self_app (p b : string) :
  PyStr.contains p (p ++ b)%string = true.
Proof. rewrite contains_unfold. now rewrite is_prefix_self_app. Qed.

Lemma is_prefix_refl (p : string) : PyStr.is_prefix p p = true.
Proof. induction p as [|c p IH]; simpl; auto. now rewrite Ascii.eqb_refl. Qed.

Lemma contains_refl (p : string) : PyStr.contains p p = true.
Proof. rewrite contains_unfold. now rewrite is_prefix_refl. Qed.

Lemma contains_app_r (p a t : string) :
  PyStr.contains p t = true -> PyStr.contains p (a ++ t)%string = true.
Proof.
  intros H. induction a as [|c a IH]; simpl; auto.
  rewrite IH. apply orb_true_r.
Qed.

Lemma contains_app_l (p t b : string) :
  PyStr.contains p t = true -> PyStr.contains p (t ++ b)%string = true.
Proof.
  induction t as [|c t IH]; intros H.
  - simpl in H. rewrite orb_false_r in H. destruct p; [|discriminate].
    simpl. destruct b; reflexivity.
  - rewrite contains_unfold in H.
    rewrite (contains_unfold p (String c t ++ b)).
    apply orb_true_iff in H. destruct H as [H|H].
    + rewrite (is_prefix_app _ _ b H). reflexivity.
    + cbn [append]. rewrite (IH H). apply orb_true_r.
Qed.

Lemma string_app_nil_r (s : string) : (s ++ "")%string = s.
Proof. induction s as [|c s IH]; simpl; congruence. Qed.

Lemma string_app_assoc (a b c : string) :
  (a ++ (b ++ c))%string = ((a ++ b) ++ c)%string.
Proof. induction a as [|ch a IH]; simpl; congruence. Qed.

Lemma contains_prefix3 (a b c r : string) :
  PyStr.contains (a ++ b ++ c)%string (a ++ b ++ c ++ r)%string = true.
Proof.
  rewrite (string_app_assoc b c r), (string_app_assoc a (b ++ c) r).
  apply contains_self_app.
Qed.

Lemma contains_join (x sep : string) (parts : list string) (p : string) :
  In p parts -> PyStr.contains x p = true ->
  PyStr.contains x (PyStr.join sep parts) = true.
Proof.
  intros Hin Hx. induction parts as [|p0 parts IH]; [destruct Hin|].
  simpl. destruct parts as [|p1 parts].
  - destruct Hin as [<-|[]]. exact Hx.
  - destruct Hin as [<-|Hin].
    + now apply contains_app_l.
    + apply contains_app_r, contains_app_r. now apply IH.
Qed.

Lemma map_snd_combine_same_length {A B} (l1 : list A) (l2 : list B) :
  List.length l1 = List.length l2 -> map snd (combine l1 l2) = l2.
Proof.
  revert l2. induction l1 as [|a l1 IH]; intros [|b l2]; simpl; auto;
    try discriminate.
  intros [= H]. now rewrite IH.
Qed.

Lemma map_fst_combine_same_length {A B} (l1 : list A) (l2 : list B) :
  List.length l1 = List.length l2 -> map fst (combine l1 l2) = l1.
Proof.
  revert l2. induction l1 as [|a l1 IH]; intros [|b l2]; simpl; auto;
    try discriminate.
  intros [= H]. now rewrite IH.
Qed.

Lemma enumerate_from_1_snd {A} (xs : list A) :
  map snd (enumerate_from_1 xs) = xs.
Proof.
  apply map_snd_combine_same_length. now rewrite length_map, length_seq.
Qed.

Lemma enumerate_from_1_fst {A} (xs : list A) :
  map fst (enumerate_from_1 xs) =
  map (fun n => Z.of_nat (S n)) (seq 0 (List.length xs)).
Proof.
  apply map_fst_combine_same_length. now rewrite length_map, length_seq.
Qed.

Lemma enumerate_from_1_In {A} (xs : list A) (x : A) :
  In x xs -> exists i, In (i, x) (enumerate_from_1 xs).
Proof.
  intros H. rewrite <- (enumerate_from_1_snd xs) in H.
  apply in_map_iff in H. destruct H as ([i y] & <- & H). now exists i.
Qed.

Lemma enumerate_from_1_label {A} (xs : list A) (i : nat) :
  (1 <= i <= List.length xs)%nat ->
  exists x, In (Z.of_nat i, x) (enumerate_from_1 xs).
Proof.
  intros Hi.
  assert (H : In (Z.of_nat i) (map fst (enumerate_from_1 xs))).
  { rewrite enumerate_from_1_fst. apply in_map_iff. exists (i - 1)%nat.
    split; [f_equal; lia|]. apply in_seq. lia. }
  apply in_map_iff in H. destruct H as ([j x] & E & H). simpl in E. subst j.
  now exists x.
Qed.

(** X17. Nothing is dropped from a formatted context.  The context that
    [format_context] builds for the state and the one [_format_context]
    builds for the model contain the text of every document, and the fixed
    sentence stands for an empty list.  The context that [format_results]
    builds for the synthesizer contains the title, link and snippet of
    every hit and every citation label [Web 1] to [Web n]. *)
Theorem formatted_contexts_complete :
  RetrieverMore.format_context [] = "No relevant information found." /\
  AnswerGenerator._format_context [] = "No relevant information found." /\
  WebSearchTool.format_results [] = "No web search results found." /\
  (forall docs d, In d docs ->
     PyStr.contains (page_content d) (RetrieverMore.format_context docs) = true /\
     PyStr.contains (page_content d) (AnswerGenerator._format_context docs)
       = true) /\
  (forall results w, In w results ->
     PyStr.contains (title w) (WebSearchTool.format_results results) = true /\
     PyStr.contains (href w) (WebSearchTool.format_results results) = true /\
     PyStr.contains (body w) (WebSearchTool.format_results results) = true) /\
  (forall results i, (1 <= i <= List.length results)%nat ->
     PyStr.contains ("[Web " ++ str_int (Z.of_nat i) ++ "]")%string
       (WebSearchTool.format_results results) = true).
Proof.
  split; [reflexivity|]. split; [reflexivity|]. split; [reflexivity|].
  split; [|split].
  - intros docs d Hd.
    destruct (enumerate_from_1_In docs d Hd) as (i & Hi).
    destruct docs as [|d0 docs0]; [destruct Hd|].
    set (docs := d0 :: docs0) in *. split.
    + unfold RetrieverMore.format_context. fold docs.
      apply (contains_join _ _ _ (RetrieverMore.context_part i d)).
      * apply in_map_iff. now exists (i, d).
      * unfold RetrieverMore.context_part.
        do 8 apply contains_app_r. apply contains_self_app.
    + unfold AnswerGenerator._format_context. fold docs.
      apply (contains_join _ _ _ (AnswerGenerator.context_part i d)).
      * apply in_map_iff. now exists (i, d).
      * unfold AnswerGenerator.context_part.
        do 8 apply contains_app_r. apply contains_refl.
  - intros results w Hw.
    destruct (enumerate_from_1_In results w Hw) as (i & Hi).
    destruct results as [|w0 results0]; [destruct Hw|].
    set (results := w0 :: results0) in *.
    assert (Hp : In (WebSearchTool.formatted_result i w)
                   (map (fun it => WebSearchTool.formatted_result (fst it) (snd it))
                        (enumerate_from_1 results))).
    { apply in_map_iff. now exists (i, w). }
    unfold WebSearchTool.format_results. fold results.
    repeat split;
      apply (contains_join _ _ _ (WebSearchTool.formatted_result i w) Hp);
      unfold WebSearchTool.formatted_result.
    + do 5 apply contains_app_r. apply contains_self_app.
    + do 8 apply contains_app_r. apply contains_self_app.
    + do 11 apply contains_app_r. apply contains_self_app.
  - intros results i Hi.
    destruct (enumerate_from_1_label results i Hi) as (w & Hw).
    destruct results as [|w0 results0]; [simpl in Hi; lia|].
    set (results := w0 :: results0) in *.
    unfold WebSearchTool.format_results. fold results.
    apply (contains_join _ _ _ (WebSearchTool.formatted_result (Z.of_nat i) w)).
    + apply in_map_iff. now exists (Z.of_nat i, w).
    + unfold WebSearchTool.formatted_result.
      apply contains_prefix3.
Qed.

(** ** Web research without hits *)

Section NoHits.
Context `{SA : ScoreArith}.
Import AgentGraph.

Lemma synthesize_value (r : ResearchSynthesizer.t) (q ctx : string)
    (log : list Call) :
  ResearchSynthesizer.synthesize r q ctx log =
    (Ok (match ResearchSynthesizer.llm r
                 [SystemMessage (ResearchSynthesizer.SYSTEM_PROMPT r);
                  HumanMessage
                    ("User Question: " ++ q ++ PyStr.nl ++ PyStr.nl ++
                     "Web Search Context:" ++ PyStr.nl ++ ctx ++ PyStr.nl ++
                     PyStr.nl ++
                     "Please provide a detailed report answering the question.")%string]
         with
         | Ok reply => reply
         | Raise (Exception msg) =>
             ("Error synthesizing research: " ++ msg)%string
         end),
     log ++ [SynthesisGeneration]).
Proof.
  unfold ResearchSynthesizer.synthesize, try_except, call, ret.
  destruct (ResearchSynthesizer.llm r _) as [a|[msg]]; reflexivity.
Qed.

End NoHits.

(** X18. When the web search tool finds nothing (the provider is missing or
    fails), an agent built by the constructor still completes the research
    path: the synthesizer is asked once, with the context "No web search
    results found."; its reply, or the error text when it raises, becomes
    the answer; and the final state has no documents and no sources. *)
Theorem research_without_hits `{SA : ScoreArith}
    (retriever0 : DocumentRetriever.t) (generator0 : AnswerGenerator.t)
    (tool : WebSearchTool.t) (grader0 : HallucinationGrader.t)
    (relevance : RelevanceGrader.t) (refiner : ResearchRefiner.t)
    (synthesizer : ResearchSynthesizer.t)
    (fuel : nat) (s : AgentState) (q : string) (tr : list Node)
    (log : list Call) :
  (forall queries, WebSearchTool.search tool (inr queries) = []) ->
  question s = Some q ->
  let self := AgentGraph.init retriever0 generator0 tool grader0 relevance
                refiner synthesizer in
  exists final,
    AgentGraph.run self (S (S (S fuel))) N_plan_research s tr log =
      (Ok (tr ++ [N_plan_research; N_web_search; N_synthesize_research],
           final),
       log ++ [PlannerGeneration; WebSearchCall; SynthesisGeneration]) /\
    documents final = Some [] /\
    sources final = Some [] /\
    context final = Some "No web search results found." /\
    answer final =
      Some (match ResearchSynthesizer.llm synthesizer
                    [SystemMessage (ResearchSynthesizer.SYSTEM_PROMPT synthesizer);
                     HumanMessage
                       ("User Question: " ++ q ++ PyStr.nl ++ PyStr.nl ++
                        "Web Search Context:" ++ PyStr.nl ++
                        "No web search results found." ++ PyStr.nl ++
                        PyStr.nl ++
                        "Please provide a detailed report answering the question.")%string]
            with
            | Ok reply => reply
            | Raise (Exception msg) =>
                ("Error synthesizing research: " ++ msg)%string
            end) /\
    is_web final = Some true.
Proof.
  intros Hs Hq self.
  destruct (generate_queries_bounded refiner q log) as (planned & Eq & _).
  assert (E1 : AgentGraph.plan_research self s log =
               (Ok (set_research_queries planned s),
                log ++ [PlannerGeneration])).
  { unfold AgentGraph.plan_research, bind, getitem. rewrite Hq.
    unfold ret at 1. change (AgentGraph.research_refiner self) with refiner.
    now rewrite Eq. }
  pose proof (web_search_node_full self (set_research_queries planned s) q
                planned (log ++ [PlannerGeneration]) Hq eq_refl) as E2.
  change (AgentGraph.web_search_tool_search self
            (match planned with [] => [q] | _ :: _ => planned end))
    with (WebSearchTool.search tool
            (inr (match planned with [] => [q] | _ :: _ => planned end)))
    in E2.
  rewrite Hs in E2. simpl map in E2.
  set (s2 := set_is_web true (set_documents [] (set_research_queries planned s)))
    in *.
  set (l2 := (log ++ [PlannerGeneration]) ++ [WebSearchCall]) in *.
  set (ans := match ResearchSynthesizer.llm synthesizer _ with
              | Ok reply => reply
              | Raise (Exception msg) =>
                  ("Error synthesizing research: " ++ msg)%string
              end).
  assert (E3 : exists final,
             AgentGraph.synthesize_research self s2 l2 =
               (Ok final, l2 ++ [SynthesisGeneration]) /\
             documents final = Some [] /\ sources final = Some [] /\
             context final = Some "No web search results found." /\
             answer final = Some ans /\ is_web final = Some true).
  { eexists. split.
    - unfold AgentGraph.synthesize_research, bind, getitem.
      change (question s2) with (question s). rewrite Hq.
      change (documents s2) with (Some (@nil Document)).
      unfold ret at 1 2. simpl AgentGraph.mapM. unfold ret at 1.
      change (AgentGraph.research_synthesizer self) with synthesizer.
      change (AgentGraph.web_search_tool_format_results self [])
        with "No web search results found.".
      rewrite synthesize_value. reflexivity.
    - simpl. repeat split; reflexivity. }
  destruct E3 as (final & E3 & Fd & Fs & Fc & Fa & Fw).
  exists final. split; [|repeat split; assumption].
  rewrite run_step by discriminate. simpl AgentGraph.run_node. rewrite E1.
  simpl AgentGraph.next_node. unfold ret at 1.
  rewrite run_step by discriminate. simpl AgentGraph.run_node. rewrite E2.
  simpl AgentGraph.next_node. unfold ret at 1.
  rewrite run_step by discriminate. simpl AgentGraph.run_node. rewrite E3.
  simpl AgentGraph.next_node. unfold ret at 1. rewrite run_END.
  subst l2. rewrite <- !app_assoc. reflexivity.
Qed.

Lemma research_without_hits_witness :
  exists final,
    AgentGraph.run
      (AgentGraph.init Demo.corpus_retriever
         (Demo.generator (Sample.says "42")) Demo.tool_missing
         (Sample.groundedness (Sample.says "yes"))
         (Sample.relevance (Sample.says "yes"))
         (Sample.refiner (Sample.says "q4 revenue"))
         (Sample.synthesizer Sample.broken))
      3 N_plan_research (initial_state "What was total revenue in Q4?") [] [] =
      (Ok ([N_plan_research; N_web_search; N_synthesize_research], final),
       [PlannerGeneration; WebSearchCall; SynthesisGeneration]) /\
    answer final = Some "Error synthesizing research: model unavailable" /\
    sources final = Some [].
Proof.
  destruct (research_without_hits Demo.corpus_retriever
              (Demo.generator (Sample.says "42")) Demo.tool_missing
              (Sample.groundedness (Sample.says "yes"))
              (Sample.relevance (Sample.says "yes"))
              (Sample.refiner (Sample.says "q4 revenue"))
              (Sample.synthesizer Sample.broken)
              0 (initial_state "What was total revenue in Q4?")
              "What was total revenue in Q4?" [] []
              (fun _ => eq_refl) eq_refl)
    as (final & E & _ & Hs & _ & Ha & _).
  exists final. split; [exact E|]. split; [exact Ha|exact Hs].
Defined.

(** ** Reply lines made of list markers *)

Lemma lstrip_by_empty_cons (p : ascii -> bool) (c : ascii) (s : string) :
  PyStr.lstrip_by p (String c s) = EmptyString ->
  p c = true /\ PyStr.lstrip_by p s = EmptyString.
Proof. simpl. destruct (p c); [auto|discriminate]. Qed.

Lemma lstrip_by_app_all (p : ascii -> bool) (s t : string) :
  PyStr.lstrip_by p s = EmptyString ->
  PyStr.lstrip_by p (s ++ t)%string = PyStr.lstrip_by p t.
Proof.
  induction s as [|c s IH]; intros H; simpl; auto.
  apply lstrip_by_empty_cons in H. destruct H as [Hc Hs]. rewrite Hc. auto.
Qed.

Lemma lstrip_by_rev_all (p : ascii -> bool) (s : string) :
  PyStr.lstrip_by p s = EmptyString ->
  PyStr.lstrip_by p (PyStr.rev_string s) = EmptyString.
Proof.
  induction s as [|c s IH]; intros H; simpl; auto.
  apply lstrip_by_empty_cons in H. destruct H as [Hc Hs].
  rewrite lstrip_by_app_all by auto. simpl. now rewrite Hc.
Qed.

Lemma lstrip_by_keeps (p r : ascii -> bool) (s : string) :
  (forall c, p c = true -> r c = false) ->
  PyStr.lstrip_by p s = EmptyString -> PyStr.lstrip_by r s = s.
Proof.
  intros Hpr H. destruct s as [|c s]; auto.
  apply lstrip_by_empty_cons in H. destruct H as [Hc _].
  simpl. now rewrite (Hpr c Hc).
Qed.

Lemma lstrip_by_removes (p r : ascii -> bool) (s : string) :
  (forall c, p c = true -> r c = true) ->
  PyStr.lstrip_by p s = EmptyString -> PyStr.lstrip_by r s = EmptyString.
Proof.
  intros Hpr. induction s as [|c s IH]; intros H; auto.
  apply lstrip_by_empty_cons in H. destruct H as [Hc Hs].
  simpl. rewrite (Hpr c Hc). auto.
Qed.

Lemma mem_char_absent (p : ascii -> bool) (x : ascii) (s : string) :
  (forall c, p c = true -> Ascii.eqb x c = false) ->
  PyStr.lstrip_by p s = EmptyString -> PyStr.mem_char x s = false.
Proof.
  intros Hp. induction s as [|c s IH]; intros H; auto.
  apply lstrip_by_empty_cons in H. destruct H as [Hc Hs].
  simpl. rewrite (Hp c Hc). auto.
Qed.

Lemma rev_string_app_one (s : string) (c : ascii) :
  PyStr.rev_string (s ++ String c EmptyString) =
  String c (PyStr.rev_string s).
Proof. induction s as [|d s IH]; simpl; auto. now rewrite IH. Qed.

Lemma rev_string_involutive (s : string) :
  PyStr.rev_string (PyStr.rev_string s) = s.
Proof.
  induction s as [|c s IH]; simpl; auto.
  now rewrite rev_string_app_one, IH.
Qed.

Lemma marker_char_cases (c : ascii) :
  PyStr.mem_char c "123." = true ->
  PyStr.is_space c = false /\ PyStr.mem_char c "- " = false /\
  PyStr.mem_char c "123. " = true /\ Ascii.eqb PyStr.newline c = false.
Proof.
  simpl. intros H.
  repeat (apply orb_true_iff in H; destruct H as [H|H]);
    try discriminate; apply Ascii.eqb_eq in H; subst c; repeat split.
Qed.

Lemma marker_line_clean (line : string) :
  PyStr.lstrip "123." line = EmptyString ->
  PyStr.strip line = line /\
  ResearchRefiner.clean_line line = EmptyString /\
  PyStr.split PyStr.newline line = [line].
Proof.
  unfold PyStr.lstrip. intros H.
  assert (S1 : PyStr.strip line = line).
  { unfold PyStr.strip, PyStr.rstrip_by.
    rewrite (lstrip_by_keeps _ PyStr.is_space line
               (fun c Hc => proj1 (marker_char_cases c Hc)) H).
    rewrite (lstrip_by_keeps _ PyStr.is_space (PyStr.rev_string line)
               (fun c Hc => proj1 (marker_char_cases c Hc))
               (lstrip_by_rev_all _ _ H)).
    apply rev_string_involutive. }
  split; [exact S1|]. split.
  - unfold ResearchRefiner.clean_line, PyStr.lstrip. rewrite S1.
    rewrite (lstrip_by_keeps _ (fun c => PyStr.mem_char c "- ") line
               (fun c Hc => proj1 (proj2 (marker_char_cases c Hc))) H).
    apply (lstrip_by_removes _ (fun c => PyStr.mem_char c "123. ") line
             (fun c Hc => proj1 (proj2 (proj2 (marker_char_cases c Hc)))) H).
  - apply split_no_sep.
    apply (mem_char_absent _ PyStr.newline line
             (fun c Hc => proj2 (proj2 (proj2 (marker_char_cases c Hc)))) H).
Qed.

(** X19. A reply that is one non-empty line of list-marker characters ([1],
    [2], [3], [.]) makes the planner return the single empty query; and a
    planned list holding only the empty query is searched as it is: the
    fall-back to the question applies only to an empty list. *)
Theorem planner_marker_only_reply `{SA : ScoreArith}
    (self : ResearchRefiner.t) (question0 : string) (line : string)
    (log : list Call) :
  line <> EmptyString ->
  PyStr.lstrip "123." line = EmptyString ->
  ResearchRefiner.llm self (ResearchRefiner.messages_for self question0)
    = Ok line ->
  ResearchRefiner.generate_queries self question0 log =
    (Ok [EmptyString], log ++ [PlannerGeneration]) /\
  (forall (agent : AgentGraph.t) (s : AgentState) (l : list Call),
     question s = Some question0 ->
     research_queries s = Some [EmptyString] ->
     AgentGraph.web_search agent s l =
       (Ok (set_is_web true
              (set_documents
                 (map AgentGraph.web_document
                    (AgentGraph.web_search_tool_search agent [EmptyString]))
                 s)),
        l ++ [WebSearchCall])).
Proof.
  intros Hne Hm Hr. split.
  - destruct (marker_line_clean line Hm) as (S1 & C & Sp).
    unfold ResearchRefiner.generate_queries, try_except, bind, call, ret.
    rewrite Hr. unfold ResearchRefiner.parse_queries. rewrite S1, Sp.
    simpl filter. rewrite S1.
    destruct line as [|c line]; [contradiction|]. simpl PyStr.truthy.
    cbv iota. simpl map. rewrite C. reflexivity.
  - intros agent s l Hq Hp.
    apply (web_search_node_full agent s question0 [EmptyString] l Hq Hp).
Qed.

Lemma planner_marker_only_reply_witness :
  ResearchRefiner.generate_queries (Sample.refiner (Sample.says "1."))
    "What was total revenue in Q4?" [] =
  (Ok [EmptyString], [PlannerGeneration]).
Proof.
  apply (proj1 (planner_marker_only_reply (SA := QScore)
                  (Sample.refiner (Sample.says "1."))
                  "What was total revenue in Q4?" "1." []
                  ltac:(discriminate) eq_refl eq_refl)).
Defined.
